(** * ata_id: reading product and serial number from ATA drives

    A shallow embedding of [src/udev/ata_id/ata_id.c] and the properties of
    its probe sequence and of its decoder.

    Conventions.
    - A [uint8_t], [uint16_t], [unsigned] or [size_t] value is a [Z]; the
      wrap-around of the C arithmetic is written out with [mod].
    - A byte buffer is a [list Z]. Where the program walks a buffer through
      a pointer ([disk_identify_get_string]) an access is a lookup or an
      update at an address, and an access outside the memory is a fault. An
      array read at a constant index ([sense[8]], [inquiry_buf[0]],
      [identify.wyde[76]]) is [nth] at that index.
    - [ioctl] is the only way the program talks to the device: it is a
      parameter of the development (an oracle threading a world), and every
      call is recorded in a log. *)

From Stdlib Require Import ZArith String List Bool Lia.
From stdpp Require Import base list.

Import ListNotations.
Open Scope string_scope.
Open Scope list_scope.
Open Scope Z_scope.

(** ** Machine arithmetic *)

Module Mach.

(** [unsigned] is 32 bits wide and [size_t] 64 bits wide (Linux, LP64). *)
Definition UINT_MOD : Z := 2 ^ 32.
Definition SIZE_MOD : Z := 2 ^ 64.

Definition wrap_unsigned (x : Z) : Z := x mod UINT_MOD.
Definition wrap_size (x : Z) : Z := x mod SIZE_MOD.
Definition wrap_u8 (x : Z) : Z := x mod 256.
Definition wrap_u16 (x : Z) : Z := x mod 65536.
Definition wrap_u64 (x : Z) : Z := x mod 2 ^ 64.

End Mach.

(** ** Memory: a flat array of bytes addressed from 0 *)

Module Mem.

Abbreviation mem := (list Z).

Definition load (m : mem) (a : Z) : option Z :=
  if a <? 0 then None else m !! Z.to_nat a.

Definition store (m : mem) (a v : Z) : option mem :=
  if (0 <=? a) && (a <? Z.of_nat (length m))
  then Some (<[Z.to_nat a := v]> m)
  else None.

End Mem.

(** The three ways a run of a loop can end. *)
Inductive outcome (A : Type) : Type :=
  | Returned (a : A)
  | Fault
  | OutOfFuel.
Arguments Returned {A} a.
Arguments Fault {A}.
Arguments OutOfFuel {A}.

(** ** [disk_identify_get_string] and [disk_identify_fixup_string] *)

Module GetString.
Import Mach Mem.

(** The variables of the loop: the memory the two pointers point into, and
    the parameters [offset_words], [dest] and [dest_len], which the loop
    updates. [identify] is never assigned and stays a parameter. *)
Record state : Type := State {
  st_mem : mem;
  st_offset_words : Z;
  st_dest : Z;
  st_dest_len : Z
}.

(** One iteration of the [while] body (source lines 270 to 277). Both bytes
    are read before either is written. *)
Definition loop_body (identify : Z) (st : state) : option state :=
  match load (st_mem st) (identify + wrap_unsigned (st_offset_words st * 2 + 1)) with
  | None => None
  | Some c1 =>
    match load (st_mem st) (identify + wrap_unsigned (st_offset_words st * 2)) with
    | None => None
    | Some c2 =>
      match store (st_mem st) (st_dest st) c1 with
      | None => None
      | Some m1 =>
        match store m1 (st_dest st + 1) c2 with
        | None => None
        | Some m2 =>
          Some (State m2
                      (wrap_unsigned (st_offset_words st + 1))
                      (st_dest st + 2)
                      (wrap_size (st_dest_len st - 2)))
        end
      end
    end
  end.

(** [while (dest_len > 0) body]. *)
Fixpoint while_loop (fuel : nat) (identify : Z) (st : state) : outcome mem :=
  match fuel with
  | O => OutOfFuel
  | S fuel' =>
    if 0 <? st_dest_len st then
      match loop_body identify st with
      | None => Fault
      | Some st' => while_loop fuel' identify st'
      end
    else Returned (st_mem st)
  end.

(** The state after [n] iterations of the body, the loop test included. *)
Fixpoint iterations (n : nat) (identify : Z) (st : state) : option state :=
  match n with
  | O => Some st
  | S n' =>
    if 0 <? st_dest_len st then
      match loop_body identify st with
      | None => None
      | Some st' => iterations n' identify st'
      end
    else None
  end.

Definition disk_identify_get_string (fuel : nat) (m : mem)
    (identify offset_words dest dest_len : Z) : outcome mem :=
  while_loop fuel identify (State m offset_words dest dest_len).

(** [disk_identify_fixup_string]: the destination is the source range. *)
Definition disk_identify_fixup_string (fuel : nat) (m : mem)
    (identify offset_words len : Z) : outcome mem :=
  disk_identify_get_string fuel m identify offset_words
    (identify + wrap_unsigned (offset_words * 2)) len.

(** The byte-pair swap on a list of bytes: what the loop amounts to when the
    destination is the source range. *)
Fixpoint swap_pairs (l : list Z) : list Z :=
  match l with
  | x :: y :: rest => y :: x :: swap_pairs rest
  | _ => l
  end.

End GetString.

(** ** The kernel interface: [ioctl(fd, SG_IO, ...)] and [HDIO_GET_IDENTITY] *)

Module Sys.
Import Mach.

(** The two generations of the SG_IO interface: [struct sg_io_v4] (guard
    ['Q']) and [struct sg_io_hdr] (interface id ['S']). *)
Inductive sg_iface : Type := SG_V4 | SG_V3.

(** What the program hands to the kernel: the command descriptor block, the
    contents of the data-in buffer and of the sense buffer at the time of
    the call, the transfer length and the timeout. *)
Record sg_request : Type := SgRequest {
  rq_iface : sg_iface;
  rq_cdb : list Z;
  rq_data : list Z;
  rq_len : Z;
  rq_sense : list Z;
  rq_timeout : Z
}.

(** What the kernel hands back: the value of [ioctl], the [errno] it sets
    when that value is not 0, the bytes it transferred into the data-in and
    sense buffers, and the three status fields of the header
    ([device_status], [transport_status], [driver_status] for version 4;
    [status], [host_status], [driver_status] for version 3). *)
Record sg_reply : Type := SgReply {
  rp_ret : Z;
  rp_errno : Z;
  rp_data : list Z;
  rp_sense : list Z;
  rp_status : Z;
  rp_transport : Z;
  rp_driver : Z
}.

(** The fields of [struct hd_driveid] that [main] reads. The structure is
    declared in [linux/hdreg.h]; its three strings are byte arrays. *)
Record hd_driveid : Type := HdDriveid {
  config : Z;
  serial_no : list Z;
  fw_rev : list Z;
  model : list Z;
  command_set_1 : Z;
  command_set_2 : Z;
  cfs_enable_1 : Z;
  cfs_enable_2 : Z;
  trseuc : Z;
  trsEuc : Z;
  CurAPMvalues : Z;
  acoustic : Z;
  dlf : Z
}.

Record hdio_reply : Type := HdioReply {
  hr_ret : Z;
  hr_errno : Z;
  hr_id : hd_driveid
}.

(** The device behind the file descriptor. *)
Class Device : Type := {
  world : Type;
  SG_IO : world -> sg_request -> sg_reply * world;
  HDIO_GET_IDENTITY : world -> hdio_reply * world
}.

Inductive event : Type :=
  | EvSgIo (rq : sg_request)
  | EvHdioGetIdentity.

(** The state the program threads: the device, [errno], and the log of the
    [ioctl] calls made so far. *)
Record sys `{Device} : Type := Sys {
  sys_world : world;
  sys_errno : Z;
  sys_log : list event
}.

Definition M `{Device} (A : Type) : Type := sys -> A * sys.

Definition mret `{Device} {A : Type} (a : A) : M A := fun s => (a, s).

Definition mbind `{Device} {A B : Type} (m : M A) (k : A -> M B) : M B :=
  fun s => let (a, s') := m s in k a s'.

Definition EIO : Z := 5.
Definition EINVAL : Z := 22.
Definition COMMAND_TIMEOUT_MSEC : Z := 30 * 1000.

Definition get_errno `{Device} : M Z := fun s => (sys_errno s, s).

Definition set_errno `{Device} (e : Z) : M unit :=
  fun s => (tt, Sys _ (sys_world s) e (sys_log s)).

(** The kernel writes at most [len] bytes, and never past the buffer; the
    bytes it does not write keep their value. *)
Definition transfer (len : Z) (data buf : list Z) : list Z :=
  let d := take (Nat.min (Z.to_nat len) (length buf)) (map wrap_u8 data) in
  d ++ drop (length d) buf.

(** One [ioctl(fd, SG_IO, &hdr)]: the reply, and the two buffers after it. *)
Definition ioctl_SG_IO `{Device} (iface : sg_iface) (cdb buf : list Z)
    (buf_len : Z) (sense : list Z) : M (sg_reply * list Z * list Z) :=
  fun s =>
    let rq := SgRequest iface cdb buf buf_len sense COMMAND_TIMEOUT_MSEC in
    let (rp, w) := SG_IO (sys_world s) rq in
    (rp, transfer buf_len (rp_data rp) buf,
         transfer (Z.of_nat (length sense)) (rp_sense rp) sense,
     Sys _ w
         (if rp_ret rp =? 0 then sys_errno s else rp_errno rp)
         (sys_log s ++ [EvSgIo rq])).

Definition ioctl_HDIO_GET_IDENTITY `{Device} : M hdio_reply :=
  fun s =>
    let (hr, w) := HDIO_GET_IDENTITY (sys_world s) in
    (hr, Sys _ w
             (if hr_ret hr =? 0 then sys_errno s else hr_errno hr)
             (sys_log s ++ [EvHdioGetIdentity])).

End Sys.

Notation "x <- m ;; k" := (Sys.mbind m (fun x => k))
  (at level 100, m at next level, right associativity).

(** ** The three commands *)

Module Transport.
Import Mach Sys.

Section Commands.
Context `{Device}.

(** [uint8_t sense[32] = {}]. *)
Definition sense_init : list Z := repeat 0 32.

(** INQUIRY, SPC-4 section 6.4: a 6-byte descriptor. *)
Definition inquiry_cdb (buf_len : Z) : list Z :=
  [ 0x12; 0; 0; wrap_u8 (Z.shiftr buf_len 8); wrap_u8 (Z.land buf_len 0xff); 0 ].

(** ATA Pass-Through (12) carrying IDENTIFY DEVICE. *)
Definition identify_cdb : list Z :=
  [ 0xa1; Z.shiftl 4 1; 0x2e; 0; 1; 0; 0; 0; Z.land 0 0x4F; 0xEC; 0; 0 ].

(** ATA Pass-Through (16) carrying IDENTIFY PACKET DEVICE. *)
Definition identify_packet_cdb : list Z :=
  [ 0x85; Z.shiftl 4 1; 0x2e; 0; 0; 0; 1; 0; 0; 0; 0; 0; 0; 0; 0xA1; 0 ].

(** [!(a == 0 && b == 0 && c == 0)] on the status fields of a reply. *)
Definition status_bad (rp : sg_reply) : bool :=
  negb ((rp_status rp =? 0) && (rp_transport rp =? 0) && (rp_driver rp =? 0)).

(** Source lines 34 to 100. After a version 3 submission that passes its
    own status check, control still reaches the check of the version 4
    header at line 92. *)
Definition disk_scsi_inquiry_command (buf : list Z) (buf_len : Z)
    : M (Z * list Z) :=
  let cdb := inquiry_cdb buf_len in
  let check_v4 (r4 : sg_reply) (buf' : list Z) : M (Z * list Z) :=
    if status_bad r4 then
      _ <- set_errno EIO ;; mret (-1, buf')
    else mret (0, buf') in
  x4 <- ioctl_SG_IO SG_V4 cdb buf buf_len sense_init ;;
  let '(r4, buf1, sense1) := x4 in
  if negb (rp_ret r4 =? 0) then
    errno <- get_errno ;;
    if errno =? EINVAL then
      x3 <- ioctl_SG_IO SG_V3 cdb buf1 buf_len sense1 ;;
      let '(r3, buf2, _) := x3 in
      if negb (rp_ret r3 =? 0) then mret (rp_ret r3, buf2)
      else if status_bad r3 then
        _ <- set_errno EIO ;; mret (-1, buf2)
      else check_v4 r4 buf2
    else mret (rp_ret r4, buf1)
  else check_v4 r4 buf1.

(** The submission shared, word for word, by [disk_identify_command]
    (source lines 142 to 163) and [disk_identify_packet_device_command]
    (lines 220 to 241): version 4 first, version 3 when version 4 fails
    with [EINVAL]. It yields the value the function would return at this
    point (0 when control goes on to the sense check), the data buffer and
    the sense buffer. *)
Definition submit (cdb buf : list Z) (buf_len : Z)
    : M (Z * list Z * list Z) :=
  x4 <- ioctl_SG_IO SG_V4 cdb buf buf_len sense_init ;;
  let '(r4, buf1, sense1) := x4 in
  if negb (rp_ret r4 =? 0) then
    errno <- get_errno ;;
    if errno =? EINVAL then
      x3 <- ioctl_SG_IO SG_V3 cdb buf1 buf_len sense1 ;;
      let '(r3, buf2, sense2) := x3 in
      if negb (rp_ret r3 =? 0) then mret (rp_ret r3, buf2, sense2)
      else mret (0, buf2, sense2)
    else mret (rp_ret r4, buf1, sense1)
  else mret (0, buf1, sense1).

(** [sense[0] == 0x72 && desc[0] == 0x9 && desc[1] == 0x0c], with
    [desc = sense + 8]. *)
Definition sense_descriptor_ok (sense : list Z) : bool :=
  let desc := drop 8 sense in
  (nth 0 sense 0 =? 0x72) && (nth 0 desc 0 =? 0x9) && (nth 1 desc 0 =? 0x0c).

(** [sense[0] == 0x70 && sense[12] == 0x00 && sense[13] == 0x1d]. *)
Definition sense_fixed_ok (sense : list Z) : bool :=
  (nth 0 sense 0 =? 0x70) && (nth 12 sense 0 =? 0x00) && (nth 13 sense 0 =? 0x1d).

(** Source lines 102 to 172. *)
Definition disk_identify_command (buf : list Z) (buf_len : Z)
    : M (Z * list Z) :=
  x <- submit identify_cdb buf buf_len ;;
  let '(ret, buf', sense) := x in
  if negb (ret =? 0) then mret (ret, buf')
  else if negb (sense_descriptor_ok sense) && negb (sense_fixed_ok sense) then
    _ <- set_errno EIO ;; mret (-1, buf')
  else mret (0, buf').

(** Source lines 174 to 249. *)
Definition disk_identify_packet_device_command (buf : list Z) (buf_len : Z)
    : M (Z * list Z) :=
  x <- submit identify_packet_cdb buf buf_len ;;
  let '(ret, buf', sense) := x in
  if negb (ret =? 0) then mret (ret, buf')
  else if negb (sense_descriptor_ok sense) then
    _ <- set_errno EIO ;; mret (-1, buf')
  else mret (0, buf').

End Commands.
End Transport.

(** ** [disk_identify]: the probe sequence *)

Module Probe.
Import Mach Sys Transport.

(** [memzero(p, n)]. *)
Definition memzero (buf : list Z) (n : nat) : list Z :=
  repeat 0 n ++ drop n buf.

(** The [for] loop of source lines 370 to 376: [n] runs from [n] up to 512
    and stops at the first byte that is not NUL. [k] counts the bytes left. *)
Fixpoint all_nul_from (out_identify : list Z) (n : nat) (k : nat) : bool :=
  match k with
  | O => true
  | S k' => if negb (nth n out_identify 0 =? 0) then false
            else all_nul_from out_identify (S n) k'
  end.

Definition all_nul_bytes (out_identify : list Z) : bool :=
  all_nul_from out_identify 0 512.

(** The result of [disk_identify]: its value, and what it stored through
    [out_identify] and [out_is_packet_device]. *)
Record identify_result : Type := IdentifyResult {
  ir_ret : Z;
  ir_identify : list Z;
  ir_is_packet_device : Z
}.

Section Identify.
Context `{Device}.

(** The label [check_nul_bytes] and what follows it. *)
Definition check_nul_bytes (ret : Z) (out_identify : list Z)
    (is_packet_device : Z) : M identify_result :=
  if all_nul_bytes out_identify then
    _ <- set_errno EIO ;;
    mret (IdentifyResult (-1) out_identify is_packet_device)
  else mret (IdentifyResult ret out_identify is_packet_device).

(** Source lines 311 to 388. [inquiry_buf] is the local array of 36
    bytes, which has no initialiser: its contents on entry are whatever
    the stack holds, and are a parameter here. *)
Definition disk_identify (out_identify inquiry_buf : list Z)
    : M identify_result :=
  let out0 := memzero out_identify 512 in
  xi <- disk_scsi_inquiry_command inquiry_buf 36 ;;
  let '(ret, inquiry_buf') := xi in
  if negb (ret =? 0) then mret (IdentifyResult ret out0 0)
  else
    let peripheral_device_type := Z.land (nth 0 inquiry_buf' 0) 0x1f in
    if peripheral_device_type =? 0x05 then
      xp <- disk_identify_packet_device_command out0 512 ;;
      let '(ret, out1) := xp in
      check_nul_bytes ret out1 1
    else if negb ((peripheral_device_type =? 0x00)
                  || (peripheral_device_type =? 0x14)) then
      _ <- set_errno EIO ;;
      mret (IdentifyResult (-1) out0 0)
    else
      xd <- disk_identify_command out0 512 ;;
      let '(ret, out1) := xd in
      if negb (ret =? 0) then mret (IdentifyResult ret out1 0)
      else check_nul_bytes ret out1 0.

End Identify.
End Probe.

(** ** The decoder and [main] *)

Module Decode.
Import Mach Sys GetString.

(** What [main] takes from its platform and from the rest of the tree: the
    byte order of the host, the layout of [struct hd_driveid] (the
    [memcpy] of line 475 reads the block through it), and the string
    helpers of [udev-util] and [device-nodes]. *)
Class Platform : Type := {
  host_big_endian : bool;
  memcpy_hd_driveid : list Z -> hd_driveid;
  encode_devnode_name : list Z -> string;
  udev_replace_whitespace : list Z -> Z -> string;
  udev_replace_chars : string -> string
}.

(** A line written by [printf]: a key with the value formatted after the
    [=] ([%d], [0x%PRIx64] or text), or a line that is no assignment. *)
Inductive value : Type :=
  | Num (n : Z)
  | Hex (n : Z)
  | Text (s : string).

Inductive line : Type :=
  | KV (key : string) (v : value)
  | Bare (s : string).

Definition line_key (l : line) : option string :=
  match l with
  | KV k _ => Some k
  | Bare _ => None
  end.

(** [w & (1 << n)] used as a condition. *)
Definition bit_set (w n : Z) : bool := negb (Z.land w (Z.shiftl 1 n) =? 0).

Definition when (b : bool) (ls : list line) : list line :=
  if b then ls else [].

Section Words.
Context `{Platform}.

(** [identify.wyde[k]]: the union read as 16-bit words in host order. *)
Definition wyde (identify : list Z) (k : nat) : Z :=
  let b0 := nth (2 * k) identify 0 in
  let b1 := nth (2 * k + 1) identify 0 in
  if host_big_endian then b0 * 256 + b1 else b0 + b1 * 256.

Definition set_wyde (identify : list Z) (k : nat) (v : Z) : list Z :=
  let hi := wrap_u8 (Z.shiftr v 8) in
  let lo := wrap_u8 v in
  if host_big_endian
  then <[(2 * k + 1)%nat := lo]> (<[(2 * k)%nat := hi]> identify)
  else <[(2 * k + 1)%nat := hi]> (<[(2 * k)%nat := lo]> identify).

Definition bswap_16 (x : Z) : Z :=
  wrap_u16 (Z.lor (Z.shiftl (Z.land x 0xff) 8) (Z.land (Z.shiftr x 8) 0xff)).

Definition le16toh (x : Z) : Z :=
  if host_big_endian then bswap_16 x else x.

(** [p[offset_words] = le16toh(p[offset_words])]. *)
Definition disk_identify_fixup_uint16 (identify : list Z)
    (offset_words : nat) : list Z :=
  set_wyde identify offset_words (le16toh (wyde identify offset_words)).

End Words.

(** The string fix-ups of [main], source lines 453 to 455: word offset and
    length in bytes of serial, firmware revision and model. *)
Definition string_fixups : list (Z * Z) := [ (10, 20); (23, 8); (27, 40) ].

(** The word fix-ups of [main], source lines 456 to 474. *)
Definition uint16_fixups : list nat :=
  [ 0; 75; 76; 82; 83; 84; 85; 86; 87; 89; 90; 91; 94;
    108; 109; 110; 111; 128; 217 ]%nat.

(** The string fix-ups, in order, on the block at address 0. *)
Fixpoint fixup_strings (fuel : nat) (calls : list (Z * Z)) (identify : list Z)
    : outcome (list Z) :=
  match calls with
  | [] => Returned identify
  | (offset_words, len) :: rest =>
    match disk_identify_fixup_string fuel identify 0 offset_words len with
    | Returned identify' => fixup_strings fuel rest identify'
    | Fault => Fault
    | OutOfFuel => OutOfFuel
    end
  end.

Section Printing.
Context `{Platform}.

Definition fixup_words (identify : list Z) : list Z :=
  fold_left disk_identify_fixup_uint16 uint16_fixups identify.

(** [ID_TYPE], source lines 498 to 518. *)
Definition export_type (id : hd_driveid) : list line :=
  if negb (Z.land (Z.shiftr (config id) 8) 0x80 =? 0) then
    let t := Z.land (Z.shiftr (config id) 8) 0x1f in
    if t =? 0 then [KV "ID_TYPE" (Text "cd")]
    else if t =? 1 then [KV "ID_TYPE" (Text "tape")]
    else if t =? 5 then [KV "ID_TYPE" (Text "cd")]
    else if t =? 7 then [KV "ID_TYPE" (Text "optical")]
    else [KV "ID_TYPE" (Text "generic")]
  else [KV "ID_TYPE" (Text "disk")].

(** Source lines 519 to 527. *)
Definition export_strings (model model_enc revision serial : string)
    : list line :=
  [ KV "ID_BUS" (Text "ata");
    KV "ID_MODEL" (Text model);
    KV "ID_MODEL_ENC" (Text model_enc);
    KV "ID_REVISION" (Text revision) ]
  ++ (if negb (String.eqb serial "") then
        [ KV "ID_SERIAL" (Text (model ++ "_" ++ serial));
          KV "ID_SERIAL_SHORT" (Text serial) ]
      else [ KV "ID_SERIAL" (Text model) ]).

Definition enabled (w n : Z) : value := Num (if bit_set w n then 1 else 0).

(** The feature sets, source lines 529 to 586. *)
Definition export_features (id : hd_driveid) : list line :=
  when (bit_set (command_set_1 id) 5)
    [ KV "ID_ATA_WRITE_CACHE" (Num 1);
      KV "ID_ATA_WRITE_CACHE_ENABLED" (enabled (cfs_enable_1 id) 5) ]
  ++ when (bit_set (command_set_1 id) 10)
    [ KV "ID_ATA_FEATURE_SET_HPA" (Num 1);
      KV "ID_ATA_FEATURE_SET_HPA_ENABLED" (enabled (cfs_enable_1 id) 10) ]
  ++ when (bit_set (command_set_1 id) 3)
    [ KV "ID_ATA_FEATURE_SET_PM" (Num 1);
      KV "ID_ATA_FEATURE_SET_PM_ENABLED" (enabled (cfs_enable_1 id) 3) ]
  ++ when (bit_set (command_set_1 id) 1)
    ([ KV "ID_ATA_FEATURE_SET_SECURITY" (Num 1);
       KV "ID_ATA_FEATURE_SET_SECURITY_ENABLED" (enabled (cfs_enable_1 id) 1);
       KV "ID_ATA_FEATURE_SET_SECURITY_ERASE_UNIT_MIN" (Num (trseuc id * 2)) ]
     ++ when (bit_set (cfs_enable_1 id) 1)
          (if bit_set (dlf id) 8
           then [ KV "ID_ATA_FEATURE_SET_SECURITY_LEVEL" (Text "maximum") ]
           else [ KV "ID_ATA_FEATURE_SET_SECURITY_LEVEL" (Text "high") ])
     ++ when (bit_set (dlf id) 5)
          [ KV "ID_ATA_FEATURE_SET_SECURITY_ENHANCED_ERASE_UNIT_MIN"
               (Num (trsEuc id * 2)) ]
     ++ when (bit_set (dlf id) 4)
          [ KV "ID_ATA_FEATURE_SET_SECURITY_EXPIRE" (Num 1) ]
     ++ when (bit_set (dlf id) 3)
          [ KV "ID_ATA_FEATURE_SET_SECURITY_FROZEN" (Num 1) ]
     ++ when (bit_set (dlf id) 2)
          [ KV "ID_ATA_FEATURE_SET_SECURITY_LOCKED" (Num 1) ])
  ++ when (bit_set (command_set_1 id) 0)
    [ KV "ID_ATA_FEATURE_SET_SMART" (Num 1);
      KV "ID_ATA_FEATURE_SET_SMART_ENABLED" (enabled (cfs_enable_1 id) 0) ]
  ++ when (bit_set (command_set_2 id) 9)
    [ KV "ID_ATA_FEATURE_SET_AAM" (Num 1);
      KV "ID_ATA_FEATURE_SET_AAM_ENABLED" (enabled (cfs_enable_2 id) 9);
      KV "ID_ATA_FEATURE_SET_AAM_VENDOR_RECOMMENDED_VALUE"
         (Num (Z.shiftr (acoustic id) 8));
      KV "ID_ATA_FEATURE_SET_AAM_CURRENT_VALUE"
         (Num (Z.land (acoustic id) 0xff)) ]
  ++ when (bit_set (command_set_2 id) 5)
    [ KV "ID_ATA_FEATURE_SET_PUIS" (Num 1);
      KV "ID_ATA_FEATURE_SET_PUIS_ENABLED" (enabled (cfs_enable_2 id) 5) ]
  ++ when (bit_set (command_set_2 id) 3)
    ([ KV "ID_ATA_FEATURE_SET_APM" (Num 1);
       KV "ID_ATA_FEATURE_SET_APM_ENABLED" (enabled (cfs_enable_2 id) 3) ]
     ++ when (bit_set (cfs_enable_2 id) 3)
          [ KV "ID_ATA_FEATURE_SET_APM_CURRENT_VALUE"
               (Num (Z.land (CurAPMvalues id) 0xff)) ])
  ++ when (bit_set (command_set_2 id) 0)
    [ KV "ID_ATA_DOWNLOAD_MICROCODE" (Num 1) ].

End Printing.

(** Word 76, source lines 595 to 609. [word] is a [uint16_t]. *)
Definition export_sata (word : Z) : list line :=
  when (negb ((word =? 0x0000) || (word =? 0xffff)))
    ([ KV "ID_ATA_SATA" (Num 1) ]
     ++ when (bit_set word 2) [ KV "ID_ATA_SATA_SIGNAL_RATE_GEN2" (Num 1) ]
     ++ when (bit_set word 1) [ KV "ID_ATA_SATA_SIGNAL_RATE_GEN1" (Num 1) ]).

(** Word 217, source lines 612 to 616. *)
Definition export_rotation_rate (word : Z) : list line :=
  if word =? 0x0001 then [ KV "ID_ATA_ROTATION_RATE_RPM" (Num 0) ]
  else if (0x0401 <=? word) && (word <=? 0xfffe)
  then [ KV "ID_ATA_ROTATION_RATE_RPM" (Num word) ]
  else [].

(** The [uint64_t wwwn] of source lines 627 to 633. *)
Definition wwwn_of (w108 w109 w110 w111 : Z) : Z :=
  let wwwn := w108 in
  let wwwn := wrap_u64 (Z.shiftl wwwn 16) in
  let wwwn := Z.lor wwwn w109 in
  let wwwn := wrap_u64 (Z.shiftl wwwn 16) in
  let wwwn := Z.lor wwwn w110 in
  let wwwn := wrap_u64 (Z.shiftl wwwn 16) in
  let wwwn := Z.lor wwwn w111 in
  wwwn.

(** Words 108 to 111, source lines 623 to 637. *)
Definition export_wwn (w108 w109 w110 w111 : Z) : list line :=
  when (Z.land w108 0xf000 =? 0x5000)
    [ KV "ID_WWN" (Hex (wwwn_of w108 w109 w110 w111));
      KV "ID_WWN_WITH_EXTENSION" (Hex (wwwn_of w108 w109 w110 w111)) ].

(** Source lines 640 to 642. *)
Definition export_cfa (w0 w83 : Z) : list line :=
  when ((w0 =? 0x848a) || (w0 =? 0x844a) || (Z.land w83 0xc004 =? 0x4004))
    [ KV "ID_ATA_CFA" (Num 1) ].

End Decode.

Module Main.
Import Mach Sys Transport Probe Decode.

Section Body.
Context `{Device} `{Platform}.

(** Everything [main] prints (source lines 494 to 648), from the
    structure [id] and from the union [identify]. *)
Definition output (export : bool) (id : hd_driveid) (identify : list Z)
    : list line :=
  let model_enc := encode_devnode_name (model id) in
  let model := udev_replace_chars (udev_replace_whitespace (model id) 40) in
  let serial := udev_replace_chars (udev_replace_whitespace (serial_no id) 20) in
  let revision := udev_replace_chars (udev_replace_whitespace (fw_rev id) 8) in
  if export then
    [ KV "ID_ATA" (Num 1) ]
    ++ export_type id
    ++ export_strings model model_enc revision serial
    ++ export_features id
    ++ export_sata (wyde identify 76)
    ++ export_rotation_rate (wyde identify 217)
    ++ export_wwn (wyde identify 108) (wyde identify 109)
                  (wyde identify 110) (wyde identify 111)
    ++ export_cfa (wyde identify 0) (wyde identify 83)
  else if negb (String.eqb serial "") then [ Bare (model ++ "_" ++ serial) ]
  else [ Bare model ].

(** [main] from the call of [disk_identify] on (source lines 448 to
    650): the exit status and the lines printed. [identify] and
    [inquiry_buf] are the contents of the two uninitialised arrays. *)
Definition main (fuel : nat) (export : bool) (identify inquiry_buf : list Z)
    : M (outcome (Z * list line)) :=
  r <- disk_identify identify inquiry_buf ;;
  if ir_ret r =? 0 then
    match fixup_strings fuel string_fixups (ir_identify r) with
    | Returned identify1 =>
      let identify2 := fixup_words identify1 in
      mret (Returned (0, output export (memcpy_hd_driveid identify2) identify2))
    | Fault => mret Fault
    | OutOfFuel => mret OutOfFuel
    end
  else
    hr <- ioctl_HDIO_GET_IDENTITY ;;
    if negb (hr_ret hr =? 0) then mret (Returned (2, []))
    else mret (Returned (0, output export (hr_id hr) (ir_identify r))).

End Body.
End Main.

(** ** Test devices *)

Module Bench.
Import Mach Sys Decode.

(** A scripted device: the world is the list of the replies still to
    come; a call past the end of the script fails with [EIO]. *)
Definition failed_reply : sg_reply := SgReply (-1) EIO [] [] 0 0 0.

Definition blank_id : hd_driveid :=
  HdDriveid 0 (repeat 32 20) (repeat 32 8) (repeat 32 40) 0 0 0 0 0 0 0 0 0.

#[export] Instance scripted : Device := {
  world := list sg_reply;
  SG_IO := fun w _ =>
    match w with
    | [] => (failed_reply, [])
    | rp :: w' => (rp, w')
    end;
  HDIO_GET_IDENTITY := fun w => (HdioReply 0 0 blank_id, w)
}.

Definition boot (script : list sg_reply) : sys := Sys scripted script 0 [].

(** A successful reply carrying [data] and descriptor-format sense. *)
Definition good_sense : list Z := [ 0x72; 0; 0; 0; 0; 0; 0; 0; 0x09; 0x0c ].
Definition ok_reply (data : list Z) : sg_reply := SgReply 0 0 data good_sense 0 0 0.

(** A reply that reports success and transfers nothing. *)
Definition empty_reply : sg_reply := SgReply 0 0 [] good_sense 0 0 0.

(** A little-endian host; the strings pass through unchanged up to their
    conversion from bytes, and the structure is read at the word offsets
    of [linux/hdreg.h]. *)
Definition bytes_to_string (bs : list Z) : string :=
  string_of_list_ascii (map (fun b => Ascii.ascii_of_N (Z.to_N b)) bs).

Definition le_word (identify : list Z) (k : nat) : Z :=
  nth (2 * k) identify 0 + nth (2 * k + 1) identify 0 * 256.

#[export] Instance little_endian_host : Platform := {
  host_big_endian := false;
  memcpy_hd_driveid := fun b =>
    HdDriveid (le_word b 0)
              (take 20 (drop 20 b)) (take 8 (drop 46 b)) (take 40 (drop 54 b))
              (le_word b 82) (le_word b 83) (le_word b 85) (le_word b 86)
              (le_word b 89) (le_word b 90) (le_word b 91) (le_word b 94)
              (le_word b 128);
  encode_devnode_name := bytes_to_string;
  udev_replace_whitespace := fun b _ => bytes_to_string b;
  udev_replace_chars := fun s => s
}.

(** The INQUIRY response of a CD-ROM drive: peripheral device type 0x05. *)
Definition cdrom_inquiry : list Z := 0x05 :: repeat 0 35.

(** A block of 512 bytes that is zero except for the given 16-bit words,
    stored least significant byte first. *)
Fixpoint block_of_words (ws : list (nat * Z)) : list Z :=
  match ws with
  | [] => repeat 0 512
  | (k, v) :: rest =>
    <[(2 * k + 1)%nat := wrap_u8 (Z.shiftr v 8)]>
      (<[(2 * k)%nat := wrap_u8 v]> (block_of_words rest))
  end.

(** A SATA disk turning at 7200 RPM, with a world wide name. *)
Definition sample_block : list Z :=
  block_of_words [ (76%nat, 0x0006); (108%nat, 0x5001); (109%nat, 0x2233);
                   (110%nat, 0x4455); (111%nat, 0x6677); (217%nat, 7200) ].

(** A drive that supports DOWNLOAD MICROCODE and nothing else; [en] is its
    second command-set-enabled word. *)
Definition microcode_id (en : Z) : hd_driveid :=
  HdDriveid 0 (repeat 32 20) (repeat 32 8) (repeat 32 40) 0 1 0 en 0 0 0 0 0.

(** A drive whose write cache is supported and enabled. *)
Definition write_cache_id : hd_driveid :=
  HdDriveid 0 (repeat 32 20) (repeat 32 8) (repeat 32 40) 32 0 32 0 0 0 0 0 0.

End Bench.

(** ** Reading the output back *)

Module Report.
Import Sys Decode.

(** The values printed under a key, in order. *)
Fixpoint values_of (k : string) (out : list line) : list value :=
  match out with
  | [] => []
  | KV k' v :: rest =>
    if String.eqb k k' then v :: values_of k rest else values_of k rest
  | Bare _ :: rest => values_of k rest
  end.

(** A buffer whose cells all hold a [uint8_t]. *)
Definition all_bytes (buf : list Z) : bool :=
  forallb (fun b => (0 <=? b) && (b <? 256)) buf.

Definition b2z (b : bool) : Z := if b then 1 else 0.

(** The two sense encodings that stand for a completed ATA pass-through:
    descriptor format and fixed format. *)
Definition descriptor_format (sense : list Z) : Prop :=
  nth 0 sense 0 = 0x72 /\ nth 8 sense 0 = 0x09 /\ nth 9 sense 0 = 0x0C.

Definition fixed_format (sense : list Z) : Prop :=
  nth 0 sense 0 = 0x70 /\ nth 12 sense 0 = 0x00 /\ nth 13 sense 0 = 0x1D.

(** An event that is an SG_IO submission of the descriptor [cdb]. *)
Definition is_sg_io_of (cdb : list Z) (e : event) : Prop :=
  match e with
  | EvSgIo rq => rq_cdb rq = cdb
  | EvHdioGetIdentity => False
  end.

(** An event that is the version 3 submission of the descriptor [cdb]. *)
Definition is_retry_of (cdb : list Z) (e : event) : Prop :=
  match e with
  | EvSgIo rq => rq_cdb rq = cdb /\ rq_iface rq = SG_V3
  | EvHdioGetIdentity => False
  end.

(** The version 4 submission of [cdb] with the data-in buffer [buf]. *)
Definition first_submission (cdb buf : list Z) (buf_len : Z) : event :=
  EvSgIo (SgRequest SG_V4 cdb buf buf_len (repeat 0 32) COMMAND_TIMEOUT_MSEC).

(** The feature flags of the classification table: the pair of words a flag
    lives in, its bit, and the key it is printed under. The first five are
    read from [command_set_1] and [cfs_enable_1], the last four from
    [command_set_2] and [cfs_enable_2]. *)
Inductive feature : Type :=
  | WriteCache | HPA | PowerManagement | Security | SMART
  | AAM | PUIS | APM | DownloadMicrocode.

Definition support_word (f : feature) (id : hd_driveid) : Z :=
  match f with
  | WriteCache | HPA | PowerManagement | Security | SMART => command_set_1 id
  | AAM | PUIS | APM | DownloadMicrocode => command_set_2 id
  end.

Definition enabled_word (f : feature) (id : hd_driveid) : Z :=
  match f with
  | WriteCache | HPA | PowerManagement | Security | SMART => cfs_enable_1 id
  | AAM | PUIS | APM | DownloadMicrocode => cfs_enable_2 id
  end.

Definition feature_bit (f : feature) : Z :=
  match f with
  | WriteCache => 5
  | HPA => 10
  | PowerManagement => 3
  | Security => 1
  | SMART => 0
  | AAM => 9
  | PUIS => 5
  | APM => 3
  | DownloadMicrocode => 0
  end.

Definition feature_key (f : feature) : string :=
  match f with
  | WriteCache => "ID_ATA_WRITE_CACHE"
  | HPA => "ID_ATA_FEATURE_SET_HPA"
  | PowerManagement => "ID_ATA_FEATURE_SET_PM"
  | Security => "ID_ATA_FEATURE_SET_SECURITY"
  | SMART => "ID_ATA_FEATURE_SET_SMART"
  | AAM => "ID_ATA_FEATURE_SET_AAM"
  | PUIS => "ID_ATA_FEATURE_SET_PUIS"
  | APM => "ID_ATA_FEATURE_SET_APM"
  | DownloadMicrocode => "ID_ATA_DOWNLOAD_MICROCODE"
  end.

Definition enabled_key (f : feature) : string := feature_key f ++ "_ENABLED".

(** A flag is reported together with its enabled state: the output has the
    flag's key with value 1 and the flag's [_ENABLED] key with the bit of the
    enabled word at the flag's position. *)
Definition reported_with_enabled_state (f : feature) (id : hd_driveid)
    (out : list line) : Prop :=
  values_of (feature_key f) out = [ Num 1 ]
  /\ values_of (enabled_key f) out
     = [ Num (b2z (Z.testbit (enabled_word f id) (feature_bit f))) ].

End Report.

(** ** What the extra properties observe *)

Module Observe.
Import Mach Sys Transport Decode.

(** The version 4 request of a command, and the version 3 request that
    follows a version 4 reply [r4]: the same descriptor and length, the data
    and sense buffers as the version 4 call left them. *)
Definition v4_request (cdb buf : list Z) (buf_len : Z) : sg_request :=
  SgRequest SG_V4 cdb buf buf_len sense_init COMMAND_TIMEOUT_MSEC.

Definition v3_request (cdb buf : list Z) (buf_len : Z) (r4 : sg_reply)
    : sg_request :=
  SgRequest SG_V3 cdb (transfer buf_len (rp_data r4) buf) buf_len
            (transfer 32 (rp_sense r4) sense_init) COMMAND_TIMEOUT_MSEC.

(** The submissions a command is expected to make on a device in state [w]:
    version 4, and version 3 exactly when version 4 failed with [EINVAL]. *)
Definition expected_submissions `{Device} (cdb buf : list Z) (buf_len : Z)
    (w : world) : list event :=
  let r4 := fst (SG_IO w (v4_request cdb buf buf_len)) in
  EvSgIo (v4_request cdb buf buf_len)
  :: (if negb (rp_ret r4 =? 0) && (rp_errno r4 =? EINVAL)
      then [ EvSgIo (v3_request cdb buf buf_len r4) ]
      else []).

(** The events a run added to the log. *)
Definition new_events (before after : list event) : list event :=
  drop (length before) after.

(** The IDENTIFY submissions of [disk_identify], given what INQUIRY
    returned, the response it left and the device after it. *)
Definition identify_submissions `{Device} (ret : Z) (inquiry_buf out0 : list Z)
    (w : world) : list event :=
  if ret =? 0 then
    let t := Z.land (nth 0 inquiry_buf 0) 0x1f in
    if t =? 0x05 then expected_submissions identify_packet_cdb out0 512 w
    else if (t =? 0x00) || (t =? 0x14)
    then expected_submissions identify_cdb out0 512 w
    else []
  else [].

(** The first byte the device transferred into the INQUIRY response buffer:
    that of the version 3 submission when it was made and transferred data,
    else that of the version 4 submission; [None] when no submission
    transferred any data. *)
Definition inquiry_data_first `{Device} (inquiry_buf : list Z) (w : world)
    : option Z :=
  let x4 := SG_IO w (v4_request (inquiry_cdb 36) inquiry_buf 36) in
  let r3 := fst (SG_IO (snd x4)
                   (v3_request (inquiry_cdb 36) inquiry_buf 36 (fst x4))) in
  if rp_ret (fst x4) =? 0 then head (rp_data (fst x4))
  else match head (rp_data r3) with
       | Some d => Some d
       | None => head (rp_data (fst x4))
       end.

(** The three status fields of a reply are zero. *)
Definition status_clean (rp : sg_reply) : Prop :=
  rp_status rp = 0 /\ rp_transport rp = 0 /\ rp_driver rp = 0.

(** The keys of the assignments among the lines, in order. *)
Fixpoint keys (out : list line) : list string :=
  match out with
  | [] => []
  | KV k _ :: rest => k :: keys rest
  | Bare _ :: rest => keys rest
  end.

(** Every key that [main] can print in export mode, in the order of the
    [printf] calls. *)
Definition export_key_order : list string :=
  [ "ID_ATA"; "ID_TYPE"; "ID_BUS"; "ID_MODEL"; "ID_MODEL_ENC"; "ID_REVISION";
    "ID_SERIAL"; "ID_SERIAL_SHORT";
    "ID_ATA_WRITE_CACHE"; "ID_ATA_WRITE_CACHE_ENABLED";
    "ID_ATA_FEATURE_SET_HPA"; "ID_ATA_FEATURE_SET_HPA_ENABLED";
    "ID_ATA_FEATURE_SET_PM"; "ID_ATA_FEATURE_SET_PM_ENABLED";
    "ID_ATA_FEATURE_SET_SECURITY"; "ID_ATA_FEATURE_SET_SECURITY_ENABLED";
    "ID_ATA_FEATURE_SET_SECURITY_ERASE_UNIT_MIN";
    "ID_ATA_FEATURE_SET_SECURITY_LEVEL";
    "ID_ATA_FEATURE_SET_SECURITY_ENHANCED_ERASE_UNIT_MIN";
    "ID_ATA_FEATURE_SET_SECURITY_EXPIRE";
    "ID_ATA_FEATURE_SET_SECURITY_FROZEN";
    "ID_ATA_FEATURE_SET_SECURITY_LOCKED";
    "ID_ATA_FEATURE_SET_SMART"; "ID_ATA_FEATURE_SET_SMART_ENABLED";
    "ID_ATA_FEATURE_SET_AAM"; "ID_ATA_FEATURE_SET_AAM_ENABLED";
    "ID_ATA_FEATURE_SET_AAM_VENDOR_RECOMMENDED_VALUE";
    "ID_ATA_FEATURE_SET_AAM_CURRENT_VALUE";
    "ID_ATA_FEATURE_SET_PUIS"; "ID_ATA_FEATURE_SET_PUIS_ENABLED";
    "ID_ATA_FEATURE_SET_APM"; "ID_ATA_FEATURE_SET_APM_ENABLED";
    "ID_ATA_FEATURE_SET_APM_CURRENT_VALUE";
    "ID_ATA_DOWNLOAD_MICROCODE";
    "ID_ATA_SATA"; "ID_ATA_SATA_SIGNAL_RATE_GEN2";
    "ID_ATA_SATA_SIGNAL_RATE_GEN1";
    "ID_ATA_ROTATION_RATE_RPM";
    "ID_WWN"; "ID_WWN_WITH_EXTENSION";
    "ID_ATA_CFA" ].

(** The device type named by the general configuration word: bit 15 tells
    ATAPI from ATA, and bits 8 to 12 give the ATAPI device type. *)
Definition type_name (config : Z) : string :=
  if Z.testbit config 15 then
    let t := (config / 256) mod 32 in
    if t =? 0 then "cd" else if t =? 1 then "tape" else if t =? 5 then "cd"
    else if t =? 7 then "optical" else "generic"
  else "disk".

(** The 16-bit value of word [k] of a block read least significant byte
    first, as the device stores it. *)
Definition little_endian_word (b : list Z) (k : nat) : Z :=
  nth (2 * k) b 0 + 256 * nth (2 * k + 1) b 0.

End Observe.

Module BenchMore.
Import Sys Bench.

(** A disk that answers INQUIRY with type 0x00 and IDENTIFY DEVICE with the
    sample block; a device that refuses every SG_IO call. *)
Definition sata_disk : sys := boot [ ok_reply (repeat 0 36); ok_reply sample_block ].
Definition deaf_device : sys := boot [].

End BenchMore.

(** * Properties *)

(** ** The string fix-up *)

Module GetStringFacts.
Import Mach Mem GetString.

Lemma wrap_unsigned_small (x : Z) : 0 <= x < 2 ^ 32 -> wrap_unsigned x = x.
Proof. intros Hx. unfold wrap_unsigned, UINT_MOD. apply Z.mod_small, Hx. Qed.

Lemma wrap_size_small (x : Z) : 0 <= x < 2 ^ 64 -> wrap_size x = x.
Proof. intros Hx. unfold wrap_size, SIZE_MOD. apply Z.mod_small, Hx. Qed.

Lemma wrap_size_odd (x : Z) : Z.odd (wrap_size x) = Z.odd x.
Proof.
  unfold wrap_size, SIZE_MOD.
  rewrite Z.mod_eq by (change (2 ^ 64) with 18446744073709551616; lia).
  change (2 ^ 64) with (2 * 2 ^ 63).
  replace (x - 2 * 2 ^ 63 * (x / (2 * 2 ^ 63)))
    with (x + 2 * (- (2 ^ 63 * (x / (2 * 2 ^ 63))))) by lia.
  apply Z.odd_add_mul_2.
Qed.

Lemma wrap_size_nonneg (x : Z) : 0 <= wrap_size x < 2 ^ 64.
Proof.
  unfold wrap_size, SIZE_MOD. apply Z.mod_pos_bound.
  change (2 ^ 64) with 18446744073709551616. lia.
Qed.

Lemma load_in_bounds (m : mem) (a : Z) :
  0 <= a < Z.of_nat (length m) -> exists v, load m a = Some v.
Proof.
  intros Ha. unfold load.
  destruct (Z.ltb_spec a 0); [lia|].
  destruct (lookup_lt_is_Some_2 m (Z.to_nat a)) as [v Hv]; [lia|].
  exists v. exact Hv.
Qed.

Lemma store_in_bounds (m : mem) (a v : Z) :
  0 <= a < Z.of_nat (length m) -> store m a v = Some (<[Z.to_nat a := v]> m).
Proof.
  intros Ha. unfold store.
  destruct (Z.leb_spec 0 a); [|lia].
  destruct (Z.ltb_spec a (Z.of_nat (length m))); [|lia].
  reflexivity.
Qed.

Lemma load_insert_other (m : mem) (a b v : Z) :
  0 <= a -> a <> b -> load (<[Z.to_nat a := v]> m) b = load m b.
Proof.
  intros Ha Hab. unfold load.
  destruct (Z.ltb_spec b 0); [reflexivity|].
  apply list_lookup_insert_ne. lia.
Qed.

(** The body preserves the parity of the counter and keeps it a [size_t]. *)
Lemma loop_body_counter (identify : Z) (st st' : state) :
  loop_body identify st = Some st' ->
  st_dest_len st' = wrap_size (st_dest_len st - 2)
  /\ st_dest st' = st_dest st + 2
  /\ st_offset_words st' = wrap_unsigned (st_offset_words st + 1).
Proof.
  unfold loop_body. intros Hb.
  destruct (load _ _); [|discriminate].
  destruct (load _ _); [|discriminate].
  destruct (store _ _ _); [|discriminate].
  destruct (store _ _ _); [|discriminate].
  injection Hb as <-. simpl. auto.
Qed.

Lemma odd_never_returns (fuel : nat) (identify : Z) (st : state) (m : mem) :
  Z.odd (st_dest_len st) = true -> 0 <= st_dest_len st ->
  while_loop fuel identify st <> Returned m.
Proof.
  revert st. induction fuel as [|fuel IH]; intros st Hodd Hpos; simpl.
  - discriminate.
  - destruct (Z.ltb_spec 0 (st_dest_len st)) as [_|Hz].
    + destruct (loop_body identify st) as [st'|] eqn:Hb; [|discriminate].
      apply loop_body_counter in Hb as (Hl & _ & _).
      apply IH.
      * rewrite Hl, wrap_size_odd.
        replace (st_dest_len st - 2) with (st_dest_len st + 2 * (-1)) by lia.
        rewrite Z.odd_add_mul_2. exact Hodd.
      * rewrite Hl. apply wrap_size_nonneg.
    + assert (st_dest_len st = 0) as E by lia. rewrite E in Hodd. discriminate.
Qed.

Lemma while_loop_iterations (n : nat) (identify : Z) (st st' : state) :
  iterations n identify st = Some st' ->
  st_dest_len st' <= 0 ->
  forall fuel, (n < fuel)%nat -> while_loop fuel identify st = Returned (st_mem st').
Proof.
  revert st. induction n as [|n IH]; intros st Hit Hdone fuel Hfuel.
  - injection Hit as <-. destruct fuel; [lia|]. simpl.
    destruct (Z.ltb_spec 0 (st_dest_len st)); [lia|reflexivity].
  - destruct fuel; [lia|]. simpl in *.
    destruct (0 <? st_dest_len st); [|discriminate].
    destruct (loop_body identify st) as [st1|]; [|discriminate].
    apply IH; [assumption|assumption|lia].
Qed.

(** [n] iterations on a memory that holds both ranges. *)
Lemma iterations_run (n : nat) (identify : Z) :
  forall (m : mem) (ow dest dl : Z),
  0 <= identify -> 0 <= ow -> 0 <= dest ->
  0 <= dl -> 2 * Z.of_nat n - 1 <= dl < 2 ^ 64 ->
  ow * 2 + 2 * Z.of_nat n <= 2 ^ 32 ->
  identify + ow * 2 + 2 * Z.of_nat n <= Z.of_nat (length m) ->
  dest + 2 * Z.of_nat n <= Z.of_nat (length m) ->
  exists m',
    iterations n identify (State m ow dest dl)
    = Some (State m' (ow + Z.of_nat n) (dest + 2 * Z.of_nat n)
                  (wrap_size (dl - 2 * Z.of_nat n)))
    /\ length m' = length m
    /\ forall a, ~ (dest <= a < dest + 2 * Z.of_nat n) -> load m' a = load m a.
Proof.
  induction n as [|n IH]; intros m ow dest dl Hid How Hdest Hdl0 Hdl Hwrap Hsrc Hdst.
  - exists m. simpl. rewrite Z.add_0_r, Z.add_0_r, Z.sub_0_r.
    rewrite wrap_size_small by lia. auto.
  - change (2 ^ 32) with 4294967296 in *.
    change (2 ^ 64) with 18446744073709551616 in *.
    simpl iterations.
    destruct (Z.ltb_spec 0 dl) as [_|Hz]; [|lia].
    unfold loop_body. simpl st_mem. simpl st_offset_words. simpl st_dest.
    simpl st_dest_len.
    rewrite (wrap_unsigned_small (ow * 2 + 1)), (wrap_unsigned_small (ow * 2)),
      (wrap_unsigned_small (ow + 1))
      by (change (2 ^ 32) with 4294967296; lia).
    destruct (load_in_bounds m (identify + (ow * 2 + 1))) as [c1 ->]; [lia|].
    destruct (load_in_bounds m (identify + ow * 2)) as [c2 ->]; [lia|].
    rewrite store_in_bounds by lia. cbv beta iota.
    rewrite store_in_bounds by (rewrite length_insert; lia). cbv beta iota.
    set (m2 := <[Z.to_nat (dest + 1) := c2]> (<[Z.to_nat dest := c1]> m)).
    assert (length m2 = length m) as Hlen
      by (unfold m2; rewrite !length_insert; reflexivity).
    pose proof (wrap_size_nonneg (dl - 2)) as Hw.
    change (2 ^ 64) with 18446744073709551616 in Hw.
    assert (2 * Z.of_nat n - 1 <= wrap_size (dl - 2) < 18446744073709551616)
      as Hdl'.
    { destruct n as [|n]; [lia|].
      rewrite wrap_size_small by (change (2 ^ 64) with 18446744073709551616; lia).
      lia. }
    destruct (IH m2 (ow + 1) (dest + 2) (wrap_size (dl - 2)))
      as (m' & Hit & Hlen' & Hframe); try lia.
    exists m'. split; [|split].
    + rewrite Hit. f_equal. f_equal; try lia.
      unfold wrap_size, SIZE_MOD.
      rewrite Zminus_mod_idemp_l. f_equal. lia.
    + lia.
    + intros a Ha. rewrite Hframe by lia.
      unfold m2. rewrite !load_insert_other by lia. reflexivity.
Qed.

Lemma load_at (pre l : list Z) (a : Z) (i : nat) :
  a = Z.of_nat (length pre + i) -> load (pre ++ l) a = l !! i.
Proof.
  intros ->. unfold load.
  destruct (Z.ltb_spec (Z.of_nat (length pre + i)) 0); [lia|].
  rewrite Nat2Z.id, lookup_app_r by lia. f_equal. lia.
Qed.

Lemma store_at (pre l : list Z) (a v : Z) (i : nat) :
  a = Z.of_nat (length pre + i) -> (i < length l)%nat ->
  store (pre ++ l) a v = Some (pre ++ <[i := v]> l).
Proof.
  intros -> Hi. rewrite store_in_bounds by (rewrite length_app; lia).
  rewrite Nat2Z.id, insert_app_r_alt by lia.
  do 3 f_equal. lia.
Qed.

Lemma swap_pairs_length (n : nat) :
  forall l : list Z, (length l <= n)%nat -> length (swap_pairs l) = length l.
Proof.
  induction n as [|n IH]; intros [|x [|y l]] Hl; simpl in *; try reflexivity.
  - lia.
  - rewrite IH by lia. reflexivity.
Qed.

Lemma swap_pairs_involutive (n : nat) :
  forall l : list Z, (length l <= n)%nat -> swap_pairs (swap_pairs l) = l.
Proof.
  induction n as [|n IH]; intros [|x [|y l]] Hl; simpl in *; try reflexivity.
  - lia.
  - rewrite IH by lia. reflexivity.
Qed.

(** When the destination is the source range, [n] iterations swap the [n]
    byte pairs they walk over and leave the rest of the memory alone. *)
Lemma iterations_in_place (n : nat) (identify : Z) :
  forall (pre body rest : list Z) (ow dl : Z),
  length body = (2 * n)%nat ->
  0 <= identify -> 0 <= ow ->
  identify + ow * 2 = Z.of_nat (length pre) ->
  0 <= dl -> 2 * Z.of_nat n - 1 <= dl < 2 ^ 64 ->
  ow * 2 + 2 * Z.of_nat n <= 2 ^ 32 ->
  iterations n identify (State (pre ++ body ++ rest) ow (identify + ow * 2) dl)
  = Some (State (pre ++ swap_pairs body ++ rest) (ow + Z.of_nat n)
                (identify + ow * 2 + 2 * Z.of_nat n)
                (wrap_size (dl - 2 * Z.of_nat n))).
Proof.
  induction n as [|n IH]; intros pre body rest ow dl Hlen Hid How Hpre Hdl0 Hdl Hwrap.
  - destruct body; [|discriminate Hlen]. simpl.
    rewrite !Z.add_0_r, Z.sub_0_r, wrap_size_small by lia. reflexivity.
  - destruct body as [|x [|y body]]; try (simpl in Hlen; lia).
    change (2 ^ 32) with 4294967296 in *.
    change (2 ^ 64) with 18446744073709551616 in *.
    simpl iterations.
    destruct (Z.ltb_spec 0 dl) as [_|Hz]; [|lia].
    unfold loop_body. simpl st_mem. simpl st_offset_words. simpl st_dest.
    simpl st_dest_len.
    rewrite (wrap_unsigned_small (ow * 2 + 1)), (wrap_unsigned_small (ow * 2)),
      (wrap_unsigned_small (ow + 1))
      by (change (2 ^ 32) with 4294967296; lia).
    rewrite (load_at pre _ _ 1) by lia.
    rewrite (load_at pre _ _ 0) by lia.
    simpl lookup. cbv beta iota.
    rewrite (store_at pre _ _ _ 0) by (simpl; lia).
    cbv beta iota. simpl insert.
    rewrite (store_at pre _ _ _ 1) by (simpl; lia).
    cbv beta iota. simpl insert. simpl swap_pairs.
    pose proof (wrap_size_nonneg (dl - 2)) as Hw.
    change (2 ^ 64) with 18446744073709551616 in Hw.
    assert (2 * Z.of_nat n - 1 <= wrap_size (dl - 2) < 18446744073709551616)
      as Hdl'.
    { destruct n as [|n]; [lia|].
      rewrite wrap_size_small by (change (2 ^ 64) with 18446744073709551616; lia).
      lia. }
    specialize (IH (pre ++ [y; x]) body rest (ow + 1) (wrap_size (dl - 2))).
    replace (identify + (ow + 1) * 2) with (identify + ow * 2 + 2) in IH by lia.
    replace (pre ++ y :: x :: body ++ rest)
      with ((pre ++ [y; x]) ++ body ++ rest)
      by (rewrite <- app_assoc; reflexivity).
    rewrite IH; try lia.
    + f_equal. f_equal; try lia.
      * rewrite <- app_assoc. reflexivity.
      * unfold wrap_size, SIZE_MOD.
        rewrite Zminus_mod_idemp_l. f_equal. lia.
    + simpl in Hlen. lia.
    + rewrite length_app. simpl. lia.
Qed.

Lemma fixup_string_in_place (fuel : nat) (pre body rest : list Z)
    (identify ow : Z) :
  0 <= identify -> 0 <= ow ->
  identify + ow * 2 = Z.of_nat (length pre) ->
  Nat.even (length body) = true ->
  ow * 2 + Z.of_nat (length body) < 2 ^ 32 ->
  (length body / 2 < fuel)%nat ->
  disk_identify_fixup_string fuel (pre ++ body ++ rest) identify ow
    (Z.of_nat (length body))
  = Returned (pre ++ swap_pairs body ++ rest).
Proof.
  intros Hid How Hpre Heven Hwrap Hfuel.
  apply Nat.even_spec in Heven as [n Hn].
  unfold disk_identify_fixup_string, disk_identify_get_string.
  change (2 ^ 32) with 4294967296 in *.
  rewrite wrap_unsigned_small by (change (2 ^ 32) with 4294967296; lia).
  pose proof (iterations_in_place n identify pre body rest ow
                (Z.of_nat (length body)) Hn Hid How Hpre) as Hit.
  change (2 ^ 32) with 4294967296 in *.
  change (2 ^ 64) with 18446744073709551616 in *.
  specialize (Hit ltac:(lia) ltac:(lia) ltac:(lia)).
  replace (Z.of_nat (length body) - 2 * Z.of_nat n) with 0 in Hit by lia.
  rewrite (while_loop_iterations n identify _ _ Hit).
  - reflexivity.
  - simpl. unfold wrap_size. rewrite Z.mod_0_l; [lia|discriminate].
  - rewrite Hn in Hfuel. rewrite Nat.mul_comm, Nat.div_mul in Hfuel by lia.
    exact Hfuel.
Qed.

(** An even length: the loop returns after [dest_len / 2] iterations, has
    advanced [dest] by [dest_len], and has touched nothing outside the
    [dest_len] bytes at [dest]. *)
Lemma get_string_even (fuel : nat) (m : mem)
    (identify offset_words dest dest_len : Z) :
  0 <= identify -> 0 <= offset_words -> 0 <= dest ->
  0 <= dest_len < 2 ^ 64 -> Z.even dest_len = true ->
  offset_words * 2 + dest_len <= 2 ^ 32 ->
  identify + offset_words * 2 + dest_len <= Z.of_nat (length m) ->
  dest + dest_len <= Z.of_nat (length m) ->
  (Z.to_nat (dest_len / 2) < fuel)%nat ->
  exists m',
    disk_identify_get_string fuel m identify offset_words dest dest_len
    = Returned m'
    /\ iterations (Z.to_nat (dest_len / 2)) identify
         (State m offset_words dest dest_len)
       = Some (State m' (offset_words + dest_len / 2) (dest + dest_len) 0)
    /\ length m' = length m
    /\ forall a, ~ (dest <= a < dest + dest_len) -> load m' a = load m a.
Proof.
  intros Hid How Hdest Hdl Heven Hwrap Hsrc Hdst Hfuel.
  apply Z.even_spec in Heven as [k ->].
  replace (2 * k / 2) with k in * by (rewrite Z.mul_comm, Z.div_mul; lia).
  change (2 ^ 32) with 4294967296 in *.
  change (2 ^ 64) with 18446744073709551616 in *.
  destruct (iterations_run (Z.to_nat k) identify m offset_words dest (2 * k))
    as (m' & Hit & Hlen & Hframe);
    try (change (2 ^ 32) with 4294967296);
    try (change (2 ^ 64) with 18446744073709551616); try lia.
  rewrite Z2Nat.id in Hit, Hframe by lia.
  replace (2 * k - 2 * k) with 0 in Hit by lia.
  change (wrap_size 0) with 0 in Hit.
  exists m'. split; [|split; [exact Hit|split; [exact Hlen|exact Hframe]]].
  unfold disk_identify_get_string.
  rewrite (while_loop_iterations _ _ _ _ Hit); [reflexivity|simpl; lia|lia].
Qed.

(** An odd length: after [(dest_len + 1) / 2] iterations on a memory large
    enough to survive them, [dest] stands one byte past the end of the
    destination and the counter has wrapped to [SIZE_MAX]. *)
Lemma get_string_odd_overrun (m : mem)
    (identify offset_words dest dest_len : Z) :
  0 <= identify -> 0 <= offset_words -> 0 <= dest ->
  0 < dest_len < 2 ^ 64 -> Z.odd dest_len = true ->
  offset_words * 2 + dest_len + 1 <= 2 ^ 32 ->
  identify + offset_words * 2 + dest_len + 1 <= Z.of_nat (length m) ->
  dest + dest_len + 1 <= Z.of_nat (length m) ->
  exists m' ow',
    iterations (Z.to_nat ((dest_len + 1) / 2)) identify
      (State m offset_words dest dest_len)
    = Some (State m' ow' (dest + dest_len + 1) (2 ^ 64 - 1)).
Proof.
  intros Hid How Hdest Hdl Hodd Hwrap Hsrc Hdst.
  apply Z.odd_spec in Hodd as [k ->].
  replace ((2 * k + 1 + 1) / 2) with (k + 1)
    by (replace (2 * k + 1 + 1) with ((k + 1) * 2) by lia;
        rewrite Z.div_mul; lia).
  change (2 ^ 32) with 4294967296 in *.
  change (2 ^ 64) with 18446744073709551616 in *.
  destruct (iterations_run (Z.to_nat (k + 1)) identify m offset_words dest
              (2 * k + 1))
    as (m' & Hit & _);
    try (change (2 ^ 32) with 4294967296);
    try (change (2 ^ 64) with 18446744073709551616); try lia.
  rewrite Z2Nat.id in Hit by lia.
  replace (2 * k + 1 - 2 * (k + 1)) with (-1) in Hit by lia.
  change (wrap_size (-1)) with 18446744073709551615 in Hit.
  exists m', (offset_words + (k + 1)). rewrite Hit.
  do 2 f_equal. lia.
Qed.

Lemma load_insert_same (m : mem) (a v : Z) :
  0 <= a < Z.of_nat (length m) -> load (<[Z.to_nat a := v]> m) a = Some v.
Proof.
  intros Ha. unfold load.
  destruct (Z.ltb_spec a 0); [lia|].
  apply list_lookup_insert_eq. lia.
Qed.

Lemma iterations_app (a b : nat) (identify : Z) :
  forall st : state,
  iterations (a + b) identify st
  = match iterations a identify st with
    | Some st' => iterations b identify st'
    | None => None
    end.
Proof.
  induction a as [|a IH]; intros st; simpl; [reflexivity|].
  destruct (0 <? st_dest_len st); [|reflexivity].
  destruct (loop_body identify st); [apply IH|reflexivity].
Qed.

(** One iteration: the two bytes at [dest] receive the two source bytes as
    the memory held them before the iteration, second byte first. *)
Lemma iteration_writes (identify : Z) (m : mem) (ow dest dl : Z) :
  0 <= identify -> 0 <= ow -> 0 <= dest -> 0 < dl < 2 ^ 64 ->
  ow * 2 + 2 <= 2 ^ 32 ->
  identify + ow * 2 + 2 <= Z.of_nat (length m) ->
  dest + 2 <= Z.of_nat (length m) ->
  exists m2,
    iterations 1 identify (State m ow dest dl)
    = Some (State m2 (ow + 1) (dest + 2) (wrap_size (dl - 2)))
    /\ length m2 = length m
    /\ load m2 dest = load m (identify + ow * 2 + 1)
    /\ load m2 (dest + 1) = load m (identify + ow * 2)
    /\ forall a, ~ (dest <= a < dest + 2) -> load m2 a = load m a.
Proof.
  intros Hid How Hdest Hdl Hwrap Hsrc Hdst.
  change (2 ^ 32) with 4294967296 in *.
  change (2 ^ 64) with 18446744073709551616 in *.
  simpl iterations.
  destruct (Z.ltb_spec 0 dl) as [_|Hz]; [|lia].
  unfold loop_body. simpl st_mem. simpl st_offset_words. simpl st_dest.
  simpl st_dest_len.
  rewrite (wrap_unsigned_small (ow * 2 + 1)), (wrap_unsigned_small (ow * 2)),
    (wrap_unsigned_small (ow + 1))
    by (change (2 ^ 32) with 4294967296; lia).
  destruct (load_in_bounds m (identify + (ow * 2 + 1))) as [c1 Hl1]; [lia|].
  destruct (load_in_bounds m (identify + ow * 2)) as [c2 Hl2]; [lia|].
  replace (identify + ow * 2 + 1) with (identify + (ow * 2 + 1)) by lia.
  rewrite Hl1, Hl2.
  rewrite store_in_bounds by lia. cbv beta iota.
  rewrite store_in_bounds by (rewrite length_insert; lia). cbv beta iota.
  eexists. split; [reflexivity|]. split; [|split; [|split]].
  - rewrite !length_insert. reflexivity.
  - rewrite load_insert_other by lia. apply load_insert_same. lia.
  - apply load_insert_same. rewrite length_insert. lia.
  - intros a Ha. rewrite !load_insert_other by lia. reflexivity.
Qed.

(** What [n] iterations leave at pair [i] of the destination: the two bytes
    that iteration [i] read from the memory as the [i] iterations before it
    had left it. *)
Lemma iterations_writes (n : nat) (identify : Z) (m : mem) (ow dest dl i : Z) :
  0 <= identify -> 0 <= ow -> 0 <= dest ->
  0 <= dl -> 2 * Z.of_nat n - 1 <= dl < 2 ^ 64 ->
  ow * 2 + 2 * Z.of_nat n <= 2 ^ 32 ->
  identify + ow * 2 + 2 * Z.of_nat n <= Z.of_nat (length m) ->
  dest + 2 * Z.of_nat n <= Z.of_nat (length m) ->
  0 <= i < Z.of_nat n ->
  exists mi,
    iterations (Z.to_nat i) identify (State m ow dest dl)
    = Some (State mi (ow + i) (dest + 2 * i) (dl - 2 * i))
    /\ (forall a, ~ (dest <= a < dest + 2 * i) -> load mi a = load m a)
    /\ forall st',
         iterations n identify (State m ow dest dl) = Some st' ->
         load (st_mem st') (dest + 2 * i)
         = load mi (identify + ow * 2 + 2 * i + 1)
         /\ load (st_mem st') (dest + 2 * i + 1)
            = load mi (identify + ow * 2 + 2 * i).
Proof.
  intros Hid How Hdest Hdl0 Hdl Hwrap Hsrc Hdst Hi.
  change (2 ^ 32) with 4294967296 in *.
  change (2 ^ 64) with 18446744073709551616 in *.
  destruct (iterations_run (Z.to_nat i) identify m ow dest dl)
    as (mi & Hiti & Hleni & Hframei);
    try (change (2 ^ 32) with 4294967296);
    try (change (2 ^ 64) with 18446744073709551616); try lia.
  rewrite Z2Nat.id in Hiti, Hframei by lia.
  rewrite wrap_size_small in Hiti
    by (change (2 ^ 64) with 18446744073709551616; lia).
  destruct (iteration_writes identify mi (ow + i) (dest + 2 * i) (dl - 2 * i))
    as (m2 & Hstep & Hlen2 & Hc1 & Hc2 & Hframe2);
    try (change (2 ^ 32) with 4294967296);
    try (change (2 ^ 64) with 18446744073709551616); try lia.
  set (k := (n - Z.to_nat i - 1)%nat).
  pose proof (wrap_size_nonneg (dl - 2 * i - 2)) as Hw.
  change (2 ^ 64) with 18446744073709551616 in Hw.
  assert (2 * Z.of_nat k - 1 <= wrap_size (dl - 2 * i - 2)
          < 18446744073709551616) as Hdl'.
  { destruct k as [|k'] eqn:Hk; [lia|].
    rewrite wrap_size_small by (change (2 ^ 64) with 18446744073709551616; lia).
    lia. }
  destruct (iterations_run k identify m2 (ow + i + 1) (dest + 2 * i + 2)
              (wrap_size (dl - 2 * i - 2)))
    as (m' & Hitk & _ & Hframek);
    try (change (2 ^ 32) with 4294967296);
    try (change (2 ^ 64) with 18446744073709551616); try lia.
  exists mi. split; [exact Hiti|]. split; [exact Hframei|].
  intros st' Hst'.
  replace n with (Z.to_nat i + (1 + k))%nat in Hst' by lia.
  rewrite iterations_app, Hiti, iterations_app, Hstep, Hitk in Hst'.
  injection Hst' as <-. simpl st_mem.
  rewrite !Hframek by lia.
  replace (identify + ow * 2 + 2 * i + 1)
    with (identify + (ow + i) * 2 + 1) by lia.
  replace (identify + ow * 2 + 2 * i) with (identify + (ow + i) * 2) by lia.
  split; [exact Hc1|exact Hc2].
Qed.

(** An even length: the loop returns, and the [dest_len] bytes at [dest] are
    the ones it wrote. *)
Lemma get_string_even_writes (fuel : nat) (m : mem)
    (identify offset_words dest dest_len : Z) :
  0 <= identify -> 0 <= offset_words -> 0 <= dest ->
  0 <= dest_len < 2 ^ 64 -> Z.even dest_len = true ->
  offset_words * 2 + dest_len <= 2 ^ 32 ->
  identify + offset_words * 2 + dest_len <= Z.of_nat (length m) ->
  dest + dest_len <= Z.of_nat (length m) ->
  (Z.to_nat (dest_len / 2) < fuel)%nat ->
  exists m',
    disk_identify_get_string fuel m identify offset_words dest dest_len
    = Returned m'
    /\ iterations (Z.to_nat (dest_len / 2)) identify
         (State m offset_words dest dest_len)
       = Some (State m' (offset_words + dest_len / 2) (dest + dest_len) 0)
    /\ length m' = length m
    /\ (forall a, ~ (dest <= a < dest + dest_len) -> load m' a = load m a)
    /\ (forall i, 0 <= i < dest_len / 2 ->
          exists mi,
            iterations (Z.to_nat i) identify
              (State m offset_words dest dest_len)
            = Some (State mi (offset_words + i) (dest + 2 * i)
                          (dest_len - 2 * i))
            /\ (forall a, ~ (dest <= a < dest + 2 * i) ->
                  load mi a = load m a)
            /\ load m' (dest + 2 * i)
               = load mi (identify + offset_words * 2 + 2 * i + 1)
            /\ load m' (dest + 2 * i + 1)
               = load mi (identify + offset_words * 2 + 2 * i))
    /\ (dest <= identify + offset_words * 2
        \/ identify + offset_words * 2 + dest_len <= dest ->
        forall i, 0 <= i < dest_len / 2 ->
          load m' (dest + 2 * i)
          = load m (identify + offset_words * 2 + 2 * i + 1)
          /\ load m' (dest + 2 * i + 1)
             = load m (identify + offset_words * 2 + 2 * i)).
Proof.
  intros Hid How Hdest Hdl Heven Hwrap Hsrc Hdst Hfuel.
  destruct (get_string_even fuel m identify offset_words dest dest_len)
    as (m' & Hrun & Hit & Hlen & Hframe); try assumption.
  apply Z.even_spec in Heven as [k ->].
  replace (2 * k / 2) with k in * by (rewrite Z.mul_comm, Z.div_mul; lia).
  change (2 ^ 32) with 4294967296 in *.
  change (2 ^ 64) with 18446744073709551616 in *.
  assert (forall i, 0 <= i < k ->
            exists mi,
              iterations (Z.to_nat i) identify
                (State m offset_words dest (2 * k))
              = Some (State mi (offset_words + i) (dest + 2 * i)
                            (2 * k - 2 * i))
              /\ (forall a, ~ (dest <= a < dest + 2 * i) ->
                    load mi a = load m a)
              /\ load m' (dest + 2 * i)
                 = load mi (identify + offset_words * 2 + 2 * i + 1)
              /\ load m' (dest + 2 * i + 1)
                 = load mi (identify + offset_words * 2 + 2 * i)) as Hwrites.
  { intros i Hi.
    destruct (iterations_writes (Z.to_nat k) identify m offset_words dest
                (2 * k) i)
      as (mi & Hiti & Hframei & Hfinal);
      try (change (2 ^ 32) with 4294967296);
      try (change (2 ^ 64) with 18446744073709551616); try lia.
    exists mi. split; [exact Hiti|]. split; [exact Hframei|].
    exact (Hfinal _ Hit). }
  exists m'. split; [exact Hrun|]. split; [exact Hit|].
  split; [exact Hlen|]. split; [exact Hframe|]. split; [exact Hwrites|].
  intros Hpos i Hi.
  destruct (Hwrites i Hi) as (mi & _ & Hframei & H1 & H2).
  rewrite H1, H2, !Hframei by lia. split; reflexivity.
Qed.

(** One string fix-up of a block: the field is swapped pair by pair where
    it lies, and the bytes outside it stay. *)
Lemma fixup_string_writes (fuel : nat) (identify : list Z)
    (offset_words len : Z) :
  length identify = 512%nat ->
  0 <= offset_words -> 0 <= len -> Z.even len = true ->
  offset_words * 2 + len <= 512 ->
  (Z.to_nat (len / 2) < fuel)%nat ->
  exists identify',
    disk_identify_fixup_string fuel identify 0 offset_words len
    = Returned identify'
    /\ length identify' = 512%nat
    /\ (forall a, ~ (offset_words * 2 <= a < offset_words * 2 + len) ->
          load identify' a = load identify a)
    /\ (forall w, offset_words <= w < offset_words + len / 2 ->
          load identify' (2 * w) = load identify (2 * w + 1)
          /\ load identify' (2 * w + 1) = load identify (2 * w)).
Proof.
  intros Hlen How Hl Heven Hfield Hfuel.
  unfold disk_identify_fixup_string.
  rewrite wrap_unsigned_small by (change (2 ^ 32) with 4294967296; lia).
  destruct (get_string_even_writes fuel identify 0 offset_words
              (0 + offset_words * 2) len)
    as (m' & Hrun & _ & Hlen' & Hframe & _ & Hcopy);
    try (change (2 ^ 32) with 4294967296);
    try (change (2 ^ 64) with 18446744073709551616); try lia; try assumption.
  exists m'. split; [exact Hrun|]. split; [lia|]. split.
  - intros a Ha. apply Hframe. lia.
  - intros w Hw.
    destruct (Hcopy ltac:(lia) (w - offset_words) ltac:(lia)) as [H1 H2].
    replace (0 + offset_words * 2 + 2 * (w - offset_words)) with (2 * w)
      in H1, H2 by lia.
    split; [exact H1|exact H2].
Qed.

(** C10. For an even [dest_len] and ranges that lie in memory the function
    returns, after [dest_len / 2] iterations that wrote the [dest_len] bytes
    at [dest] and nothing else: pair [i] of the destination holds the two
    source bytes, second byte first, that iteration [i] read from the memory
    as the iterations before it had left it; when the destination does not
    start inside the source range these are the bytes the source held on
    entry. For an odd [dest_len] it never returns: the counter steps from 1
    over 0 to [SIZE_MAX], and the write that follows the last byte of the
    destination is made. [main] calls it with the lengths 20, 8 and 40 only;
    on every block of 512 bytes those calls return, having swapped the byte
    pairs of words 10 to 19 and 23 to 46 and written no other byte. *)
Theorem get_string_termination :
  (forall (fuel : nat) (m : mem) (identify offset_words dest dest_len : Z),
     0 <= identify -> 0 <= offset_words -> 0 <= dest ->
     0 <= dest_len < 2 ^ 64 -> Z.even dest_len = true ->
     offset_words * 2 + dest_len <= 2 ^ 32 ->
     identify + offset_words * 2 + dest_len <= Z.of_nat (length m) ->
     dest + dest_len <= Z.of_nat (length m) ->
     (Z.to_nat (dest_len / 2) < fuel)%nat ->
     exists m',
       disk_identify_get_string fuel m identify offset_words dest dest_len
       = Returned m'
       /\ iterations (Z.to_nat (dest_len / 2)) identify
            (State m offset_words dest dest_len)
          = Some (State m' (offset_words + dest_len / 2) (dest + dest_len) 0)
       /\ length m' = length m
       /\ (forall a, ~ (dest <= a < dest + dest_len) -> load m' a = load m a)
       /\ (forall i, 0 <= i < dest_len / 2 ->
             exists mi,
               iterations (Z.to_nat i) identify
                 (State m offset_words dest dest_len)
               = Some (State mi (offset_words + i) (dest + 2 * i)
                             (dest_len - 2 * i))
               /\ (forall a, ~ (dest <= a < dest + 2 * i) ->
                     load mi a = load m a)
               /\ load m' (dest + 2 * i)
                  = load mi (identify + offset_words * 2 + 2 * i + 1)
               /\ load m' (dest + 2 * i + 1)
                  = load mi (identify + offset_words * 2 + 2 * i))
       /\ (dest <= identify + offset_words * 2
           \/ identify + offset_words * 2 + dest_len <= dest ->
           forall i, 0 <= i < dest_len / 2 ->
             load m' (dest + 2 * i)
             = load m (identify + offset_words * 2 + 2 * i + 1)
             /\ load m' (dest + 2 * i + 1)
                = load m (identify + offset_words * 2 + 2 * i)))
  /\ (forall (m : mem) (identify offset_words dest dest_len : Z),
        0 < dest_len < 2 ^ 64 -> Z.odd dest_len = true ->
        (forall fuel m',
           disk_identify_get_string fuel m identify offset_words dest dest_len
           <> Returned m')
        /\ (0 <= identify -> 0 <= offset_words -> 0 <= dest ->
            offset_words * 2 + dest_len + 1 <= 2 ^ 32 ->
            identify + offset_words * 2 + dest_len + 1 <= Z.of_nat (length m) ->
            dest + dest_len + 1 <= Z.of_nat (length m) ->
            exists m' ow',
              iterations (Z.to_nat ((dest_len + 1) / 2)) identify
                (State m offset_words dest dest_len)
              = Some (State m' ow' (dest + dest_len + 1) (2 ^ 64 - 1))))
  /\ map snd Decode.string_fixups = [ 20; 8; 40 ]
  /\ (forall (fuel : nat) (identify : list Z),
        length identify = 512%nat -> (20 < fuel)%nat ->
        exists identify',
          Decode.fixup_strings fuel Decode.string_fixups identify
          = Returned identify'
          /\ length identify' = 512%nat
          /\ (forall w, 10 <= w < 20 \/ 23 <= w < 47 ->
                load identify' (2 * w) = load identify (2 * w + 1)
                /\ load identify' (2 * w + 1) = load identify (2 * w))
          /\ (forall a, ~ (20 <= a < 40 \/ 46 <= a < 94) ->
                load identify' a = load identify a)).
Proof.
  split; [|split; [|split]].
  - intros. apply get_string_even_writes; assumption.
  - intros m identify offset_words dest dest_len Hdl Hodd. split.
    + intros fuel m'. apply odd_never_returns; simpl; [assumption|lia].
    + intros. apply get_string_odd_overrun; assumption.
  - reflexivity.
  - intros fuel identify Hlen Hfuel. unfold Decode.string_fixups. simpl.
    destruct (fixup_string_writes fuel identify 10 20)
      as (i1 & -> & Hl1 & Hf1 & Hs1); try reflexivity; try lia.
    { change (20 / 2) with 10. lia. }
    destruct (fixup_string_writes fuel i1 23 8)
      as (i2 & -> & Hl2 & Hf2 & Hs2); try reflexivity; try lia.
    { change (8 / 2) with 4. lia. }
    destruct (fixup_string_writes fuel i2 27 40)
      as (i3 & -> & Hl3 & Hf3 & Hs3); try reflexivity; try lia.
    { change (40 / 2) with 20. lia. }
    change (20 / 2) with 10 in Hs1. change (8 / 2) with 4 in Hs2.
    change (40 / 2) with 20 in Hs3.
    exists i3. split; [reflexivity|]. split; [exact Hl3|]. split.
    + intros w Hw.
      destruct (Z_lt_le_dec w 20) as [Hw1|Hw1].
      * rewrite !Hf3, !Hf2 by lia. apply Hs1. lia.
      * destruct (Z_lt_le_dec w 27) as [Hw2|Hw2].
        -- rewrite !Hf3 by lia. rewrite <- !(Hf1 (2 * w)), <- !(Hf1 (2 * w + 1)) by lia.
           apply Hs2. lia.
        -- rewrite <- !(Hf1 (2 * w)), <- !(Hf1 (2 * w + 1)) by lia.
           rewrite <- !(Hf2 (2 * w)), <- !(Hf2 (2 * w + 1)) by lia.
           apply Hs3. lia.
    + intros a Ha. rewrite Hf3, Hf2, Hf1 by lia. reflexivity.
Qed.

(** C8. Fixing up a string field of the block twice gives back the bytes it
    started from: the byte-pair swap of [disk_identify_get_string] is an
    involution on a field of even length. *)
Theorem fixup_string_involution (fuel : nat) (m : mem)
    (identify offset_words len : Z) :
  0 <= identify -> identify + 512 <= Z.of_nat (length m) ->
  0 <= offset_words -> 0 <= len ->
  Z.even len = true ->
  offset_words * 2 + len <= 512 ->
  (Z.to_nat len / 2 < fuel)%nat ->
  exists m1,
    disk_identify_fixup_string fuel m identify offset_words len = Returned m1
    /\ disk_identify_fixup_string fuel m1 identify offset_words len = Returned m.
Proof.
  intros Hid Hblock How Hlen Heven Hfield Hfuel.
  set (a := Z.to_nat (identify + offset_words * 2)).
  assert (Z.of_nat a = identify + offset_words * 2) as Ha by (unfold a; lia).
  clearbody a.
  set (pre := take a m).
  set (body := take (Z.to_nat len) (drop a m)).
  set (rest := drop (Z.to_nat len) (drop a m)).
  assert (m = pre ++ body ++ rest) as Hm.
  { unfold pre, body, rest. rewrite take_drop, take_drop. reflexivity. }
  assert (length pre = a) as Hpre
    by (unfold pre; rewrite length_take; lia).
  assert (length body = Z.to_nat len) as Hbody
    by (unfold body; rewrite length_take, length_drop; lia).
  clearbody pre body rest.
  assert (Nat.even (length body) = true) as Hev.
  { rewrite Hbody. apply Z.even_spec in Heven as [k ->].
    apply Nat.even_spec. exists (Z.to_nat k). lia. }
  assert (len = Z.of_nat (length body)) as Hlen' by lia.
  exists (pre ++ swap_pairs body ++ rest).
  rewrite Hm at 1. rewrite Hlen'. split.
  - apply fixup_string_in_place; try lia; try assumption.
    rewrite Hbody. exact Hfuel.
  - rewrite <- (swap_pairs_length (length body) body) at 1 by lia.
    rewrite fixup_string_in_place.
    + rewrite (swap_pairs_involutive (length body)) by lia.
      rewrite <- Hm. reflexivity.
    + assumption.
    + assumption.
    + lia.
    + rewrite (swap_pairs_length (length body)) by lia. exact Hev.
    + rewrite (swap_pairs_length (length body)) by lia.
      change (2 ^ 32) with 4294967296. lia.
    + rewrite (swap_pairs_length (length body)) by lia.
      rewrite Hbody. exact Hfuel.
Qed.

End GetStringFacts.

(** ** The transport and the probe sequence *)

Module TransportFacts.
Import Mach Sys Transport Probe Decode Main Report.

Section Facts.
Context `{Device}.

Lemma nth_drop_8 (l : list Z) (i : nat) : nth i (drop 8 l) 0 = nth (8 + i) l 0.
Proof.
  do 8 (destruct l as [|? l]; [destruct i; reflexivity|]). reflexivity.
Qed.

Lemma sense_descriptor_ok_spec (sense : list Z) :
  sense_descriptor_ok sense = true <-> descriptor_format sense.
Proof.
  unfold sense_descriptor_ok, descriptor_format.
  rewrite !nth_drop_8. simpl plus.
  rewrite !andb_true_iff, !Z.eqb_eq. tauto.
Qed.

Lemma sense_fixed_ok_spec (sense : list Z) :
  sense_fixed_ok sense = true <-> fixed_format sense.
Proof.
  unfold sense_fixed_ok, fixed_format.
  rewrite !andb_true_iff, !Z.eqb_eq. tauto.
Qed.

Lemma is_retry_is_sg_io (cdb : list Z) (evs : list event) :
  Forall (is_retry_of cdb) evs -> Forall (is_sg_io_of cdb) evs.
Proof.
  induction 1 as [|e evs He _ IH]; constructor; [|exact IH].
  destruct e; simpl in *; tauto.
Qed.

(** What [submit] adds to the log: the version 4 submission of [cdb] with the
    buffer as it was handed in, then at most the version 3 one. *)
Lemma submit_log (cdb buf : list Z) (buf_len : Z) (s : sys) :
  exists evs,
    sys_log (snd (submit cdb buf buf_len s))
    = sys_log s ++ first_submission cdb buf buf_len :: evs
    /\ Forall (is_retry_of cdb) evs.
Proof.
  unfold submit, mbind, ioctl_SG_IO, get_errno, mret, first_submission.
  destruct (SG_IO (sys_world s) _) as [r4 w1]. simpl.
  destruct (rp_ret r4 =? 0); simpl.
  - exists []. split; [reflexivity|constructor].
  - destruct (rp_errno r4 =? EINVAL); simpl.
    + destruct (SG_IO w1 _) as [r3 w2]. simpl.
      eexists [_]. split.
      * destruct (rp_ret r3 =? 0); simpl; rewrite <- app_assoc; reflexivity.
      * repeat constructor.
    + exists []. split; [reflexivity|constructor].
Qed.

Lemma inquiry_command_log (buf : list Z) (buf_len : Z) (s : sys) :
  exists evs,
    sys_log (snd (disk_scsi_inquiry_command buf buf_len s))
    = sys_log s ++ first_submission (inquiry_cdb buf_len) buf buf_len :: evs
    /\ Forall (is_retry_of (inquiry_cdb buf_len)) evs.
Proof.
  unfold disk_scsi_inquiry_command, mbind, ioctl_SG_IO, get_errno, set_errno,
    mret, first_submission.
  destruct (SG_IO (sys_world s) _) as [r4 w1]. simpl.
  destruct (rp_ret r4 =? 0); simpl.
  - exists []. split; [|constructor].
    destruct (status_bad r4); reflexivity.
  - destruct (rp_errno r4 =? EINVAL); simpl.
    + destruct (SG_IO w1 _) as [r3 w2]. simpl.
      eexists [_]. split.
      * destruct (rp_ret r3 =? 0); simpl;
          [destruct (status_bad r3); simpl; [|destruct (status_bad r4); simpl]|];
          rewrite <- app_assoc; reflexivity.
      * repeat constructor.
    + exists []. split; [reflexivity|constructor].
Qed.

Lemma identify_command_log (buf : list Z) (buf_len : Z) (s : sys) :
  exists evs,
    sys_log (snd (disk_identify_command buf buf_len s))
    = sys_log s ++ first_submission identify_cdb buf buf_len :: evs
    /\ Forall (is_retry_of identify_cdb) evs.
Proof.
  destruct (submit_log identify_cdb buf buf_len s) as (evs & Hlog & Hall).
  exists evs. split; [|exact Hall]. rewrite <- Hlog.
  unfold disk_identify_command, mbind, set_errno, mret.
  destruct (submit identify_cdb buf buf_len s) as [[[rc buf'] sense] s1].
  simpl. destruct (rc =? 0); simpl; [|reflexivity].
  destruct (negb (sense_descriptor_ok sense) && negb (sense_fixed_ok sense));
    reflexivity.
Qed.

Lemma identify_packet_command_log (buf : list Z) (buf_len : Z) (s : sys) :
  exists evs,
    sys_log (snd (disk_identify_packet_device_command buf buf_len s))
    = sys_log s ++ first_submission identify_packet_cdb buf buf_len :: evs
    /\ Forall (is_retry_of identify_packet_cdb) evs.
Proof.
  destruct (submit_log identify_packet_cdb buf buf_len s) as (evs & Hlog & Hall).
  exists evs. split; [|exact Hall]. rewrite <- Hlog.
  unfold disk_identify_packet_device_command, mbind, set_errno, mret.
  destruct (submit identify_packet_cdb buf buf_len s) as [[[rc buf'] sense] s1].
  simpl. destruct (rc =? 0); simpl; [|reflexivity].
  destruct (negb (sense_descriptor_ok sense)); reflexivity.
Qed.

Lemma check_nul_bytes_log (ret : Z) (out : list Z) (ipd : Z) (s : sys) :
  sys_log (snd (check_nul_bytes ret out ipd s)) = sys_log s
  /\ ir_identify (fst (check_nul_bytes ret out ipd s)) = out
  /\ ir_is_packet_device (fst (check_nul_bytes ret out ipd s)) = ipd.
Proof.
  unfold check_nul_bytes, mbind, set_errno, mret.
  destruct (all_nul_bytes out); simpl; auto.
Qed.

(** C3. An IDENTIFY command returns 0 only when the submission succeeded
    and the sense data has an expected encoding: descriptor format or fixed
    format for IDENTIFY DEVICE, descriptor format alone for IDENTIFY PACKET
    DEVICE. A submission that succeeded with any other sense data makes the
    command fail with [EIO]. *)
Theorem identify_sense_gate (buf : list Z) (buf_len : Z) (s : sys) :
  let sub := submit identify_cdb buf buf_len s in
  let r := disk_identify_command buf buf_len s in
  let subp := submit identify_packet_cdb buf buf_len s in
  let rp := disk_identify_packet_device_command buf buf_len s in
  (fst (fst r) = 0 <->
     fst (fst (fst sub)) = 0
     /\ (descriptor_format (snd (fst sub)) \/ fixed_format (snd (fst sub))))
  /\ (fst (fst (fst sub)) = 0 ->
      ~ (descriptor_format (snd (fst sub)) \/ fixed_format (snd (fst sub))) ->
      fst (fst r) = -1 /\ sys_errno (snd r) = EIO)
  /\ (fst (fst rp) = 0 <->
        fst (fst (fst subp)) = 0 /\ descriptor_format (snd (fst subp)))
  /\ (fst (fst (fst subp)) = 0 ->
      ~ descriptor_format (snd (fst subp)) ->
      fst (fst rp) = -1 /\ sys_errno (snd rp) = EIO).
Proof.
  intros sub r subp rp. subst r rp.
  unfold disk_identify_command, disk_identify_packet_device_command, mbind,
    set_errno, mret.
  fold sub. fold subp.
  destruct sub as [[[rc buf'] sense] s1].
  destruct subp as [[[rcp bufp] sensep] sp]. simpl.
  rewrite <- !sense_descriptor_ok_spec, <- sense_fixed_ok_spec.
  destruct (Z.eqb_spec rc 0) as [->|Hrc], (Z.eqb_spec rcp 0) as [->|Hrcp];
    simpl;
    destruct (sense_descriptor_ok sense), (sense_fixed_ok sense),
      (sense_descriptor_ok sensep); simpl;
    repeat split; intros; try reflexivity; try lia; try discriminate;
    try tauto; intuition (try discriminate; try lia).
Qed.

Lemma all_nul_from_true (out : list Z) (k n : nat) :
  (forall i, (n <= i < n + k)%nat -> nth i out 0 = 0) ->
  all_nul_from out n k = true.
Proof.
  revert n. induction k as [|k IH]; intros n Hz; simpl.
  - reflexivity.
  - rewrite (Hz n) by lia. simpl. apply IH. intros i Hi. apply Hz. lia.
Qed.

Lemma all_nul_bytes_true (out : list Z) :
  (forall n, (n < 512)%nat -> nth n out 0 = 0) -> all_nul_bytes out = true.
Proof.
  intros Hz. apply all_nul_from_true. intros i Hi. apply Hz. lia.
Qed.

(** C2. When the block [disk_identify] hands back is all zero, its result
    is a failure; and at the check of the block a command that returned 0
    is turned into [-1] with [EIO]. *)
Theorem all_zero_block_fails (out_identify inquiry_buf : list Z) (s : sys) :
  let r := disk_identify out_identify inquiry_buf s in
  (forall n, (n < 512)%nat -> nth n (ir_identify (fst r)) 0 = 0) ->
  ir_ret (fst r) <> 0
  /\ forall (is_packet_device : Z) (s' : sys),
       fst (check_nul_bytes 0 (ir_identify (fst r)) is_packet_device s')
       = IdentifyResult (-1) (ir_identify (fst r)) is_packet_device
       /\ sys_errno
            (snd (check_nul_bytes 0 (ir_identify (fst r)) is_packet_device s'))
          = EIO.
Proof.
  intros r Hz. split.
  - subst r. revert Hz.
    unfold disk_identify, mbind, set_errno, mret.
    destruct (disk_scsi_inquiry_command inquiry_buf 36 s) as [[ret inq] s1].
    destruct (Z.eqb_spec ret 0) as [->|Hret]; simpl; [|intros _; exact Hret].
    destruct (Z.land (nth 0 inq 0) 31 =? 5).
    + destruct (disk_identify_packet_device_command _ 512 s1) as [[retp out1] s2].
      unfold check_nul_bytes, mbind, set_errno, mret.
      destruct (all_nul_bytes out1) eqn:Hnul; simpl; [intros _; lia|].
      intros Hz. rewrite (all_nul_bytes_true out1 Hz) in Hnul. discriminate.
    + destruct (negb _); simpl; [intros _; lia|].
      destruct (disk_identify_command _ 512 s1) as [[retd out1] s2].
      destruct (Z.eqb_spec retd 0) as [->|Hretd]; simpl; [|intros _; exact Hretd].
      unfold check_nul_bytes, mbind, set_errno, mret.
      destruct (all_nul_bytes out1) eqn:Hnul; simpl; [intros _; lia|].
      intros Hz. rewrite (all_nul_bytes_true out1 Hz) in Hnul. discriminate.
  - intros ipd s'. unfold check_nul_bytes, mbind, set_errno, mret.
    rewrite (all_nul_bytes_true _ Hz). simpl. auto.
Qed.

(** What [disk_identify] does once INQUIRY has returned 0, by the low five
    bits of the first byte of the response. *)
Lemma disk_identify_routes (out_identify inquiry_buf : list Z) (s : sys) :
  let inq := disk_scsi_inquiry_command inquiry_buf 36 s in
  let t := nth 0 (snd (fst inq)) 0 mod 32 in
  let r := disk_identify out_identify inquiry_buf s in
  fst (fst inq) = 0 ->
  exists evs,
    sys_log (snd r) = sys_log (snd inq) ++ evs
    /\ (t = 0x05 ->
        evs <> [] /\ Forall (is_sg_io_of identify_packet_cdb) evs
        /\ ir_is_packet_device (fst r) = 1)
    /\ (t = 0x00 \/ t = 0x14 ->
        evs <> [] /\ Forall (is_sg_io_of identify_cdb) evs
        /\ ir_is_packet_device (fst r) = 0)
    /\ (t <> 0x05 -> t <> 0x00 -> t <> 0x14 ->
        evs = [] /\ ir_ret (fst r) = -1 /\ sys_errno (snd r) = EIO).
Proof.
  intros inq t r Hok. subst r t.
  unfold disk_identify, mbind, set_errno, mret. fold inq.
  destruct inq as [[ret inq'] s1]. simpl in Hok. subst ret. simpl.
  change 31 with (Z.ones 5). rewrite Z.land_ones by lia.
  change (2 ^ 5) with 32.
  set (t := nth 0 inq' 0 mod 32).
  destruct (Z.eqb_spec t 5) as [Ht5|Ht5].
  - pose proof (identify_packet_command_log
                  (memzero out_identify 512) 512 s1) as (evs & Hlog & Hall).
    destruct (disk_identify_packet_device_command _ 512 s1) as [[retp out1] s2].
    simpl in Hlog.
    destruct (check_nul_bytes_log retp out1 1 s2) as (Hl & _ & Hipd).
    eexists. split; [rewrite Hl, Hlog; reflexivity|].
    split; [|split].
    + intros _. split; [discriminate|]. split; [|exact Hipd].
      constructor; [reflexivity|apply is_retry_is_sg_io, Hall].
    + intros [E|E]; lia.
    + intros E. contradiction.
  - assert (t = 0 \/ t = 20 ->
            exists evs,
              sys_log (snd (mbind (disk_identify_command (memzero out_identify 512) 512)
                 (fun xd => let '(ret, out1) := xd in
                    if negb (ret =? 0) then mret (IdentifyResult ret out1 0)
                    else check_nul_bytes ret out1 0) s1))
              = sys_log s1 ++ evs
              /\ evs <> [] /\ Forall (is_sg_io_of identify_cdb) evs
              /\ ir_is_packet_device
                   (fst (mbind (disk_identify_command (memzero out_identify 512) 512)
                     (fun xd => let '(ret, out1) := xd in
                        if negb (ret =? 0) then mret (IdentifyResult ret out1 0)
                        else check_nul_bytes ret out1 0) s1)) = 0) as Hdev.
    { intros _. unfold mbind, mret.
      pose proof (identify_command_log
                    (memzero out_identify 512) 512 s1) as (evs & Hlog & Hall).
      destruct (disk_identify_command _ 512 s1) as [[retd out1] s2].
      simpl in Hlog. eexists.
      destruct (negb (retd =? 0)); simpl.
      - split; [exact Hlog|]. split; [discriminate|]. split; [|reflexivity].
        constructor; [reflexivity|apply is_retry_is_sg_io, Hall].
      - destruct (check_nul_bytes_log retd out1 0 s2) as (Hl & _ & Hipd).
        split; [rewrite Hl; exact Hlog|]. split; [discriminate|].
        split; [|exact Hipd].
        constructor; [reflexivity|apply is_retry_is_sg_io, Hall]. }
    unfold mbind, mret in Hdev.
    destruct (Z.eqb_spec t 0) as [Ht0|Ht0]; simpl.
    + destruct (Hdev (or_introl Ht0)) as (evs & Hlog & Hne & Hall & Hipd).
      exists evs. split; [exact Hlog|]. split; [|split].
      * intros E. lia.
      * intros _. auto.
      * intros _ E. contradiction.
    + destruct (Z.eqb_spec t 20) as [Ht20|Ht20]; simpl.
      * destruct (Hdev (or_intror Ht20)) as (evs & Hlog & Hne & Hall & Hipd).
        exists evs. split; [exact Hlog|]. split; [|split].
        -- intros E. lia.
        -- intros _. auto.
        -- intros _ _ E. contradiction.
      * exists []. split; [rewrite app_nil_r; reflexivity|].
        split; [|split].
        -- intros E. contradiction.
        -- intros [E|E]; contradiction.
        -- intros _ _ _. auto.
Qed.

Lemma memzero_block (buf : list Z) :
  length buf = 512%nat -> memzero buf 512 = repeat 0 512.
Proof.
  intros Hlen. unfold memzero.
  rewrite drop_ge by lia. apply app_nil_r.
Qed.

(** The submissions of one call of [disk_identify]: INQUIRY with the local
    buffer as it is found, then at most one IDENTIFY command, whose first
    submission is handed the block that [memzero] cleared. *)
Lemma disk_identify_log (out_identify inquiry_buf : list Z) (s : sys) :
  let r := disk_identify out_identify inquiry_buf s in
  exists evs_inq evs_id,
    sys_log (snd r)
    = sys_log s
      ++ first_submission (inquiry_cdb 36) inquiry_buf 36 :: evs_inq ++ evs_id
    /\ Forall (is_retry_of (inquiry_cdb 36)) evs_inq
    /\ ((evs_id = [] /\ ir_identify (fst r) = memzero out_identify 512)
        \/ exists cdb evs,
             (cdb = identify_cdb \/ cdb = identify_packet_cdb)
             /\ evs_id
                = first_submission cdb (memzero out_identify 512) 512 :: evs
             /\ Forall (is_retry_of cdb) evs).
Proof.
  intros r. subst r.
  unfold disk_identify, mbind, set_errno, mret.
  destruct (inquiry_command_log inquiry_buf 36 s) as (evs_inq & Hlog & Hall).
  destruct (disk_scsi_inquiry_command inquiry_buf 36 s) as [[ret inq] s1].
  simpl in Hlog. exists evs_inq.
  destruct (ret =? 0); simpl.
  - destruct (Z.land (nth 0 inq 0) 31 =? 5).
    + destruct (identify_packet_command_log (memzero out_identify 512) 512 s1)
        as (evs & Hlogp & Hallp).
      destruct (disk_identify_packet_device_command _ 512 s1)
        as [[retp out1] s2].
      simpl in Hlogp.
      destruct (check_nul_bytes_log retp out1 1 s2) as (Hl & _ & _).
      eexists. split; [|split; [exact Hall|]].
      * rewrite Hl, Hlogp, Hlog, <- app_assoc. reflexivity.
      * right. exists identify_packet_cdb, evs. auto.
    + destruct (negb _); simpl.
      * exists []. rewrite app_nil_r. auto.
      * destruct (identify_command_log (memzero out_identify 512) 512 s1)
          as (evs & Hlogd & Halld).
        destruct (disk_identify_command _ 512 s1) as [[retd out1] s2].
        simpl in Hlogd.
        eexists. split; [|split; [exact Hall|]].
        -- destruct (negb (retd =? 0)); simpl.
           ++ rewrite Hlogd, Hlog, <- app_assoc. reflexivity.
           ++ destruct (check_nul_bytes_log retd out1 0 s2) as (Hl & _ & _).
              rewrite Hl, Hlogd, Hlog, <- app_assoc. reflexivity.
        -- right. exists identify_cdb, evs. auto.
  - exists []. rewrite app_nil_r. auto.
Qed.

(** C4, as the code has it. [disk_identify] clears the caller's block of
    512 bytes once, on entry: what the caller's block held before has no
    effect on the result, the first submission of an IDENTIFY command is
    handed an all-zero block, and a probe that sends no IDENTIFY command
    hands back an all-zero block. The INQUIRY buffer goes to the first
    submission with the contents it is found with. *)
Theorem identify_block_zeroed (out_identify inquiry_buf : list Z) (s : sys) :
  length out_identify = 512%nat ->
  let r := disk_identify out_identify inquiry_buf s in
  r = disk_identify (repeat 0 512) inquiry_buf s
  /\ exists evs,
       sys_log (snd r)
       = sys_log s ++ first_submission (inquiry_cdb 36) inquiry_buf 36 :: evs
       /\ (forall rq, In (EvSgIo rq) evs ->
             rq_iface rq = SG_V4 ->
             rq_cdb rq = identify_cdb \/ rq_cdb rq = identify_packet_cdb ->
             rq_data rq = repeat 0 512)
       /\ ((forall rq, In (EvSgIo rq) evs -> rq_cdb rq = inquiry_cdb 36) ->
           ir_identify (fst r) = repeat 0 512).
Proof.
  intros Hlen r. subst r. split.
  - unfold disk_identify. rewrite !memzero_block; [reflexivity| |assumption].
    apply repeat_length.
  - destruct (disk_identify_log out_identify inquiry_buf s)
      as (evs_inq & evs_id & Hlog & Hinq & Hid).
    rewrite memzero_block in Hid by assumption.
    exists (evs_inq ++ evs_id). split; [exact Hlog|].
    assert (forall rq cdb l, Forall (is_retry_of cdb) l -> In (EvSgIo rq) l ->
                             rq_cdb rq = cdb /\ rq_iface rq = SG_V3) as Hretry.
    { intros rq cdb l Hf Hin. rewrite Forall_forall in Hf.
      apply (Hf (EvSgIo rq)). apply list_elem_of_In. exact Hin. }
    split.
    + intros rq Hin Hv4 Hcdb.
      apply in_app_or in Hin as [Hin|Hin].
      * destruct (Hretry _ _ _ Hinq Hin) as [_ Hv3]. congruence.
      * destruct Hid as [[-> _]|(cdb & evs & _ & -> & Hall)]; [destruct Hin|].
        destruct Hin as [E|Hin].
        -- injection E as <-. reflexivity.
        -- destruct (Hretry _ _ _ Hall Hin) as [_ Hv3]. congruence.
    + intros Honly.
      destruct Hid as [[_ Hz]|(cdb & evs & Hcdb & -> & _)]; [exact Hz|].
      exfalso.
      assert (rq_cdb (SgRequest SG_V4 cdb (repeat 0 512) 512 (repeat 0 32)
                                COMMAND_TIMEOUT_MSEC) = inquiry_cdb 36) as E.
      { apply Honly. apply in_or_app. right. left. reflexivity. }
      simpl in E. destruct Hcdb as [-> | ->]; discriminate E.
Qed.

End Facts.

Section MainFacts.
Context `{Device} `{Platform}.

(** A failed protocol path is followed by the legacy call, and by nothing
    else. *)
Lemma main_falls_back (fuel : nat) (export : bool)
    (identify inquiry_buf : list Z) (s : sys) :
  ir_ret (fst (disk_identify identify inquiry_buf s)) <> 0 ->
  sys_log (snd (main fuel export identify inquiry_buf s))
  = sys_log (snd (disk_identify identify inquiry_buf s)) ++ [ EvHdioGetIdentity ].
Proof.
  intros Hfail. unfold main, mbind, mret, ioctl_HDIO_GET_IDENTITY.
  destruct (disk_identify identify inquiry_buf s) as [r s1]. simpl in *.
  destruct (Z.eqb_spec (ir_ret r) 0) as [E|_]; [contradiction|].
  destruct (HDIO_GET_IDENTITY (sys_world s1)) as [hr w].
  destruct (negb (hr_ret hr =? 0)); reflexivity.
Qed.

(** C1. After an INQUIRY that returned 0, the low 5 bits of the first byte
    of the response decide what is sent next: type 0x05 sends IDENTIFY
    PACKET DEVICE, types 0x00 and 0x14 send IDENTIFY DEVICE, and for any
    other type nothing more is sent, [disk_identify] fails with [EIO] and
    [main] goes on to [HDIO_GET_IDENTITY]. *)
Theorem peripheral_type_routing (out_identify inquiry_buf : list Z) (s : sys) :
  let inq := disk_scsi_inquiry_command inquiry_buf 36 s in
  let t := nth 0 (snd (fst inq)) 0 mod 32 in
  let r := disk_identify out_identify inquiry_buf s in
  fst (fst inq) = 0 ->
  exists evs,
    sys_log (snd r) = sys_log (snd inq) ++ evs
    /\ (t = 0x05 ->
        evs <> [] /\ Forall (is_sg_io_of identify_packet_cdb) evs
        /\ ir_is_packet_device (fst r) = 1)
    /\ (t = 0x00 \/ t = 0x14 ->
        evs <> [] /\ Forall (is_sg_io_of identify_cdb) evs
        /\ ir_is_packet_device (fst r) = 0)
    /\ (t <> 0x05 -> t <> 0x00 -> t <> 0x14 ->
        evs = [] /\ ir_ret (fst r) = -1 /\ sys_errno (snd r) = EIO
        /\ forall fuel export,
             sys_log (snd (main fuel export out_identify inquiry_buf s))
             = sys_log (snd r) ++ [ EvHdioGetIdentity ]).
Proof.
  intros inq t r Hok.
  destruct (disk_identify_routes out_identify inquiry_buf s Hok)
    as (evs & Hlog & Hpkt & Hdev & Hother).
  exists evs. split; [exact Hlog|]. split; [exact Hpkt|]. split; [exact Hdev|].
  intros N5 N0 N20. destruct (Hother N5 N0 N20) as (He & Hret & Herr).
  split; [exact He|]. split; [exact Hret|]. split; [exact Herr|].
  intros fuel export. apply main_falls_back.
  unfold r in Hret. rewrite Hret. discriminate.
Qed.

End MainFacts.
End TransportFacts.

(** ** The decoder *)

Module DecodeFacts.
Import Mach Sys Decode Main Report.

Lemma land_shiftl_1 (w n : Z) :
  0 <= n ->
  Z.land w (Z.shiftl 1 n) = if Z.testbit w n then Z.shiftl 1 n else 0.
Proof.
  intros Hn. apply Z.bits_inj'. intros i Hi.
  rewrite Z.land_spec.
  destruct (Z.eq_dec i n) as [->|Hne].
  - destruct (Z.testbit w n); simpl.
    + reflexivity.
    + rewrite Z.bits_0. reflexivity.
  - assert (Z.testbit (Z.shiftl 1 n) i = false) as Hz.
    { rewrite Z.shiftl_spec by lia.
      destruct (Z.lt_ge_cases i n).
      - apply Z.testbit_neg_r. lia.
      - apply (Z.bits_above_log2 1 (i - n)); simpl; lia. }
    destruct (Z.testbit w n); rewrite ?Z.bits_0, ?Hz, ?andb_false_r; reflexivity.
Qed.

Lemma bit_set_testbit (w n : Z) : 0 <= n -> bit_set w n = Z.testbit w n.
Proof.
  intros Hn. unfold bit_set. rewrite land_shiftl_1 by assumption.
  destruct (Z.testbit w n); simpl.
  - rewrite Z.shiftl_1_l.
    destruct (Z.eqb_spec (2 ^ n) 0) as [E|E]; [|reflexivity].
    pose proof (Z.pow_pos_nonneg 2 n ltac:(lia) Hn). lia.
  - reflexivity.
Qed.

Lemma values_of_app (k : string) (l1 l2 : list line) :
  values_of k (l1 ++ l2) = values_of k l1 ++ values_of k l2.
Proof.
  induction l1 as [|[k' v|s] l1 IH]; simpl.
  - reflexivity.
  - destruct (String.eqb k k'); simpl; now rewrite IH.
  - exact IH.
Qed.

Lemma values_of_when (k : string) (b : bool) (l : list line) :
  values_of k (when b l) = if b then values_of k l else [].
Proof. destruct b; reflexivity. Qed.

Lemma values_of_if (k : string) (b : bool) (l1 l2 : list line) :
  values_of k (if b then l1 else l2)
  = if b then values_of k l1 else values_of k l2.
Proof. destruct b; reflexivity. Qed.

Lemma if_same {A : Type} (b : bool) (x : A) : (if b then x else x) = x.
Proof. destruct b; reflexivity. Qed.

(** Push [values_of] through the structure of the output and evaluate it on
    the literal keys. *)
Ltac values_of_norm :=
  repeat (rewrite ?values_of_app, ?values_of_when, ?values_of_if);
  simpl values_of;
  repeat rewrite if_same;
  simpl app.

Ltac unfold_output :=
  unfold output, export_type, export_strings, export_features, export_sata,
    export_rotation_rate, export_wwn, export_cfa.

Lemma nth_all_bytes (buf : list Z) (n : nat) :
  all_bytes buf = true -> 0 <= nth n buf 0 < 256.
Proof.
  revert n. induction buf as [|b buf IH]; intros n Hb.
  - destruct n; simpl; lia.
  - simpl in Hb. apply andb_true_iff in Hb as [Hb0 Hb1].
    destruct n; simpl.
    + lia.
    + apply IH, Hb1.
Qed.

Lemma wyde_range `{Platform} (identify : list Z) (k : nat) :
  all_bytes identify = true -> 0 <= wyde identify k < 65536.
Proof.
  intros Hb. unfold wyde.
  pose proof (nth_all_bytes identify (2 * k) Hb).
  pose proof (nth_all_bytes identify (2 * k + 1) Hb).
  destruct host_big_endian; lia.
Qed.

Lemma lor_mul_low (x b n : Z) :
  0 <= n -> 0 <= b < 2 ^ n -> Z.lor (x * 2 ^ n) b = x * 2 ^ n + b.
Proof.
  intros Hn Hb. rewrite <- Z.shiftl_mul_pow2 by assumption.
  symmetry. apply Z.add_nocarry_lor.
  apply Z.bits_inj'. intros i Hi.
  rewrite Z.land_spec, Z.bits_0.
  destruct (Z.lt_ge_cases i n) as [Hlt|Hge].
  - rewrite Z.shiftl_spec_low by assumption. reflexivity.
  - assert (Z.testbit b i = false) as ->; [|apply andb_false_r].
    destruct (Z.eq_dec b 0) as [->|Hb0]; [apply Z.bits_0|].
    apply Z.bits_above_log2; [lia|].
    apply Z.lt_le_trans with n; [|assumption].
    apply Z.log2_lt_pow2; lia.
Qed.

Lemma shift_or_16 (x b : Z) :
  0 <= x < 2 ^ 48 -> 0 <= b < 65536 ->
  Z.lor (wrap_u64 (Z.shiftl x 16)) b = x * 65536 + b.
Proof.
  intros Hx Hb. unfold wrap_u64.
  rewrite Z.shiftl_mul_pow2 by lia.
  change (2 ^ 16) with 65536. change (2 ^ 48) with 281474976710656 in Hx.
  change (2 ^ 64) with 18446744073709551616.
  rewrite Z.mod_small by lia.
  change 65536 with (2 ^ 16) at 1 2.
  apply lor_mul_low; [lia | change (2 ^ 16) with 65536; lia].
Qed.

Lemma wwwn_of_concat (a b c d : Z) :
  0 <= a < 65536 -> 0 <= b < 65536 -> 0 <= c < 65536 -> 0 <= d < 65536 ->
  wwwn_of a b c d = a * 2 ^ 48 + b * 2 ^ 32 + c * 2 ^ 16 + d.
Proof.
  intros Ha Hb Hc Hd. unfold wwwn_of.
  change (2 ^ 48) with 281474976710656. change (2 ^ 32) with 4294967296.
  change (2 ^ 16) with 65536.
  rewrite (shift_or_16 a b) by (change (2 ^ 48) with 281474976710656; lia).
  rewrite (shift_or_16 _ c) by (change (2 ^ 48) with 281474976710656; lia).
  rewrite (shift_or_16 _ d) by (change (2 ^ 48) with 281474976710656; lia).
  lia.
Qed.

Lemma land_f000 (w : Z) :
  Z.land w 0xf000 = Z.shiftl (Z.land (Z.shiftr w 12) 15) 12.
Proof.
  change 0xf000 with (Z.shiftl 15 12).
  apply Z.bits_inj'. intros i Hi.
  rewrite Z.land_spec, !Z.shiftl_spec, Z.land_spec by assumption.
  destruct (Z.lt_ge_cases i 12) as [Hlt|Hge].
  - rewrite (Z.testbit_neg_r 15) by lia. rewrite !andb_false_r. reflexivity.
  - rewrite Z.shiftr_spec by lia. do 2 f_equal. lia.
Qed.

Lemma top_nibble (w : Z) :
  0 <= w < 65536 ->
  (Z.land w 0xf000 =? 0x5000) = (Z.shiftr w 12 =? 5).
Proof.
  intros Hw. rewrite land_f000.
  assert (0 <= Z.shiftr w 12 < 16) as Hq.
  { rewrite Z.shiftr_div_pow2 by lia. change (2 ^ 12) with 4096.
    split; [apply Z.div_pos; lia | apply Z.div_lt_upper_bound; lia]. }
  change 15 with (Z.ones 4). rewrite Z.land_ones by lia.
  rewrite Z.mod_small by (change (2 ^ 4) with 16; lia).
  rewrite Z.shiftl_mul_pow2 by lia. change (2 ^ 12) with 4096.
  destruct (Z.eqb_spec (Z.shiftr w 12) 5), (Z.eqb_spec (Z.shiftr w 12 * 4096) 0x5000);
    try reflexivity; lia.
Qed.

Section Output.
Context `{Platform}.

(** C6. Word 217 equal to 1 is printed as a rate of 0 RPM, a word in
    [0x0401, 0xFFFE] is printed as it is, and for every other word, 0x0400
    and 0xFFFF among them, no rotation rate is printed. *)
Theorem rotation_rate_mapping (id : hd_driveid) (identify : list Z) :
  let w := wyde identify 217 in
  let rpm := values_of "ID_ATA_ROTATION_RATE_RPM" (output true id identify) in
  (w = 0x0001 -> rpm = [ Num 0 ])
  /\ (0x0401 <= w <= 0xFFFE -> rpm = [ Num w ])
  /\ (w <> 0x0001 -> ~ (0x0401 <= w <= 0xFFFE) -> rpm = [])
  /\ (w = 0x0400 -> rpm = [])
  /\ (w = 0xFFFF -> rpm = []).
Proof.
  intros w rpm.
  assert (rpm = values_of "ID_ATA_ROTATION_RATE_RPM" (export_rotation_rate w))
    as ->.
  { subst rpm w.
    unfold output, export_type, export_strings, export_features, export_sata,
      export_wwn, export_cfa.
    values_of_norm. apply app_nil_r. }
  clearbody w. unfold export_rotation_rate.
  split; [intros ->; reflexivity|].
  split.
  { intros Hw. destruct (Z.eqb_spec w 1); [lia|].
    destruct (Z.leb_spec 0x0401 w), (Z.leb_spec w 0xfffe); simpl; try lia.
    reflexivity. }
  split.
  { intros Hw1 Hw. destruct (Z.eqb_spec w 1); [lia|].
    destruct (Z.leb_spec 0x0401 w), (Z.leb_spec w 0xfffe); simpl;
      try reflexivity; lia. }
  split; intros ->; reflexivity.
Qed.

(** C9. When word 76 is 0x0000 or 0xFFFF none of the three SATA keys is
    printed; otherwise ID_ATA_SATA=1 is printed, the Gen2 key exactly when
    bit 2 of the word is set and the Gen1 key exactly when bit 1 is. *)
Theorem sata_keys (id : hd_driveid) (identify : list Z) :
  let w := wyde identify 76 in
  let out := output true id identify in
  (w = 0x0000 \/ w = 0xFFFF ->
     values_of "ID_ATA_SATA" out = []
     /\ values_of "ID_ATA_SATA_SIGNAL_RATE_GEN1" out = []
     /\ values_of "ID_ATA_SATA_SIGNAL_RATE_GEN2" out = [])
  /\ (w <> 0x0000 -> w <> 0xFFFF ->
     values_of "ID_ATA_SATA" out = [ Num 1 ]
     /\ values_of "ID_ATA_SATA_SIGNAL_RATE_GEN2" out
        = (if Z.testbit w 2 then [ Num 1 ] else [])
     /\ values_of "ID_ATA_SATA_SIGNAL_RATE_GEN1" out
        = (if Z.testbit w 1 then [ Num 1 ] else [])).
Proof.
  intros w out.
  assert (forall k, In k [ "ID_ATA_SATA"; "ID_ATA_SATA_SIGNAL_RATE_GEN1";
                           "ID_ATA_SATA_SIGNAL_RATE_GEN2" ] ->
                    values_of k out = values_of k (export_sata w)) as Hout.
  { intros k Hk. subst out w.
    unfold output, export_type, export_strings, export_features,
      export_rotation_rate, export_wwn, export_cfa.
    simpl in Hk.
    destruct Hk as [<-|[<-|[<-|[]]]]; values_of_norm; apply app_nil_r. }
  rewrite !Hout by (simpl; tauto).
  unfold export_sata. rewrite !bit_set_testbit by lia.
  split.
  - intros [->| ->]; repeat split; reflexivity.
  - intros H0 H1.
    destruct (Z.eqb_spec w 0); [lia|].
    destruct (Z.eqb_spec w 0xffff); [lia|].
    destruct (Z.testbit w 2), (Z.testbit w 1); repeat split; reflexivity.
Qed.

(** C7. The WWN is printed exactly when the top 4 bits of word 108 are 0x5,
    and its value is words 108, 109, 110, 111 put side by side, the most
    significant word first. *)
Theorem wwn_reported (id : hd_driveid) (identify : list Z) :
  all_bytes identify = true ->
  let w108 := wyde identify 108 in
  let w109 := wyde identify 109 in
  let w110 := wyde identify 110 in
  let w111 := wyde identify 111 in
  let out := output true id identify in
  (Z.shiftr w108 12 = 0x5 ->
     values_of "ID_WWN" out
     = [ Hex (w108 * 2 ^ 48 + w109 * 2 ^ 32 + w110 * 2 ^ 16 + w111) ]
     /\ values_of "ID_WWN_WITH_EXTENSION" out
        = [ Hex (w108 * 2 ^ 48 + w109 * 2 ^ 32 + w110 * 2 ^ 16 + w111) ])
  /\ (Z.shiftr w108 12 <> 0x5 ->
     values_of "ID_WWN" out = []
     /\ values_of "ID_WWN_WITH_EXTENSION" out = []).
Proof.
  intros Hb w108 w109 w110 w111 out.
  assert (forall k, In k [ "ID_WWN"; "ID_WWN_WITH_EXTENSION" ] ->
                    values_of k out
                    = values_of k (export_wwn w108 w109 w110 w111)) as Hout.
  { intros k Hk. subst out w108 w109 w110 w111.
    unfold output, export_type, export_strings, export_features,
      export_sata, export_rotation_rate, export_cfa.
    simpl in Hk.
    destruct Hk as [<-|[<-|[]]]; values_of_norm;
      repeat rewrite if_same; rewrite ?app_nil_r; reflexivity. }
  rewrite !Hout by (simpl; tauto).
  pose proof (wyde_range identify 108 Hb) as H108.
  pose proof (wyde_range identify 109 Hb) as H109.
  pose proof (wyde_range identify 110 Hb) as H110.
  pose proof (wyde_range identify 111 Hb) as H111.
  fold w108 in H108. fold w109 in H109. fold w110 in H110. fold w111 in H111.
  clearbody w108 w109 w110 w111. clear Hout.
  unfold export_wwn. rewrite top_nibble by assumption.
  rewrite wwwn_of_concat by assumption.
  split; intros Hn.
  - rewrite Hn. split; reflexivity.
  - destruct (Z.eqb_spec (Z.shiftr w108 12) 5); [contradiction|].
    split; reflexivity.
Qed.

(** C5, as the code has it. A flag whose support bit is set is printed with
    value 1, and, for every flag but microcode download, together with its
    [_ENABLED] key, whose value is the bit at the same position of the paired
    enabled word; microcode download is printed without an enabled state. *)
Theorem feature_flags_reported (f : feature) (id : hd_driveid)
    (identify : list Z) :
  Z.testbit (support_word f id) (feature_bit f) = true ->
  let out := output true id identify in
  values_of (feature_key f) out = [ Num 1 ]
  /\ (f <> DownloadMicrocode -> reported_with_enabled_state f id out)
  /\ (f = DownloadMicrocode -> values_of (enabled_key f) out = []).
Proof.
  intros Hs out. subst out.
  unfold reported_with_enabled_state, enabled_key.
  destruct f; unfold support_word, feature_bit in Hs;
    unfold feature_key, enabled_word, feature_bit, b2z; simpl String.append;
    (split; [|split; [intros Hf; try (exfalso; apply Hf; reflexivity); split
                     |intros Hf; try discriminate Hf]]);
    unfold_output; values_of_norm;
    unfold enabled; rewrite ?bit_set_testbit by lia; rewrite ?Hs;
    repeat rewrite if_same; rewrite ?app_nil_r; reflexivity.
Qed.

End Output.

End DecodeFacts.

(** ** The properties on the test devices *)

Module Scenarios.
Import Mach Mem GetString Sys Transport Probe Decode Main Report Bench.
Import GetStringFacts TransportFacts DecodeFacts.

Lemma peripheral_type_routing_witness :
  ir_is_packet_device
    (fst (disk_identify (repeat 0 512) (repeat 0 36)
            (boot [ ok_reply cdrom_inquiry; ok_reply sample_block ]))) = 1.
Proof.
  destruct (peripheral_type_routing (repeat 0 512) (repeat 0 36)
              (boot [ ok_reply cdrom_inquiry; ok_reply sample_block ]))
    as (evs & _ & Hpacket & _).
  - vm_compute. reflexivity.
  - apply Hpacket. vm_compute. reflexivity.
Defined.

Lemma all_zero_block_fails_witness :
  ir_ret
    (fst (disk_identify (repeat 0 512) (repeat 0 36)
            (boot [ ok_reply (repeat 0 36); ok_reply (repeat 0 512) ]))) <> 0.
Proof.
  apply (all_zero_block_fails (repeat 0 512) (repeat 0 36)
           (boot [ ok_reply (repeat 0 36); ok_reply (repeat 0 512) ])).
  intros n Hn. vm_compute ir_identify.
  do 512 (destruct n as [|n]; [reflexivity|]). lia.
Defined.

Lemma identify_sense_gate_witness :
  fst (fst (disk_identify_command (repeat 0 512) 512
              (boot [ ok_reply sample_block ]))) = 0.
Proof.
  destruct (identify_sense_gate (repeat 0 512) 512
              (boot [ ok_reply sample_block ])) as [[_ Hok] _].
  apply Hok. split.
  - vm_compute. reflexivity.
  - left. vm_compute. auto.
Defined.

Lemma identify_block_zeroed_witness :
  disk_identify sample_block (repeat 0 36) (boot [])
  = disk_identify (repeat 0 512) (repeat 0 36) (boot []).
Proof.
  apply (identify_block_zeroed sample_block (repeat 0 36) (boot [])).
  vm_compute. reflexivity.
Defined.

(** C4 as stated fails for the INQUIRY buffer: it reaches the kernel with
    the bytes the stack happened to hold, and when the device reports success
    without transferring anything those bytes pick the IDENTIFY command. *)
Lemma inquiry_buffer_not_zeroed :
  let stale := repeat 0x05 36 in
  let dev := boot [ empty_reply; ok_reply sample_block ] in
  let r := disk_identify (repeat 0 512) stale dev in
  head (sys_log (snd r)) = Some (first_submission (inquiry_cdb 36) stale 36)
  /\ stale <> repeat 0 36
  /\ ir_is_packet_device (fst r) = 1
  /\ ir_is_packet_device
       (fst (disk_identify (repeat 0 512) (repeat 0 36) dev)) = 0.
Proof.
  vm_compute. repeat split; discriminate.
Qed.

Lemma rotation_rate_mapping_witness :
  values_of "ID_ATA_ROTATION_RATE_RPM" (output true blank_id sample_block)
  = [ Num 7200 ].
Proof.
  destruct (rotation_rate_mapping blank_id sample_block) as (_ & Hrange & _).
  apply Hrange. vm_compute. split; discriminate.
Defined.

Lemma sata_keys_witness :
  values_of "ID_ATA_SATA" (output true blank_id sample_block) = [ Num 1 ]
  /\ values_of "ID_ATA_SATA_SIGNAL_RATE_GEN2" (output true blank_id sample_block)
     = [ Num 1 ]
  /\ values_of "ID_ATA_SATA_SIGNAL_RATE_GEN1" (output true blank_id sample_block)
     = [ Num 1 ].
Proof.
  destruct (sata_keys blank_id sample_block) as (_ & Hsata).
  apply Hsata; vm_compute; discriminate.
Defined.

(** Words (0x5001, 0x2233, 0x4455, 0x6677) give WWN 0x5001223344556677. *)
Lemma wwn_reported_witness :
  all_bytes sample_block = true
  /\ values_of "ID_WWN" (output true blank_id sample_block)
     = [ Hex 0x5001223344556677 ].
Proof.
  split; [vm_compute; reflexivity|].
  destruct (wwn_reported blank_id sample_block) as ((Hwwn & _) & _).
  - vm_compute. reflexivity.
  - vm_compute. reflexivity.
  - exact Hwwn.
Defined.

Lemma feature_flags_reported_witness :
  reported_with_enabled_state WriteCache write_cache_id
    (output true write_cache_id sample_block).
Proof.
  destruct (feature_flags_reported WriteCache write_cache_id sample_block)
    as (_ & Hen & _).
  - vm_compute. reflexivity.
  - apply Hen. discriminate.
Defined.

(** C5 as stated fails for microcode download: its support bit is set, and
    no enabled state is printed; the output is the same whether bit 0 of the
    enabled word is set or clear. *)
Lemma microcode_enabled_state_not_reported :
  Z.testbit (support_word DownloadMicrocode (microcode_id 1))
            (feature_bit DownloadMicrocode) = true
  /\ ~ reported_with_enabled_state DownloadMicrocode (microcode_id 1)
         (output true (microcode_id 1) sample_block)
  /\ output true (microcode_id 1) sample_block
     = output true (microcode_id 0) sample_block.
Proof.
  split; [reflexivity|]. split.
  - intros [_ Hen]. vm_compute in Hen. discriminate Hen.
  - vm_compute. reflexivity.
Qed.

Lemma fixup_string_involution_witness :
  exists m1,
    disk_identify_fixup_string 5 sample_block 0 108 8 = Returned m1
    /\ disk_identify_fixup_string 5 m1 0 108 8 = Returned sample_block.
Proof.
  apply fixup_string_involution.
  - lia.
  - vm_compute. discriminate.
  - lia.
  - lia.
  - reflexivity.
  - lia.
  - vm_compute. lia.
Defined.

Lemma get_string_termination_witness :
  (exists m',
     disk_identify_get_string 3 [ 0x41; 0x42; 0x43; 0x44; 0; 0; 0; 0 ] 0 0 4 4
     = Returned m'
     /\ load m' 4 = Some 0x42 /\ load m' 5 = Some 0x41
     /\ load m' 6 = Some 0x44 /\ load m' 7 = Some 0x43)
  /\ (forall fuel m',
        disk_identify_get_string fuel [ 0x41; 0x42; 0x43; 0x44; 0; 0; 0; 0 ]
          0 0 4 3 <> Returned m').
Proof.
  destruct get_string_termination as (Heven & Hodd & _). split.
  - destruct (Heven 3%nat [ 0x41; 0x42; 0x43; 0x44; 0; 0; 0; 0 ] 0 0 4 4)
      as (m' & Hrun & _ & _ & _ & _ & Hcopy);
      try lia; try reflexivity; try (vm_compute; discriminate).
    + vm_compute. lia.
    + exists m'. split; [exact Hrun|].
      assert (0 <= 0 < 4 / 2) as H0 by (vm_compute; split; [discriminate|reflexivity]).
      assert (0 <= 1 < 4 / 2) as H1 by (vm_compute; split; [discriminate|reflexivity]).
      assert (4 <= 0 + 0 * 2 \/ 0 + 0 * 2 + 4 <= 4) as Hd
        by (right; vm_compute; discriminate).
      destruct (Hcopy Hd 0 H0) as [Ha Hb].
      destruct (Hcopy Hd 1 H1) as [Hc He].
      repeat split; assumption.
  - apply (Hodd [ 0x41; 0x42; 0x43; 0x44; 0; 0; 0; 0 ] 0 0 4 3).
    + vm_compute. split; reflexivity.
    + reflexivity.
Defined.

(** The loop on three byte pairs, copied behind the source. *)
Example get_string_swaps_pairs :
  disk_identify_get_string 4 [ 1; 2; 3; 4; 5; 6; 0; 0; 0; 0; 0; 0 ] 0 0 6 6
  = Returned [ 1; 2; 3; 4; 5; 6; 2; 1; 4; 3; 6; 5 ].
Proof. vm_compute. reflexivity. Qed.

(** Version 4 refused with [EINVAL], INQUIRY answered through version 3 by
    a device of type 0x11: nothing more is submitted and [main] falls back
    to the legacy call. *)
Example rejected_type_falls_back :
  map (fun e => match e with
                | EvSgIo rq => Some (rq_iface rq, rq_cdb rq)
                | EvHdioGetIdentity => None
                end)
      (sys_log (snd (main 21 false (repeat 0 512) (repeat 0 36)
                       (boot [ SgReply (-1) EINVAL [] [] 0 0 0;
                               ok_reply (0x11 :: repeat 0 35) ]))))
  = [ Some (SG_V4, inquiry_cdb 36); Some (SG_V3, inquiry_cdb 36); None ].
Proof. vm_compute. reflexivity. Qed.

End Scenarios.

(** ** More on the transport and the probe sequence *)

Module TransportMore.
Import Mach Sys Transport Probe Decode Main Report Observe.
Import TransportFacts.

Section Submissions.
Context `{Device}.

Lemma status_bad_false (rp : sg_reply) :
  status_bad rp = false <-> status_clean rp.
Proof.
  unfold status_bad, status_clean.
  rewrite negb_false_iff, !andb_true_iff, !Z.eqb_eq. tauto.
Qed.

Lemma submit_submissions (cdb buf : list Z) (buf_len : Z) (s : sys) :
  sys_log (snd (submit cdb buf buf_len s))
  = sys_log s ++ expected_submissions cdb buf buf_len (sys_world s).
Proof.
  unfold submit, mbind, ioctl_SG_IO, get_errno, mret, expected_submissions,
    v4_request, v3_request.
  destruct (SG_IO (sys_world s) _) as [r4 w1]. simpl.
  destruct (rp_ret r4 =? 0); simpl; [reflexivity|].
  destruct (rp_errno r4 =? EINVAL); simpl; [|reflexivity].
  destruct (SG_IO w1 _) as [r3 w2]. simpl.
  destruct (rp_ret r3 =? 0); simpl; rewrite <- app_assoc; reflexivity.
Qed.

(** X1. Bytes 3 and 4 of the INQUIRY descriptor hold the allocation length,
    most significant byte first: a length below 65536 is read back from them,
    and the descriptor is six bytes with operation code 0x12. *)
Theorem inquiry_cdb_allocation_length (buf_len : Z) :
  0 <= buf_len < 65536 ->
  length (inquiry_cdb buf_len) = 6%nat
  /\ nth 0 (inquiry_cdb buf_len) 0 = 0x12
  /\ nth 3 (inquiry_cdb buf_len) 0 * 256 + nth 4 (inquiry_cdb buf_len) 0
     = buf_len
  /\ Forall (fun b => 0 <= b < 256) (inquiry_cdb buf_len).
Proof.
  intros Hlen. unfold inquiry_cdb, wrap_u8. simpl.
  change 255 with (Z.ones 8). rewrite Z.land_ones by lia.
  rewrite Z.shiftr_div_pow2 by lia. change (2 ^ 8) with 256.
  assert (0 <= buf_len / 256 < 256) as Hhi
    by (split; [apply Z.div_pos; lia | apply Z.div_lt_upper_bound; lia]).
  rewrite (Z.mod_small (buf_len / 256)) by lia.
  rewrite Z.mod_mod by lia.
  pose proof (Z.mod_pos_bound buf_len 256 ltac:(lia)).
  repeat split; try lia.
  - pose proof (Z.div_mod buf_len 256 ltac:(lia)). lia.
  - repeat constructor; lia.
Qed.

Lemma inquiry_submissions (buf : list Z) (buf_len : Z) (s : sys) :
  sys_log (snd (disk_scsi_inquiry_command buf buf_len s))
  = sys_log s
    ++ expected_submissions (inquiry_cdb buf_len) buf buf_len (sys_world s).
Proof.
  unfold disk_scsi_inquiry_command, mbind, ioctl_SG_IO, get_errno, set_errno,
    mret, expected_submissions, v4_request, v3_request.
  destruct (SG_IO (sys_world s) _) as [r4 w1]. simpl.
  destruct (rp_ret r4 =? 0); simpl.
  - destruct (status_bad r4); reflexivity.
  - destruct (rp_errno r4 =? EINVAL); simpl; [|reflexivity].
    destruct (SG_IO w1 _) as [r3 w2]. simpl.
    destruct (rp_ret r3 =? 0); simpl;
      [destruct (status_bad r3); simpl; [|destruct (status_bad r4); simpl]|];
      rewrite <- app_assoc; reflexivity.
Qed.

Lemma identify_command_submissions (buf : list Z) (buf_len : Z) (s : sys) :
  sys_log (snd (disk_identify_command buf buf_len s))
  = sys_log s ++ expected_submissions identify_cdb buf buf_len (sys_world s)
  /\ sys_world (snd (disk_identify_command buf buf_len s))
     = sys_world (snd (submit identify_cdb buf buf_len s)).
Proof.
  rewrite <- submit_submissions.
  unfold disk_identify_command, mbind, set_errno, mret.
  destruct (submit identify_cdb buf buf_len s) as [[[rc buf'] sense] s1].
  simpl. destruct (rc =? 0); simpl; [|auto].
  destruct (negb (sense_descriptor_ok sense) && negb (sense_fixed_ok sense));
    auto.
Qed.

Lemma identify_packet_command_submissions (buf : list Z) (buf_len : Z)
    (s : sys) :
  sys_log (snd (disk_identify_packet_device_command buf buf_len s))
  = sys_log s
    ++ expected_submissions identify_packet_cdb buf buf_len (sys_world s)
  /\ sys_world (snd (disk_identify_packet_device_command buf buf_len s))
     = sys_world (snd (submit identify_packet_cdb buf buf_len s)).
Proof.
  rewrite <- submit_submissions.
  unfold disk_identify_packet_device_command, mbind, set_errno, mret.
  destruct (submit identify_packet_cdb buf buf_len s)
    as [[[rc buf'] sense] s1].
  simpl. destruct (rc =? 0); simpl; [|auto].
  destruct (negb (sense_descriptor_ok sense)); auto.
Qed.

(** X2. What the three commands submit: version 4 first, and version 3
    exactly when version 4 failed with [EINVAL], with the same descriptor and
    the buffers as version 4 left them; never anything more. *)
Theorem fallback_submissions (buf : list Z) (buf_len : Z) (s : sys) :
  sys_log (snd (disk_scsi_inquiry_command buf buf_len s))
  = sys_log s
    ++ expected_submissions (inquiry_cdb buf_len) buf buf_len (sys_world s)
  /\ sys_log (snd (disk_identify_command buf buf_len s))
     = sys_log s ++ expected_submissions identify_cdb buf buf_len (sys_world s)
  /\ sys_log (snd (disk_identify_packet_device_command buf buf_len s))
     = sys_log s
       ++ expected_submissions identify_packet_cdb buf buf_len (sys_world s).
Proof.
  split; [apply inquiry_submissions|]. split.
  - apply identify_command_submissions.
  - apply identify_packet_command_submissions.
Qed.

(** X3. INQUIRY returns 0 exactly when the status fields of the version 4
    header are zero and either the version 4 call returned 0, or it failed
    with [EINVAL] and the version 3 call returned 0 with its own status
    fields zero. The version 4 fields are tested on both routes. *)
Theorem inquiry_success_iff (buf : list Z) (buf_len : Z) (s : sys) :
  let r4 := fst (SG_IO (sys_world s)
                   (v4_request (inquiry_cdb buf_len) buf buf_len)) in
  let w1 := snd (SG_IO (sys_world s)
                   (v4_request (inquiry_cdb buf_len) buf buf_len)) in
  let r3 := fst (SG_IO w1 (v3_request (inquiry_cdb buf_len) buf buf_len r4)) in
  fst (fst (disk_scsi_inquiry_command buf buf_len s)) = 0
  <-> status_clean r4
      /\ (rp_ret r4 = 0
          \/ (rp_ret r4 <> 0 /\ rp_errno r4 = EINVAL
              /\ rp_ret r3 = 0 /\ status_clean r3)).
Proof.
  intros r4 w1 r3. subst r3 w1 r4.
  unfold disk_scsi_inquiry_command, mbind, ioctl_SG_IO, get_errno, set_errno,
    mret, v4_request, v3_request.
  rewrite <- !status_bad_false.
  destruct (SG_IO (sys_world s) _) as [r4 w1]. simpl.
  destruct (Z.eqb_spec (rp_ret r4) 0) as [E4|E4]; simpl.
  - destruct (status_bad r4); simpl; intuition (try discriminate; try lia).
  - destruct (Z.eqb_spec (rp_errno r4) EINVAL) as [Einv|Einv]; simpl.
    + destruct (SG_IO w1 _) as [r3 w2]. simpl.
      destruct (Z.eqb_spec (rp_ret r3) 0) as [E3|E3]; simpl.
      * destruct (status_bad r3); simpl;
          [|destruct (status_bad r4); simpl];
          intuition (try discriminate; try lia).
      * intuition (try discriminate; try lia).
    + intuition (try discriminate; try lia).
Qed.

(** X4. A version 4 call that fails with an [errno] other than [EINVAL]
    ends the command at once: each of the three commands returns the value of
    that [ioctl] and leaves its [errno] in place. *)
Theorem failed_ioctl_is_returned (buf : list Z) (buf_len : Z) (s : sys) :
  let reply := fun cdb => fst (SG_IO (sys_world s) (v4_request cdb buf buf_len)) in
  let fails := fun cdb =>
    rp_ret (reply cdb) <> 0 /\ rp_errno (reply cdb) <> EINVAL in
  let passed := fun cdb (r : Z * list Z * sys) =>
    fst (fst r) = rp_ret (reply cdb)
    /\ sys_errno (snd r) = rp_errno (reply cdb) in
  (fails (inquiry_cdb buf_len) ->
     passed (inquiry_cdb buf_len) (disk_scsi_inquiry_command buf buf_len s))
  /\ (fails identify_cdb ->
        passed identify_cdb (disk_identify_command buf buf_len s))
  /\ (fails identify_packet_cdb ->
        passed identify_packet_cdb
          (disk_identify_packet_device_command buf buf_len s)).
Proof.
  intros reply fails passed. subst reply fails passed. cbv beta.
  unfold disk_scsi_inquiry_command, disk_identify_command,
    disk_identify_packet_device_command, submit, mbind, ioctl_SG_IO,
    get_errno, set_errno, mret, v4_request.
  split; [|split]; intros [Hret Herr];
    destruct (SG_IO (sys_world s) _) as [r4 w1]; simpl in *;
    destruct (Z.eqb_spec (rp_ret r4) 0) as [E|_]; try contradiction; simpl;
    destruct (Z.eqb_spec (rp_errno r4) EINVAL) as [E|_]; try contradiction;
    simpl;
    destruct (Z.eqb_spec (rp_ret r4) 0) as [E|_]; try contradiction; simpl;
    auto.
Qed.

Lemma all_nul_from_false (out : list Z) (k n : nat) :
  all_nul_from out n k = false ->
  exists i, (n <= i < n + k)%nat /\ nth i out 0 <> 0.
Proof.
  revert n. induction k as [|k IH]; intros n Hf; simpl in Hf.
  - discriminate.
  - destruct (Z.eqb_spec (nth n out 0) 0) as [E|E]; simpl in Hf.
    + destruct (IH (S n) Hf) as (i & Hi & Hne). exists i. split; [lia|exact Hne].
    + exists n. split; [lia|exact E].
Qed.

(** X5. The scan for NUL bytes, which leaves the loop at the first byte
    that is not NUL, reports an all-NUL block exactly when the first 512
    bytes are zero. *)
Theorem all_nul_bytes_iff (out_identify : list Z) :
  all_nul_bytes out_identify = true
  <-> forall n, (n < 512)%nat -> nth n out_identify 0 = 0.
Proof.
  split.
  - intros Ht n Hn.
    destruct (Z.eq_dec (nth n out_identify 0) 0) as [E|E]; [exact E|].
    exfalso. revert Ht. unfold all_nul_bytes.
    assert (forall k m, (m <= n < m + k)%nat ->
                        all_nul_from out_identify m k = true -> False) as Hgen.
    { induction k as [|k IH]; intros m Hm; [lia|]. simpl.
      destruct (Z.eqb_spec (nth m out_identify 0) 0) as [E0|E0]; simpl.
      - destruct (Nat.eq_dec m n) as [->|Hne]; [contradiction|].
        apply IH. lia.
      - discriminate. }
    apply Hgen. lia.
  - apply all_nul_bytes_true.
Qed.

Lemma check_nul_bytes_ret (ret : Z) (out : list Z) (ipd : Z) (s : sys) :
  ir_ret (fst (check_nul_bytes ret out ipd s)) = 0 ->
  ret = 0 /\ all_nul_bytes out = false.
Proof.
  unfold check_nul_bytes, mbind, set_errno, mret.
  destruct (all_nul_bytes out); simpl; [discriminate|auto].
Qed.

(** X6. [disk_identify] returns 0 only when INQUIRY returned 0, the
    peripheral device type is 0x05, 0x00 or 0x14, the IDENTIFY command chosen
    by the type returned 0, and the block handed back has a byte that is not
    zero; the packet flag is then set exactly for type 0x05. *)
Theorem disk_identify_success (out_identify inquiry_buf : list Z) (s : sys) :
  let inq := disk_scsi_inquiry_command inquiry_buf 36 s in
  let t := Z.land (nth 0 (snd (fst inq)) 0) 0x1f in
  let out0 := memzero out_identify 512 in
  let r := disk_identify out_identify inquiry_buf s in
  ir_ret (fst r) = 0 ->
  fst (fst inq) = 0
  /\ (t = 0x05 \/ t = 0x00 \/ t = 0x14)
  /\ (t = 0x05 ->
      ir_is_packet_device (fst r) = 1
      /\ fst (fst (disk_identify_packet_device_command out0 512 (snd inq))) = 0)
  /\ (t <> 0x05 ->
      ir_is_packet_device (fst r) = 0
      /\ fst (fst (disk_identify_command out0 512 (snd inq))) = 0)
  /\ exists n, (n < 512)%nat /\ nth n (ir_identify (fst r)) 0 <> 0.
Proof.
  intros inq t out0 r. subst r t out0.
  unfold disk_identify, mbind, set_errno, mret. fold inq.
  destruct inq as [[ret inq'] s1]. simpl.
  destruct (Z.eqb_spec ret 0) as [->|Hret]; simpl; [|intros E; contradiction].
  set (t := Z.land (nth 0 inq' 0) 31).
  destruct (Z.eqb_spec t 5) as [Ht5|Ht5].
  - destruct (disk_identify_packet_device_command _ 512 s1) as [[retp out1] s2].
    intros Hok.
    destruct (check_nul_bytes_log retp out1 1 s2) as (_ & Hid & Hipd).
    apply check_nul_bytes_ret in Hok as [-> Hnul].
    split; [reflexivity|]. split; [auto|]. split; [auto|].
    split; [intros E; contradiction|].
    rewrite Hid. destruct (all_nul_from_false _ _ _ Hnul) as (i & Hi & Hne).
    exists i. split; [lia|exact Hne].
  - destruct (negb ((t =? 0) || (t =? 20))) eqn:Hrej; simpl.
    + intros E. discriminate E.
    + destruct (disk_identify_command _ 512 s1) as [[retd out1] s2].
      destruct (Z.eqb_spec retd 0) as [->|Hretd]; simpl;
        [|intros E; contradiction].
      intros Hok.
      destruct (check_nul_bytes_log 0 out1 0 s2) as (_ & Hid & Hipd).
      apply check_nul_bytes_ret in Hok as [_ Hnul].
      split; [reflexivity|]. split.
      { apply negb_false_iff, orb_true_iff in Hrej.
        rewrite !Z.eqb_eq in Hrej. tauto. }
      split; [intros E; contradiction|]. split; [auto|].
      rewrite Hid. destruct (all_nul_from_false _ _ _ Hnul) as (i & Hi & Hne).
      exists i. split; [lia|exact Hne].
Qed.

(** All the submissions of one call of [disk_identify]. *)
Lemma disk_identify_trace (out_identify inquiry_buf : list Z) (s : sys) :
  let inq := disk_scsi_inquiry_command inquiry_buf 36 s in
  sys_log (snd (disk_identify out_identify inquiry_buf s))
  = sys_log s
    ++ expected_submissions (inquiry_cdb 36) inquiry_buf 36 (sys_world s)
    ++ identify_submissions (fst (fst inq)) (snd (fst inq))
         (memzero out_identify 512) (sys_world (snd inq)).
Proof.
  intros inq. unfold disk_identify, identify_submissions, mbind, set_errno, mret.
  pose proof (inquiry_submissions inquiry_buf 36 s) as Hlog.
  fold inq in Hlog |- *.
  destruct inq as [[ret inq'] s1]. simpl in *.
  destruct (ret =? 0); simpl; [|rewrite app_nil_r; exact Hlog].
  destruct (Z.land (nth 0 inq' 0) 31 =? 5).
  - destruct (identify_packet_command_submissions
                (memzero out_identify 512) 512 s1) as [Hp _].
    destruct (disk_identify_packet_device_command _ 512 s1) as [[retp out1] s2].
    simpl in Hp.
    destruct (check_nul_bytes_log retp out1 1 s2) as (Hl & _ & _).
    rewrite Hl, Hp, Hlog, <- app_assoc. reflexivity.
  - destruct (negb _) eqn:Hrej; simpl.
    + apply negb_true_iff in Hrej. rewrite Hrej, app_nil_r. exact Hlog.
    + apply negb_false_iff in Hrej. rewrite Hrej.
      destruct (identify_command_submissions
                  (memzero out_identify 512) 512 s1) as [Hd _].
      destruct (disk_identify_command _ 512 s1) as [[retd out1] s2].
      simpl in Hd.
      destruct (negb (retd =? 0)); simpl.
      * rewrite Hd, Hlog, <- app_assoc. reflexivity.
      * destruct (check_nul_bytes_log retd out1 0 s2) as (Hl & _ & _).
        rewrite Hl, Hd, Hlog, <- app_assoc. reflexivity.
Qed.

Lemma new_events_app (before evs : list event) :
  new_events before (before ++ evs) = evs.
Proof. unfold new_events. apply drop_app_length. Qed.

Lemma expected_submissions_cdb (cdb buf : list Z) (buf_len : Z) (w : world)
    (rq : sg_request) :
  In (EvSgIo rq) (expected_submissions cdb buf buf_len w) -> rq_cdb rq = cdb.
Proof.
  unfold expected_submissions, v4_request, v3_request. simpl.
  intros [E|Hin]; [injection E as <-; reflexivity|].
  destruct (_ && _); simpl in Hin; [|contradiction].
  destruct Hin as [E|[]]. injection E as <-. reflexivity.
Qed.

Lemma transfer_length (len : Z) (data buf : list Z) :
  length (transfer len data buf) = length buf.
Proof.
  unfold transfer. rewrite length_app, length_drop, length_take, length_map.
  lia.
Qed.

Lemma transfer_first_byte (data buf : list Z) :
  length buf = 36%nat ->
  nth 0 (transfer 36 data buf) 0
  = match head data with
    | Some d => wrap_u8 d
    | None => nth 0 buf 0
    end.
Proof.
  intros Hlen. unfold transfer. rewrite Hlen.
  destruct data as [|d data]; reflexivity.
Qed.

(** Byte 0 of the response buffer after an INQUIRY that returned 0. *)
Lemma inquiry_first_byte (inquiry_buf : list Z) (s : sys) :
  length inquiry_buf = 36%nat ->
  fst (fst (disk_scsi_inquiry_command inquiry_buf 36 s)) = 0 ->
  nth 0 (snd (fst (disk_scsi_inquiry_command inquiry_buf 36 s))) 0
  = match inquiry_data_first inquiry_buf (sys_world s) with
    | Some d => wrap_u8 d
    | None => nth 0 inquiry_buf 0
    end.
Proof.
  intros Hlen.
  unfold inquiry_data_first, disk_scsi_inquiry_command, mbind, ioctl_SG_IO,
    get_errno, set_errno, mret, v4_request, v3_request.
  destruct (SG_IO (sys_world s) _) as [r4 w1]. simpl.
  destruct (Z.eqb_spec (rp_ret r4) 0) as [E4|E4]; simpl.
  - intros _. destruct (status_bad r4); simpl;
      apply transfer_first_byte, Hlen.
  - destruct (Z.eqb_spec (rp_errno r4) EINVAL) as [Einv|Einv]; simpl.
    + destruct (SG_IO w1 _) as [r3 w2]. simpl.
      assert (nth 0 (transfer 36 (rp_data r3)
                       (transfer 36 (rp_data r4) inquiry_buf)) 0
              = match head (rp_data r3) with
                | Some d => wrap_u8 d
                | None => match head (rp_data r4) with
                          | Some d => wrap_u8 d
                          | None => nth 0 inquiry_buf 0
                          end
                end) as Hbyte.
      { rewrite transfer_first_byte by (rewrite transfer_length; exact Hlen).
        rewrite (transfer_first_byte _ inquiry_buf) by exact Hlen.
        reflexivity. }
      destruct (Z.eqb_spec (rp_ret r3) 0) as [E3|E3]; simpl.
      * intros _.
        destruct (status_bad r3); simpl;
          [|destruct (status_bad r4); simpl];
          rewrite Hbyte; destruct (head (rp_data r3)); reflexivity.
      * intros E. contradiction.
    + intros E. contradiction.
Qed.

(** X7. The safety gate: the 12-byte pass-through carrying IDENTIFY DEVICE
    is submitted only after an INQUIRY that returned 0, and only when
    [peripheral_device_type], the low five bits of byte 0 of [inquiry_buf]
    after that call, is 0x00 or 0x14. Byte 0 is the first byte the device
    transferred, and the byte the array held on entry when no submission
    transferred any data. So a device whose INQUIRY data gives type 0x05 is
    never sent the command; one that reports success without data is gated
    by what the array, which has no initialiser, held. *)
Theorem pass_through_12_is_gated (out_identify inquiry_buf : list Z) (s : sys)
    (rq : sg_request) :
  let inq := disk_scsi_inquiry_command inquiry_buf 36 s in
  let byte0 := nth 0 (snd (fst inq)) 0 in
  let peripheral_device_type := Z.land byte0 0x1f in
  let r := disk_identify out_identify inquiry_buf s in
  In (EvSgIo rq) (new_events (sys_log s) (sys_log (snd r))) ->
  rq_cdb rq = identify_cdb ->
  fst (fst inq) = 0
  /\ (peripheral_device_type = 0x00 \/ peripheral_device_type = 0x14)
  /\ (length inquiry_buf = 36%nat ->
      byte0 = match inquiry_data_first inquiry_buf (sys_world s) with
              | Some d => wrap_u8 d
              | None => nth 0 inquiry_buf 0
              end)
  /\ (length inquiry_buf = 36%nat ->
      forall d, inquiry_data_first inquiry_buf (sys_world s) = Some d ->
      Z.land (wrap_u8 d) 0x1f <> 0x05).
Proof.
  intros inq byte0 t r Hin Hcdb. subst r t byte0.
  rewrite disk_identify_trace, new_events_app in Hin. fold inq in Hin.
  apply in_app_or in Hin as [Hin|Hin].
  - apply expected_submissions_cdb in Hin. rewrite Hcdb in Hin.
    discriminate Hin.
  - unfold identify_submissions in Hin.
    destruct (Z.eqb_spec (fst (fst inq)) 0) as [E|E]; [|destruct Hin].
    assert (Z.land (nth 0 (snd (fst inq)) 0) 31 = 0
            \/ Z.land (nth 0 (snd (fst inq)) 0) 31 = 20) as Htype.
    { destruct (Z.eqb_spec (Z.land (nth 0 (snd (fst inq)) 0) 31) 5) as [E5|E5].
      - apply expected_submissions_cdb in Hin. rewrite Hcdb in Hin.
        discriminate Hin.
      - destruct (Z.eqb_spec (Z.land (nth 0 (snd (fst inq)) 0) 31) 0)
          as [E0|E0]; [left; exact E0|].
        destruct (Z.eqb_spec (Z.land (nth 0 (snd (fst inq)) 0) 31) 20)
          as [E20|E20]; [right; exact E20|].
        destruct Hin. }
    split; [exact E|]. split; [exact Htype|]. split.
    + intros Hlen. apply inquiry_first_byte; assumption.
    + intros Hlen d Hd.
      pose proof (inquiry_first_byte inquiry_buf s Hlen E) as Hbyte.
      fold inq in Hbyte. rewrite Hd in Hbyte. rewrite <- Hbyte.
      destruct Htype as [-> | ->]; discriminate.
Qed.

Lemma expected_submissions_length (cdb buf : list Z) (buf_len : Z) (w : world) :
  (1 <= length (expected_submissions cdb buf buf_len w) <= 2)%nat.
Proof.
  unfold expected_submissions. destruct (_ && _); simpl; lia.
Qed.

(** X8. One call of [disk_identify] makes between one and four SG_IO
    submissions, and no other call to the device. *)
Theorem disk_identify_io_bound (out_identify inquiry_buf : list Z) (s : sys) :
  let evs := new_events (sys_log s)
               (sys_log (snd (disk_identify out_identify inquiry_buf s))) in
  (1 <= length evs <= 4)%nat
  /\ Forall (fun e => e <> EvHdioGetIdentity) evs.
Proof.
  intros evs. subst evs. rewrite disk_identify_trace, new_events_app.
  set (inq := disk_scsi_inquiry_command inquiry_buf 36 s).
  pose proof (expected_submissions_length (inquiry_cdb 36) inquiry_buf 36
                (sys_world s)) as Hi.
  assert (forall cdb buf len w,
            Forall (fun e => e <> EvHdioGetIdentity)
                   (expected_submissions cdb buf len w)) as Hsg.
  { intros. unfold expected_submissions.
    destruct (_ && _); repeat constructor; discriminate. }
  split.
  - rewrite length_app. unfold identify_submissions.
    destruct (fst (fst inq) =? 0); cbn [length]; [|lia].
    destruct (_ =? 5).
    + pose proof (expected_submissions_length identify_packet_cdb
                    (memzero out_identify 512) 512 (sys_world (snd inq))). lia.
    + destruct (_ || _); cbn [length]; [|lia].
      pose proof (expected_submissions_length identify_cdb
                    (memzero out_identify 512) 512 (sys_world (snd inq))). lia.
  - apply Forall_app. split; [apply Hsg|].
    unfold identify_submissions.
    destruct (fst (fst inq) =? 0); [|constructor].
    destruct (_ =? 5); [apply Hsg|].
    destruct (_ || _); [apply Hsg|constructor].
Qed.

End Submissions.
End TransportMore.

(** ** More on the string fix-up *)

Module GetStringMore.
Import Mach Mem GetString Decode.
Import GetStringFacts.

(** [n] iterations between two ranges that do not overlap: the destination
    receives the source bytes pair by pair, second byte first. *)
Lemma iterations_copy (n : nat) (identify : Z) :
  forall (m : mem) (ow dest dl : Z),
  0 <= identify -> 0 <= ow -> 0 <= dest ->
  0 <= dl -> 2 * Z.of_nat n - 1 <= dl < 2 ^ 64 ->
  ow * 2 + 2 * Z.of_nat n <= 2 ^ 32 ->
  identify + ow * 2 + 2 * Z.of_nat n <= Z.of_nat (length m) ->
  dest + 2 * Z.of_nat n <= Z.of_nat (length m) ->
  (dest + 2 * Z.of_nat n <= identify + ow * 2
   \/ identify + ow * 2 + 2 * Z.of_nat n <= dest) ->
  exists m',
    iterations n identify (State m ow dest dl)
    = Some (State m' (ow + Z.of_nat n) (dest + 2 * Z.of_nat n)
                  (wrap_size (dl - 2 * Z.of_nat n)))
    /\ forall i, 0 <= i < Z.of_nat n ->
         load m' (dest + 2 * i) = load m (identify + ow * 2 + 2 * i + 1)
         /\ load m' (dest + 2 * i + 1) = load m (identify + ow * 2 + 2 * i).
Proof.
  induction n as [|n IH];
    intros m ow dest dl Hid How Hdest Hdl0 Hdl Hwrap Hsrc Hdst Hdisj.
  - exists m. simpl. rewrite !Z.add_0_r, Z.sub_0_r.
    rewrite wrap_size_small by lia. split; [reflexivity|]. intros i Hi. lia.
  - change (2 ^ 32) with 4294967296 in *.
    change (2 ^ 64) with 18446744073709551616 in *.
    destruct (iterations_run 1 identify m ow dest dl) as (m2 & Hstep & Hlen2 & Hframe2);
      try (change (2 ^ 32) with 4294967296);
      try (change (2 ^ 64) with 18446744073709551616); try lia.
    assert (load m2 dest = load m (identify + ow * 2 + 1)
            /\ load m2 (dest + 1) = load m (identify + ow * 2)) as [Hc1 Hc2].
    { revert Hstep. simpl iterations.
      destruct (Z.ltb_spec 0 dl) as [_|Hz]; [|lia].
      unfold loop_body. simpl st_mem. simpl st_offset_words. simpl st_dest.
      simpl st_dest_len.
      rewrite (wrap_unsigned_small (ow * 2 + 1)), (wrap_unsigned_small (ow * 2))
        by (change (2 ^ 32) with 4294967296; lia).
      destruct (load_in_bounds m (identify + (ow * 2 + 1))) as [c1 Hl1]; [lia|].
      destruct (load_in_bounds m (identify + ow * 2)) as [c2 Hl2]; [lia|].
      rewrite Hl1, Hl2.
      rewrite store_in_bounds by lia. cbv beta iota.
      rewrite store_in_bounds by (rewrite length_insert; lia). cbv beta iota.
      intros E. injection E as <-.
      replace (identify + ow * 2 + 1) with (identify + (ow * 2 + 1)) by lia.
      rewrite ?Hl1, ?Hl2. split.
      - rewrite load_insert_other by lia. apply load_insert_same. lia.
      - apply load_insert_same. rewrite length_insert. lia. }
    simpl iterations in Hstep |- *.
    destruct (0 <? dl); [|discriminate].
    destruct (loop_body identify (State m ow dest dl)) as [st1|]; [|discriminate].
    injection Hstep as ->.
    pose proof (wrap_size_nonneg (dl - 2 * Z.of_nat 1)) as Hw.
    change (2 ^ 64) with 18446744073709551616 in Hw.
    assert (2 * Z.of_nat n - 1 <= wrap_size (dl - 2 * Z.of_nat 1)
            < 18446744073709551616) as Hdl'.
    { destruct n as [|n]; [lia|].
      rewrite wrap_size_small by (change (2 ^ 64) with 18446744073709551616; lia).
      lia. }
    destruct (IH m2 (ow + Z.of_nat 1) (dest + 2 * Z.of_nat 1)
                (wrap_size (dl - 2 * Z.of_nat 1)))
      as (m' & Hit & Hcopy); try lia.
    destruct (iterations_run n identify m2 (ow + Z.of_nat 1)
                (dest + 2 * Z.of_nat 1) (wrap_size (dl - 2 * Z.of_nat 1)))
      as (m'' & Hit' & _ & Hframe); try lia.
    rewrite Hit in Hit'. injection Hit' as <-.
    exists m'. split.
    + rewrite Hit. f_equal. f_equal; try lia.
      unfold wrap_size, SIZE_MOD.
      rewrite Zminus_mod_idemp_l. f_equal. lia.
    + intros i Hi. destruct (Z.eq_dec i 0) as [->|Hi0].
      * rewrite Z.mul_0_r, !Z.add_0_r.
        rewrite !Hframe by lia. split; [exact Hc1|].
        replace (identify + ow * 2 + 0) with (identify + ow * 2) by lia.
        exact Hc2.
      * destruct (Hcopy (i - 1)) as [H1 H2]; [lia|].
        replace (dest + 2 * Z.of_nat 1 + 2 * (i - 1)) with (dest + 2 * i)
          in H1, H2 by lia.
        rewrite H1, H2.
        rewrite !Hframe2 by lia.
        split; f_equal; lia.
Qed.

(** X9. Between two ranges that do not overlap [disk_identify_get_string]
    copies the string: byte [2i] of the destination is byte [2i+1] of the
    source and the other way round, and nothing outside the destination
    changes, the source included. *)
Theorem get_string_copies (fuel : nat) (m : mem)
    (identify offset_words dest dest_len : Z) :
  0 <= identify -> 0 <= offset_words -> 0 <= dest ->
  0 <= dest_len < 2 ^ 64 -> Z.even dest_len = true ->
  offset_words * 2 + dest_len <= 2 ^ 32 ->
  identify + offset_words * 2 + dest_len <= Z.of_nat (length m) ->
  dest + dest_len <= Z.of_nat (length m) ->
  (dest + dest_len <= identify + offset_words * 2
   \/ identify + offset_words * 2 + dest_len <= dest) ->
  (Z.to_nat (dest_len / 2) < fuel)%nat ->
  exists m',
    disk_identify_get_string fuel m identify offset_words dest dest_len
    = Returned m'
    /\ (forall i, 0 <= i < dest_len / 2 ->
          load m' (dest + 2 * i)
          = load m (identify + offset_words * 2 + 2 * i + 1)
          /\ load m' (dest + 2 * i + 1)
             = load m (identify + offset_words * 2 + 2 * i))
    /\ (forall a, ~ (dest <= a < dest + dest_len) -> load m' a = load m a).
Proof.
  intros Hid How Hdest Hdl Heven Hwrap Hsrc Hdst Hdisj Hfuel.
  apply Z.even_spec in Heven as [k ->].
  replace (2 * k / 2) with k in * by (rewrite Z.mul_comm, Z.div_mul; lia).
  change (2 ^ 32) with 4294967296 in *.
  change (2 ^ 64) with 18446744073709551616 in *.
  destruct (iterations_copy (Z.to_nat k) identify m offset_words dest (2 * k))
    as (m' & Hit & Hcopy);
    try (change (2 ^ 32) with 4294967296);
    try (change (2 ^ 64) with 18446744073709551616); try lia.
  destruct (iterations_run (Z.to_nat k) identify m offset_words dest (2 * k))
    as (m'' & Hit' & _ & Hframe);
    try (change (2 ^ 32) with 4294967296);
    try (change (2 ^ 64) with 18446744073709551616); try lia.
  rewrite Hit in Hit'. injection Hit' as <-.
  rewrite Z2Nat.id in Hit, Hcopy, Hframe by lia.
  replace (2 * k - 2 * k) with 0 in Hit by lia.
  change (wrap_size 0) with 0 in Hit.
  exists m'. split; [|split; [exact Hcopy|exact Hframe]].
  unfold disk_identify_get_string.
  rewrite (while_loop_iterations _ _ _ _ Hit); [reflexivity|simpl; lia|lia].
Qed.

(** The three string fix-ups of [main] on a block cut into its fields. *)
Lemma fixup_strings_fields (fuel : nat)
    (pre serial mid fwrev model rest : list Z) :
  length pre = 20%nat -> length serial = 20%nat -> length mid = 6%nat ->
  length fwrev = 8%nat -> length model = 40%nat -> (20 < fuel)%nat ->
  fixup_strings fuel string_fixups
    (pre ++ serial ++ mid ++ fwrev ++ model ++ rest)
  = Returned (pre ++ swap_pairs serial ++ mid ++ swap_pairs fwrev
                  ++ swap_pairs model ++ rest).
Proof.
  intros Hpre Hserial Hmid Hfw Hmodel Hfuel.
  unfold string_fixups. simpl fixup_strings.
  change 20 with (Z.of_nat 20) at 1. rewrite <- Hserial at 1.
  rewrite (fixup_string_in_place fuel pre serial _ 0 10);
    try (change (2 ^ 32) with 4294967296); try lia;
    try (rewrite Hserial; try reflexivity; simpl; lia).
  replace (pre ++ swap_pairs serial ++ mid ++ fwrev ++ model ++ rest)
    with ((pre ++ swap_pairs serial ++ mid) ++ fwrev ++ model ++ rest)
    by (rewrite <- !app_assoc; reflexivity).
  change 8 with (Z.of_nat 8) at 1. rewrite <- Hfw at 1.
  assert (length (swap_pairs serial) = 20%nat) as Hs
    by (rewrite (swap_pairs_length 20) by lia; exact Hserial).
  rewrite (fixup_string_in_place fuel _ fwrev _ 0 23);
    try (change (2 ^ 32) with 4294967296); try lia;
    try (rewrite Hfw; try reflexivity; simpl; lia);
    try (rewrite !length_app, Hpre, Hs, Hmid; lia).
  replace ((pre ++ swap_pairs serial ++ mid) ++ swap_pairs fwrev ++ model ++ rest)
    with ((pre ++ swap_pairs serial ++ mid ++ swap_pairs fwrev) ++ model ++ rest)
    by (rewrite <- !app_assoc; reflexivity).
  assert (length (swap_pairs fwrev) = 8%nat) as Hf
    by (rewrite (swap_pairs_length 8) by lia; exact Hfw).
  change 40 with (Z.of_nat 40) at 1. rewrite <- Hmodel at 1.
  rewrite (fixup_string_in_place fuel _ model rest 0 27);
    try (change (2 ^ 32) with 4294967296); try lia;
    try (rewrite Hmodel; try reflexivity; simpl; lia);
    try (rewrite !length_app, Hpre, Hs, Hmid, Hf; lia).
  rewrite <- !app_assoc. reflexivity.
Qed.

Lemma block_fields (b : list Z) :
  b = take 20 b ++ take 20 (drop 20 b) ++ take 6 (drop 40 b)
      ++ take 8 (drop 46 b) ++ take 40 (drop 54 b) ++ drop 94 b.
Proof.
  rewrite <- (take_drop 20 b) at 1. f_equal.
  rewrite <- (take_drop 20 (drop 20 b)) at 1. f_equal.
  rewrite drop_drop. change (20 + 20)%nat with 40%nat.
  rewrite <- (take_drop 6 (drop 40 b)) at 1. f_equal.
  rewrite drop_drop. change (40 + 6)%nat with 46%nat.
  rewrite <- (take_drop 8 (drop 46 b)) at 1. f_equal.
  rewrite drop_drop. change (46 + 8)%nat with 54%nat.
  rewrite <- (take_drop 40 (drop 54 b)) at 1. f_equal.
  rewrite drop_drop. reflexivity.
Qed.

Lemma fixup_strings_block (fuel : nat) (b : list Z) :
  (94 <= length b)%nat -> (20 < fuel)%nat ->
  fixup_strings fuel string_fixups b
  = Returned (take 20 b ++ swap_pairs (take 20 (drop 20 b))
                ++ take 6 (drop 40 b) ++ swap_pairs (take 8 (drop 46 b))
                ++ swap_pairs (take 40 (drop 54 b)) ++ drop 94 b).
Proof.
  intros Hlen Hfuel. rewrite (block_fields b) at 1.
  apply fixup_strings_fields; try assumption;
    rewrite length_take, ?length_drop; lia.
Qed.

(** X10. The string fix-ups of [main] swap the byte pairs of the serial
    number (bytes 20 to 39), the firmware revision (46 to 53) and the model
    (54 to 93) and leave every other byte of the block as it was. *)
Theorem string_fixups_swap_the_three_fields (fuel : nat) (b : list Z) :
  (94 <= length b)%nat -> (20 < fuel)%nat ->
  exists b',
    fixup_strings fuel string_fixups b = Returned b'
    /\ length b' = length b
    /\ take 20 b' = take 20 b
    /\ take 20 (drop 20 b') = swap_pairs (take 20 (drop 20 b))
    /\ take 6 (drop 40 b') = take 6 (drop 40 b)
    /\ take 8 (drop 46 b') = swap_pairs (take 8 (drop 46 b))
    /\ take 40 (drop 54 b') = swap_pairs (take 40 (drop 54 b))
    /\ drop 94 b' = drop 94 b.
Proof.
  intros Hlen Hfuel. eexists. split; [apply fixup_strings_block; assumption|].
  set (f0 := take 20 b). set (f1 := swap_pairs (take 20 (drop 20 b))).
  set (f2 := take 6 (drop 40 b)). set (f3 := swap_pairs (take 8 (drop 46 b))).
  set (f4 := swap_pairs (take 40 (drop 54 b))). set (f5 := drop 94 b).
  assert (length f0 = 20%nat) as H0 by (unfold f0; rewrite length_take; lia).
  assert (length f1 = 20%nat) as H1.
  { unfold f1. rewrite (swap_pairs_length 20);
      rewrite length_take, length_drop; lia. }
  assert (length f2 = 6%nat) as H2
    by (unfold f2; rewrite length_take, length_drop; lia).
  assert (length f3 = 8%nat) as H3.
  { unfold f3. rewrite (swap_pairs_length 8);
      rewrite length_take, length_drop; lia. }
  assert (length f4 = 40%nat) as H4.
  { unfold f4. rewrite (swap_pairs_length 40);
      rewrite length_take, length_drop; lia. }
  assert (length f5 = (length b - 94)%nat) as H5
    by (unfold f5; rewrite length_drop; lia).
  clearbody f0 f1 f2 f3 f4 f5.
  assert (forall (x y : list Z) n, length x = n -> take n (x ++ y) = x) as Ht.
  { intros x y n <-. apply take_app_length. }
  assert (forall (x y : list Z) n, length x = n -> drop n (x ++ y) = y) as Hd.
  { intros x y n <-. apply drop_app_length. }
  split; [rewrite !length_app; lia|].
  split; [apply Ht, H0|].
  split; [rewrite (Hd f0) by exact H0; apply Ht, H1|].
  split.
  { replace (f0 ++ f1 ++ f2 ++ f3 ++ f4 ++ f5)
      with ((f0 ++ f1) ++ f2 ++ f3 ++ f4 ++ f5)
      by (rewrite <- !app_assoc; reflexivity).
    rewrite (Hd (f0 ++ f1)) by (rewrite length_app; lia). apply Ht, H2. }
  split.
  { replace (f0 ++ f1 ++ f2 ++ f3 ++ f4 ++ f5)
      with ((f0 ++ f1 ++ f2) ++ f3 ++ f4 ++ f5)
      by (rewrite <- !app_assoc; reflexivity).
    rewrite (Hd (f0 ++ f1 ++ f2)) by (rewrite !length_app; lia). apply Ht, H3. }
  split.
  { replace (f0 ++ f1 ++ f2 ++ f3 ++ f4 ++ f5)
      with ((f0 ++ f1 ++ f2 ++ f3) ++ f4 ++ f5)
      by (rewrite <- !app_assoc; reflexivity).
    rewrite (Hd (f0 ++ f1 ++ f2 ++ f3)) by (rewrite !length_app; lia).
    apply Ht, H4. }
  replace (f0 ++ f1 ++ f2 ++ f3 ++ f4 ++ f5)
    with ((f0 ++ f1 ++ f2 ++ f3 ++ f4) ++ f5)
    by (rewrite <- !app_assoc; reflexivity).
  apply Hd. rewrite !length_app. lia.
Qed.

End GetStringMore.

(** ** The word fix-up *)

Module WordsMore.
Import Mach Sys Decode Report Observe.
Import DecodeFacts.

Lemma nth_insert_same (l : list Z) (i : nat) (x : Z) :
  (i < length l)%nat -> nth i (<[i := x]> l) 0 = x.
Proof.
  intros Hi. apply nth_lookup_Some, list_lookup_insert_eq, Hi.
Qed.

Lemma nth_insert_other (l : list Z) (i j : nat) (x : Z) :
  i <> j -> nth j (<[i := x]> l) 0 = nth j l 0.
Proof.
  intros Hne. rewrite !nth_lookup, list_lookup_insert_ne by exact Hne.
  reflexivity.
Qed.

Lemma insert_nth_id (l : list Z) (i : nat) :
  <[i := nth i l 0]> l = l.
Proof.
  apply list_insert_id'. intros Hi.
  destruct (nth_lookup_or_length l i 0) as [E|E]; [exact E|lia].
Qed.

Lemma all_bytes_insert (l : list Z) (i : nat) (x : Z) :
  all_bytes l = true -> 0 <= x < 256 -> all_bytes (<[i := x]> l) = true.
Proof.
  revert i. induction l as [|b l IH]; intros i Hl Hx; [reflexivity|].
  simpl in Hl. apply andb_true_iff in Hl as [Hb Hl].
  destruct i; simpl.
  - rewrite Hl, andb_true_r. apply andb_true_iff.
    split; [apply Z.leb_le|apply Z.ltb_lt]; lia.
  - rewrite Hb. apply IH; assumption.
Qed.

Lemma byte_split (lo hi : Z) :
  0 <= lo < 256 -> 0 <= hi < 256 ->
  wrap_u8 (lo + hi * 256) = lo /\ wrap_u8 (Z.shiftr (lo + hi * 256) 8) = hi.
Proof.
  intros Hlo Hhi. unfold wrap_u8.
  rewrite Z.shiftr_div_pow2 by lia. change (2 ^ 8) with 256.
  rewrite Z.div_add, Z.mod_add by lia.
  rewrite (Z.div_small lo), (Z.mod_small lo), (Z.mod_small (0 + hi)) by lia.
  lia.
Qed.

Lemma bswap_16_bytes (b0 b1 : Z) :
  0 <= b0 < 256 -> 0 <= b1 < 256 ->
  bswap_16 (b0 * 256 + b1) = b0 + b1 * 256.
Proof.
  intros H0 H1. unfold bswap_16, wrap_u16.
  change 255 with (Z.ones 8). rewrite !Z.land_ones by lia.
  rewrite Z.shiftr_div_pow2, Z.shiftl_mul_pow2 by lia.
  change (2 ^ 8) with 256.
  replace (b0 * 256 + b1) with (b1 + b0 * 256) by lia.
  rewrite Z.div_add, Z.mod_add by lia.
  rewrite (Z.div_small b1), (Z.mod_small b1), (Z.mod_small (0 + b0)) by lia.
  change 256 with (2 ^ 8) at 1.
  rewrite lor_mul_low by (change (2 ^ 8) with 256; lia).
  change (2 ^ 8) with 256. rewrite Z.mod_small by lia. lia.
Qed.

Section WordFixups.
Context `{Platform}.

(** What the fix-up of one word does to the two bytes of the word. *)
Lemma fixup_uint16_bytes (b : list Z) (k : nat) :
  0 <= nth (2 * k) b 0 < 256 -> 0 <= nth (2 * k + 1) b 0 < 256 ->
  disk_identify_fixup_uint16 b k
  = if host_big_endian
    then <[(2 * k + 1)%nat := nth (2 * k) b 0]>
           (<[(2 * k)%nat := nth (2 * k + 1) b 0]> b)
    else b.
Proof.
  intros H0 H1.
  unfold disk_identify_fixup_uint16, set_wyde, le16toh, wyde.
  destruct host_big_endian.
  - rewrite bswap_16_bytes by assumption.
    destruct (byte_split (nth (2 * k) b 0) (nth (2 * k + 1) b 0)) as [-> ->];
      try assumption.
    reflexivity.
  - destruct (byte_split (nth (2 * k) b 0) (nth (2 * k + 1) b 0)) as [-> ->];
      try assumption.
    rewrite !insert_nth_id. reflexivity.
Qed.

Lemma fixup_uint16_frame (b : list Z) (k i : nat) :
  0 <= nth (2 * k) b 0 < 256 -> 0 <= nth (2 * k + 1) b 0 < 256 ->
  i <> (2 * k)%nat -> i <> (2 * k + 1)%nat ->
  nth i (disk_identify_fixup_uint16 b k) 0 = nth i b 0
  /\ length (disk_identify_fixup_uint16 b k) = length b.
Proof.
  intros H0 H1 Hi0 Hi1. rewrite fixup_uint16_bytes by assumption.
  destruct host_big_endian; [|auto].
  rewrite !nth_insert_other, !length_insert by lia. auto.
Qed.

Lemma fixup_uint16_word (b : list Z) (k : nat) :
  (2 * k + 1 < length b)%nat ->
  0 <= nth (2 * k) b 0 < 256 -> 0 <= nth (2 * k + 1) b 0 < 256 ->
  wyde (disk_identify_fixup_uint16 b k) k = little_endian_word b k.
Proof.
  intros Hk H0 H1. rewrite fixup_uint16_bytes by assumption.
  unfold wyde, little_endian_word. destruct host_big_endian; [|lia].
  rewrite nth_insert_other by lia.
  rewrite nth_insert_same by lia.
  rewrite nth_insert_same by (rewrite length_insert; lia). lia.
Qed.

(** The word fix-ups of a list of distinct words, one after the other. *)
Lemma fold_fixup_uint16 (ks : list nat) :
  NoDup ks ->
  forall b : list Z,
  (forall k, In k ks ->
     (2 * k + 1 < length b)%nat
     /\ 0 <= nth (2 * k) b 0 < 256 /\ 0 <= nth (2 * k + 1) b 0 < 256) ->
  let b' := fold_left disk_identify_fixup_uint16 ks b in
  length b' = length b
  /\ (forall k, In k ks -> wyde b' k = little_endian_word b k)
  /\ (forall i, (forall k, In k ks -> i <> (2 * k)%nat /\ i <> (2 * k + 1)%nat) ->
        nth i b' 0 = nth i b 0).
Proof.
  induction 1 as [|k0 ks Hnotin Hnodup IH]; intros b Hb; simpl.
  - split; [reflexivity|]. split; [intros k []|reflexivity].
  - destruct (Hb k0 (or_introl eq_refl)) as (Hk0 & H0 & H1).
    assert (forall k, In k ks -> k <> k0) as Hne.
    { intros k Hin ->. apply Hnotin, list_elem_of_In, Hin. }
    assert (forall i, i <> (2 * k0)%nat -> i <> (2 * k0 + 1)%nat ->
              nth i (disk_identify_fixup_uint16 b k0) 0 = nth i b 0) as Hfr.
    { intros i Hi0 Hi1. apply fixup_uint16_frame; assumption. }
    assert (length (disk_identify_fixup_uint16 b k0) = length b) as Hl.
    { apply (fixup_uint16_frame b k0 (2 * k0 + 2)); try assumption; lia. }
    destruct (IH (disk_identify_fixup_uint16 b k0)) as (Hlen & Hw & Hframe).
    { intros k Hin. destruct (Hb k (or_intror Hin)) as (Hk & Hk0' & Hk1').
      specialize (Hne k Hin).
      rewrite Hl, !Hfr by lia. auto. }
    split; [lia|]. split.
    + intros k [<-|Hin].
      * unfold wyde at 1. rewrite !Hframe.
        -- apply fixup_uint16_word; assumption.
        -- intros k Hin. specialize (Hne k Hin). lia.
        -- intros k Hin. specialize (Hne k Hin). lia.
      * rewrite Hw by exact Hin. specialize (Hne k Hin).
        unfold little_endian_word. rewrite !Hfr by lia. reflexivity.
    + intros i Hi. rewrite Hframe.
      * destruct (Hi k0 (or_introl eq_refl)). apply Hfr; assumption.
      * intros k Hin. apply Hi. right. exact Hin.
Qed.

(** X11. On a little-endian host the fix-up of a word changes nothing; on a
    big-endian host it exchanges the two bytes of the word, so that a second
    fix-up of the same word undoes the first. *)
Theorem fixup_uint16_by_host (b : list Z) (k : nat) :
  (2 * k + 1 < length b)%nat -> all_bytes b = true ->
  (host_big_endian = false -> disk_identify_fixup_uint16 b k = b)
  /\ (host_big_endian = true ->
      nth (2 * k) (disk_identify_fixup_uint16 b k) 0 = nth (2 * k + 1) b 0
      /\ nth (2 * k + 1) (disk_identify_fixup_uint16 b k) 0 = nth (2 * k) b 0
      /\ disk_identify_fixup_uint16 (disk_identify_fixup_uint16 b k) k = b).
Proof.
  intros Hk Hb.
  assert (all_bytes (<[(2 * k + 1)%nat := nth (2 * k) b 0]>
                       (<[(2 * k)%nat := nth (2 * k + 1) b 0]> b)) = true)
    as Hb'.
  { apply all_bytes_insert; [apply all_bytes_insert|];
      try assumption; apply nth_all_bytes, Hb. }
  pose proof (nth_all_bytes b (2 * k) Hb) as H0.
  pose proof (nth_all_bytes b (2 * k + 1) Hb) as H1.
  split; intros Hhost.
  - rewrite fixup_uint16_bytes, Hhost by assumption. reflexivity.
  - rewrite !fixup_uint16_bytes, !Hhost;
      try assumption; try (apply nth_all_bytes; assumption).
    + split; [|split].
      * rewrite nth_insert_other by lia. apply nth_insert_same. lia.
      * apply nth_insert_same. rewrite length_insert. lia.
      * rewrite nth_insert_other by lia.
        rewrite nth_insert_same by lia.
        rewrite nth_insert_same by (rewrite length_insert; lia).
        rewrite (list_insert_insert_ne _ (2 * k) (2 * k + 1)) by lia.
        rewrite !list_insert_insert_eq, !insert_nth_id. reflexivity.
    + rewrite ?fixup_uint16_bytes, ?Hhost by assumption.
      apply nth_all_bytes, Hb'.
    + rewrite ?fixup_uint16_bytes, ?Hhost by assumption.
      apply nth_all_bytes, Hb'.
Qed.

End WordFixups.
End WordsMore.

(** ** The decoded words *)

Module DecodeMore.
Import Mach Mem GetString Sys Decode Main Report Observe.
Import GetStringFacts DecodeFacts GetStringMore WordsMore.

Lemma load_nth (b : list Z) (i : nat) :
  nth i b 0 = default 0 (load b (Z.of_nat i)).
Proof.
  unfold load. destruct (Z.ltb_spec (Z.of_nat i) 0); [lia|].
  rewrite Nat2Z.id. apply nth_lookup.
Qed.

(** One string fix-up on the block at address 0 changes nothing outside the
    field. *)
Lemma fixup_string_frame (fuel : nat) (b : list Z) (offset_words len : Z) :
  0 <= offset_words -> 0 <= len -> Z.even len = true ->
  offset_words * 2 + len <= 512 ->
  offset_words * 2 + len <= Z.of_nat (length b) ->
  (Z.to_nat (len / 2) < fuel)%nat ->
  exists b',
    disk_identify_fixup_string fuel b 0 offset_words len = Returned b'
    /\ length b' = length b
    /\ forall i : nat,
         ~ (offset_words * 2 <= Z.of_nat i < offset_words * 2 + len) ->
         nth i b' 0 = nth i b 0.
Proof.
  intros How Hlen Heven Hfield Hsrc Hfuel.
  unfold disk_identify_fixup_string.
  rewrite wrap_unsigned_small by (change (2 ^ 32) with 4294967296; lia).
  destruct (get_string_even fuel b 0 offset_words (0 + offset_words * 2) len)
    as (b' & Hrun & _ & Hlen' & Hframe);
    try (change (2 ^ 32) with 4294967296);
    try (change (2 ^ 64) with 18446744073709551616); try lia; try assumption.
  exists b'. split; [exact Hrun|]. split; [exact Hlen'|].
  intros i Hi. rewrite !load_nth, Hframe by lia. reflexivity.
Qed.

Lemma fixup_strings_frame (fuel : nat) (b : list Z) :
  (94 <= length b)%nat -> (20 < fuel)%nat ->
  exists b',
    fixup_strings fuel string_fixups b = Returned b'
    /\ length b' = length b
    /\ forall i : nat,
         ~ (20 <= i < 40)%nat -> ~ (46 <= i < 94)%nat ->
         nth i b' 0 = nth i b 0.
Proof.
  intros Hlen Hfuel. unfold string_fixups. simpl fixup_strings.
  destruct (fixup_string_frame fuel b 10 20) as (b1 & -> & Hl1 & Hf1);
    try reflexivity; try lia.
  { change (20 / 2) with 10. lia. }
  destruct (fixup_string_frame fuel b1 23 8) as (b2 & -> & Hl2 & Hf2);
    try reflexivity; try lia.
  { change (8 / 2) with 4. lia. }
  destruct (fixup_string_frame fuel b2 27 40) as (b3 & -> & Hl3 & Hf3);
    try reflexivity; try lia.
  { change (40 / 2) with 20. lia. }
  exists b3. split; [reflexivity|]. split; [lia|].
  intros i Hi1 Hi2. rewrite Hf3, Hf2, Hf1 by lia. reflexivity.
Qed.

Lemma uint16_fixups_apart (k : nat) :
  In k uint16_fixups ->
  (2 * k + 1 < 436)%nat
  /\ ~ (20 <= 2 * k < 40)%nat /\ ~ (46 <= 2 * k < 94)%nat
  /\ ~ (20 <= 2 * k + 1 < 40)%nat /\ ~ (46 <= 2 * k + 1 < 94)%nat.
Proof.
  unfold uint16_fixups. simpl.
  intros Hin. repeat (destruct Hin as [<-|Hin]; [lia|]). destruct Hin.
Qed.

Lemma uint16_fixups_NoDup : NoDup uint16_fixups.
Proof.
  apply (bool_decide_unpack _
           (dec := @NoDup_dec _ Nat.eq_dec uint16_fixups)).
  vm_compute. exact I.
Qed.

Section Decoded.
Context `{Platform}.

(** X12. The words that [main] fixes up are read, after the string and the
    word fix-ups, as the little-endian values of the bytes the block held
    before them, on a host of either byte order: the string fix-ups do not
    touch them, and each word fix-up corrects its own word only. *)
Theorem decoded_words_are_little_endian (fuel : nat) (b : list Z) :
  (436 <= length b)%nat -> all_bytes b = true -> (20 < fuel)%nat ->
  exists b1,
    fixup_strings fuel string_fixups b = Returned b1
    /\ length (fixup_words b1) = length b
    /\ forall k, In k uint16_fixups ->
         wyde (fixup_words b1) k = little_endian_word b k.
Proof.
  intros Hlen Hb Hfuel.
  destruct (fixup_strings_frame fuel b) as (b1 & Hrun & Hl1 & Hframe);
    try lia.
  exists b1. split; [exact Hrun|].
  assert (forall k, In k uint16_fixups ->
            nth (2 * k) b1 0 = nth (2 * k) b 0
            /\ nth (2 * k + 1) b1 0 = nth (2 * k + 1) b 0) as Hsame.
  { intros k Hin. destruct (uint16_fixups_apart k Hin) as (_ & ? & ? & ? & ?).
    split; apply Hframe; assumption. }
  destruct (fold_fixup_uint16 uint16_fixups uint16_fixups_NoDup b1)
    as (Hlen' & Hw & _).
  { intros k Hin. destruct (Hsame k Hin) as [-> ->].
    destruct (uint16_fixups_apart k Hin) as (Hk & _).
    split; [lia|]. split; apply nth_all_bytes, Hb. }
  split; [unfold fixup_words; lia|].
  intros k Hin. unfold fixup_words. rewrite Hw by exact Hin.
  unfold little_endian_word. destruct (Hsame k Hin) as [-> ->]. reflexivity.
Qed.

End Decoded.
End DecodeMore.

(** ** More on [main] *)

Module MainMore.
Import Mach Mem GetString Sys Transport Probe Decode Main Report Observe.
Import GetStringFacts TransportFacts DecodeFacts TransportMore GetStringMore.

Lemma nth_memzero (buf : list Z) (n : nat) :
  (n < 512)%nat -> nth n (memzero buf 512) 0 = 0.
Proof.
  intros Hn. unfold memzero.
  rewrite app_nth1 by (rewrite repeat_length; exact Hn).
  apply nth_repeat.
Qed.

Section Lengths.
Context `{Device}.

Lemma submit_length (cdb buf : list Z) (buf_len : Z) (s : sys) :
  length (snd (fst (fst (submit cdb buf buf_len s)))) = length buf.
Proof.
  unfold submit, mbind, ioctl_SG_IO, get_errno, mret.
  destruct (SG_IO (sys_world s) _) as [r4 w1]. simpl.
  destruct (rp_ret r4 =? 0); simpl; [apply transfer_length|].
  destruct (rp_errno r4 =? EINVAL); simpl; [|apply transfer_length].
  destruct (SG_IO w1 _) as [r3 w2]. simpl.
  destruct (rp_ret r3 =? 0); simpl; rewrite !transfer_length; reflexivity.
Qed.

Lemma identify_command_length (buf : list Z) (buf_len : Z) (s : sys) :
  length (snd (fst (disk_identify_command buf buf_len s))) = length buf.
Proof.
  rewrite <- (submit_length identify_cdb buf buf_len s).
  unfold disk_identify_command, mbind, set_errno, mret.
  destruct (submit identify_cdb buf buf_len s) as [[[rc buf'] sense] s1].
  simpl. destruct (rc =? 0); simpl; [|reflexivity].
  destruct (negb (sense_descriptor_ok sense) && negb (sense_fixed_ok sense));
    reflexivity.
Qed.

Lemma identify_packet_command_length (buf : list Z) (buf_len : Z) (s : sys) :
  length (snd (fst (disk_identify_packet_device_command buf buf_len s)))
  = length buf.
Proof.
  rewrite <- (submit_length identify_packet_cdb buf buf_len s).
  unfold disk_identify_packet_device_command, mbind, set_errno, mret.
  destruct (submit identify_packet_cdb buf buf_len s)
    as [[[rc buf'] sense] s1].
  simpl. destruct (rc =? 0); simpl; [|reflexivity].
  destruct (negb (sense_descriptor_ok sense)); reflexivity.
Qed.

Lemma disk_identify_length (out_identify inquiry_buf : list Z) (s : sys) :
  length (ir_identify (fst (disk_identify out_identify inquiry_buf s)))
  = length (memzero out_identify 512).
Proof.
  unfold disk_identify, mbind, set_errno, mret.
  destruct (disk_scsi_inquiry_command inquiry_buf 36 s) as [[ret inq] s1].
  destruct (ret =? 0); simpl; [|reflexivity].
  destruct (Z.land (nth 0 inq 0) 31 =? 5).
  - pose proof (identify_packet_command_length
                  (memzero out_identify 512) 512 s1) as Hlen.
    destruct (disk_identify_packet_device_command _ 512 s1) as [[retp out1] s2].
    destruct (check_nul_bytes_log retp out1 1 s2) as (_ & -> & _).
    exact Hlen.
  - destruct (negb _); simpl; [reflexivity|].
    pose proof (identify_command_length
                  (memzero out_identify 512) 512 s1) as Hlen.
    destruct (disk_identify_command _ 512 s1) as [[retd out1] s2].
    destruct (negb (retd =? 0)); simpl; [exact Hlen|].
    destruct (check_nul_bytes_log retd out1 0 s2) as (_ & -> & _).
    exact Hlen.
Qed.

(** A probe that stops before any IDENTIFY command hands back the block as
    [memzero] left it. *)
Lemma disk_identify_without_identify (out_identify inquiry_buf : list Z)
    (s : sys) :
  let inq := disk_scsi_inquiry_command inquiry_buf 36 s in
  let t := Z.land (nth 0 (snd (fst inq)) 0) 0x1f in
  fst (fst inq) <> 0 \/ (t <> 0x05 /\ t <> 0x00 /\ t <> 0x14) ->
  ir_ret (fst (disk_identify out_identify inquiry_buf s)) <> 0
  /\ ir_identify (fst (disk_identify out_identify inquiry_buf s))
     = memzero out_identify 512.
Proof.
  intros inq t. subst t.
  unfold disk_identify, mbind, set_errno, mret. fold inq.
  destruct inq as [[ret inq'] s1]. simpl.
  destruct (Z.eqb_spec ret 0) as [->|Hret]; simpl; [|auto].
  intros [Hne|(N5 & N0 & N20)]; [contradiction|].
  destruct (Z.eqb_spec (Z.land (nth 0 inq' 0) 31) 5); [contradiction|].
  destruct (Z.eqb_spec (Z.land (nth 0 inq' 0) 31) 0); [contradiction|].
  destruct (Z.eqb_spec (Z.land (nth 0 inq' 0) 31) 20); [contradiction|].
  simpl. split; [discriminate|reflexivity].
Qed.

End Lengths.

Section Fallback.
Context `{Device} `{Platform}.

Lemma wyde_memzero (buf : list Z) (k : nat) :
  (k < 256)%nat -> wyde (memzero buf 512) k = 0.
Proof.
  intros Hk. unfold wyde. rewrite !nth_memzero by lia.
  destruct host_big_endian; reflexivity.
Qed.

(** X13. [main] calls [HDIO_GET_IDENTITY] exactly when [disk_identify]
    failed, once, and after it; when [disk_identify] returned 0 the legacy
    call is not made. *)
Theorem legacy_call_iff_probe_failed (fuel : nat) (export : bool)
    (identify inquiry_buf : list Z) (s : sys) :
  let probe := disk_identify identify inquiry_buf s in
  sys_log (snd (main fuel export identify inquiry_buf s))
  = sys_log (snd probe)
    ++ (if ir_ret (fst probe) =? 0 then [] else [ EvHdioGetIdentity ]).
Proof.
  intros probe. subst probe.
  destruct (Z.eqb_spec (ir_ret (fst (disk_identify identify inquiry_buf s))) 0)
    as [Hok|Hfail].
  - rewrite app_nil_r. unfold main, mbind, mret.
    destruct (disk_identify identify inquiry_buf s) as [r s1].
    cbn [fst snd] in *. rewrite Hok. change (0 =? 0) with true. cbv iota.
    destruct (fixup_strings fuel string_fixups (ir_identify r)); reflexivity.
  - apply main_falls_back. exact Hfail.
Qed.

(** X14. With a block of 512 bytes and fuel for the longest string, [main]
    returns: with status 0 and its output, or with status 2 and no output;
    status 2 exactly when both [disk_identify] and [HDIO_GET_IDENTITY]
    failed. *)
Theorem main_exit_status (fuel : nat) (export : bool)
    (identify inquiry_buf : list Z) (s : sys) :
  length identify = 512%nat -> (20 < fuel)%nat ->
  let probe := disk_identify identify inquiry_buf s in
  let hr := fst (HDIO_GET_IDENTITY (sys_world (snd probe))) in
  exists status out,
    fst (main fuel export identify inquiry_buf s) = Returned (status, out)
    /\ (status = 0 \/ (status = 2 /\ out = []))
    /\ (status = 2 <-> ir_ret (fst probe) <> 0 /\ hr_ret hr <> 0).
Proof.
  intros Hlen Hfuel probe hr. subst hr probe.
  pose proof (disk_identify_length identify inquiry_buf s) as Hl.
  unfold memzero in Hl. rewrite length_app, repeat_length, length_drop in Hl.
  unfold main, mbind, mret, ioctl_HDIO_GET_IDENTITY.
  destruct (disk_identify identify inquiry_buf s) as [r s1].
  cbn [fst snd] in *.
  destruct (Z.eqb_spec (ir_ret r) 0) as [Hok|Hfail].
  - rewrite fixup_strings_block by lia. cbn [fst].
    eexists 0, _. split; [reflexivity|]. split; [auto|].
    split; [discriminate|]. intros [E _]. contradiction.
  - destruct (HDIO_GET_IDENTITY (sys_world s1)) as [hr w]. cbn [fst snd].
    destruct (Z.eqb_spec (hr_ret hr) 0) as [Hh|Hh]; cbn [negb fst].
    + eexists 0, _. split; [reflexivity|]. split; [auto|].
      split; [discriminate|]. intros [_ E]. contradiction.
    + exists 2, []. split; [reflexivity|]. split; [auto|]. split; auto.
Qed.

(** X15. When [disk_identify] stopped before any IDENTIFY command (INQUIRY
    failed, or the peripheral device type was refused) and the legacy call
    succeeds, [main] prints none of the SATA, rotation rate, WWN and CFA
    keys, whatever identity the legacy call delivered: they are read from
    the block of the failed probe, which is all zero. *)
Theorem legacy_output_has_no_block_keys (fuel : nat)
    (identify inquiry_buf : list Z) (s : sys) :
  let inq := disk_scsi_inquiry_command inquiry_buf 36 s in
  let t := Z.land (nth 0 (snd (fst inq)) 0) 0x1f in
  fst (fst inq) <> 0 \/ (t <> 0x05 /\ t <> 0x00 /\ t <> 0x14) ->
  forall status out,
    fst (main fuel true identify inquiry_buf s) = Returned (status, out) ->
    Forall (fun k => values_of k out = [])
      [ "ID_ATA_SATA"; "ID_ATA_SATA_SIGNAL_RATE_GEN1";
        "ID_ATA_SATA_SIGNAL_RATE_GEN2"; "ID_ATA_ROTATION_RATE_RPM";
        "ID_WWN"; "ID_WWN_WITH_EXTENSION"; "ID_ATA_CFA" ].
Proof.
  intros inq t Hstop status out.
  destruct (disk_identify_without_identify identify inquiry_buf s Hstop)
    as [Hfail Hblock].
  unfold main, mbind, mret, ioctl_HDIO_GET_IDENTITY.
  destruct (disk_identify identify inquiry_buf s) as [r s1].
  cbn [fst snd] in *.
  destruct (Z.eqb_spec (ir_ret r) 0) as [E|_]; [contradiction|].
  destruct (HDIO_GET_IDENTITY (sys_world s1)) as [hr w]. cbn [fst snd].
  destruct (negb (hr_ret hr =? 0)); cbn [fst]; intros E; injection E as <- <-.
  - repeat constructor.
  - rewrite Hblock.
    unfold output, export_type, export_strings, export_features.
    rewrite !wyde_memzero by lia.
    change (export_sata 0) with (@nil line).
    change (export_rotation_rate 0) with (@nil line).
    change (export_wwn 0 0 0 0) with (@nil line).
    change (export_cfa 0 0) with (@nil line).
    repeat (constructor; [repeat (progress values_of_norm); reflexivity|]).
    constructor.
Qed.

End Fallback.
End MainMore.

(** ** More on the output *)

Module OutputMore.
Import Mach Sys Decode Main Report Observe.
Import DecodeFacts.

Lemma keys_app (l1 l2 : list line) : keys (l1 ++ l2) = keys l1 ++ keys l2.
Proof.
  induction l1 as [|[k v|s] l1 IH]; simpl; [reflexivity| |exact IH].
  rewrite IH. reflexivity.
Qed.

Lemma keys_when_sub (b : bool) (l : list line) (K : list string) :
  keys l `sublist_of` K -> keys (when b l) `sublist_of` K.
Proof. destruct b; simpl; [auto|intros _; apply sublist_nil_l]. Qed.

Lemma sublist_group (n : nat) (l r K : list string) :
  l `sublist_of` take n K -> r `sublist_of` drop n K ->
  (l ++ r) `sublist_of` K.
Proof.
  intros Hl Hr. rewrite <- (take_drop n K). apply sublist_app; assumption.
Qed.

Ltac sub_keys :=
  cbn [keys];
  lazymatch goal with
  | |- [] `sublist_of` _ => apply sublist_nil_l
  | |- keys (when _ _) `sublist_of` _ => apply keys_when_sub; sub_keys
  | |- keys (if ?c then _ else _) `sublist_of` _ => destruct c; sub_keys
  | |- keys (_ ++ _) `sublist_of` _ => rewrite keys_app; sub_keys
  | |- (_ ++ _) `sublist_of` _ =>
    first [ sub_group 1%nat | sub_group 2%nat | sub_group 3%nat
          | sub_group 4%nat | sub_group 5%nat | sub_group 6%nat
          | sub_group 7%nat | sub_group 8%nat ]
  | |- (?k :: _) `sublist_of` (?k :: _) => apply sublist_skip; sub_keys
  | |- (_ :: _) `sublist_of` (_ :: _) => apply sublist_cons; sub_keys
  end
with sub_group n :=
  apply (sublist_group n); cbn [take drop]; [solve [sub_keys]|sub_keys].

Lemma export_key_order_NoDup : NoDup export_key_order.
Proof.
  apply (bool_decide_unpack _
           (dec := @NoDup_dec _ String.string_dec export_key_order)).
  vm_compute. exact I.
Qed.

Lemma config_is_atapi (c : Z) :
  negb (Z.land (Z.shiftr c 8) 0x80 =? 0) = Z.testbit c 15.
Proof.
  change 0x80 with (Z.shiftl 1 7).
  change (negb (Z.land (Z.shiftr c 8) (Z.shiftl 1 7) =? 0))
    with (bit_set (Z.shiftr c 8) 7).
  rewrite bit_set_testbit, Z.shiftr_spec by lia. reflexivity.
Qed.

Lemma config_device_type (c : Z) :
  Z.land (Z.shiftr c 8) 0x1f = (c / 256) mod 32.
Proof.
  change 0x1f with (Z.ones 5).
  rewrite Z.land_ones, Z.shiftr_div_pow2 by lia. reflexivity.
Qed.

Lemma land_c004 (w : Z) :
  (Z.land w 0xc004 =? 0x4004)
  = Z.testbit w 2 && Z.testbit w 14 && negb (Z.testbit w 15).
Proof.
  change 0xc004 with (Z.lor (Z.lor (Z.shiftl 1 2) (Z.shiftl 1 14)) (Z.shiftl 1 15)).
  rewrite !Z.land_lor_distr_r, !land_shiftl_1 by lia.
  destruct (Z.testbit w 2), (Z.testbit w 14), (Z.testbit w 15); reflexivity.
Qed.

Section Keys.
Context `{Platform}.

Lemma keys_export_type (id : hd_driveid) :
  keys (export_type id) `sublist_of` [ "ID_TYPE" ].
Proof. unfold export_type. sub_keys. Qed.

Lemma keys_export_strings (model model_enc revision serial : string) :
  keys (export_strings model model_enc revision serial)
  `sublist_of` take 6 (drop 2 export_key_order).
Proof. unfold export_strings, export_key_order. cbn [take drop]. sub_keys. Qed.

Lemma keys_export_features (id : hd_driveid) :
  keys (export_features id) `sublist_of` take 26 (drop 8 export_key_order).
Proof.
  unfold export_features, export_key_order. cbn [take drop]. sub_keys.
Qed.

Lemma keys_export_sata (w : Z) :
  keys (export_sata w) `sublist_of` take 3 (drop 34 export_key_order).
Proof. unfold export_sata, export_key_order. cbn [take drop]. sub_keys. Qed.

Lemma keys_export_rotation_rate (w : Z) :
  keys (export_rotation_rate w) `sublist_of` [ "ID_ATA_ROTATION_RATE_RPM" ].
Proof. unfold export_rotation_rate. sub_keys. Qed.

Lemma keys_export_wwn (a b c d : Z) :
  keys (export_wwn a b c d) `sublist_of` [ "ID_WWN"; "ID_WWN_WITH_EXTENSION" ].
Proof. unfold export_wwn. sub_keys. Qed.

Lemma keys_export_cfa (w0 w83 : Z) :
  keys (export_cfa w0 w83) `sublist_of` [ "ID_ATA_CFA" ].
Proof. unfold export_cfa. sub_keys. Qed.

(** X16. In export mode every line is an assignment, the first one is
    [ID_ATA=1], the keys come in the order of [export_key_order], and no key
    is printed twice. *)
Theorem export_keys_are_unique (id : hd_driveid) (identify : list Z) :
  let out := output true id identify in
  keys out `sublist_of` export_key_order
  /\ NoDup (keys out)
  /\ length (keys out) = length out
  /\ head out = Some (KV "ID_ATA" (Num 1)).
Proof.
  intros out.
  assert (keys out `sublist_of` export_key_order) as Hsub.
  { subst out. unfold output. rewrite !keys_app.
    apply (sublist_group 1); [reflexivity|].
    apply (sublist_group 1); [apply keys_export_type|].
    apply (sublist_group 6); [apply keys_export_strings|].
    apply (sublist_group 26); [apply keys_export_features|].
    apply (sublist_group 3); [apply keys_export_sata|].
    apply (sublist_group 1); [apply keys_export_rotation_rate|].
    apply (sublist_group 2); [apply keys_export_wwn|].
    apply keys_export_cfa. }
  split; [exact Hsub|]. split; [|split].
  - eapply sublist_NoDup; [apply export_key_order_NoDup|exact Hsub].
  - subst out. clear Hsub.
    assert (forall l : list line,
              Forall (fun x => exists k v, x = KV k v) l ->
              length (keys l) = length l) as Hkv.
    { induction 1 as [|x l (k & v & ->) _ IH]; simpl; [reflexivity|].
      rewrite IH. reflexivity. }
    apply Hkv. unfold_output.
    repeat first
      [ apply Forall_app; split
      | apply Forall_nil_2
      | apply Forall_cons; split; [eexists _, _; reflexivity|]
      | match goal with
        | |- Forall _ (when ?b _) => destruct b; unfold when
        | |- Forall _ (if ?b then _ else _) => destruct b
        end ].
  - reflexivity.
Qed.

(** X17. Export mode prints exactly one [ID_TYPE]: [disk] when bit 15 of
    the configuration word is clear, and otherwise the ATAPI type of bits 8
    to 12: 0 and 5 are [cd], 1 is [tape], 7 is [optical], anything else is
    [generic]. *)
Theorem id_type_by_configuration (id : hd_driveid) (identify : list Z) :
  values_of "ID_TYPE" (output true id identify)
  = [ Text (type_name (config id)) ].
Proof.
  unfold_output. values_of_norm. rewrite ?app_nil_r.
  rewrite config_is_atapi, !config_device_type. unfold type_name.
  destruct (Z.testbit (config id) 15); [|reflexivity].
  destruct (_ =? 0); [reflexivity|]. destruct (_ =? 1); [reflexivity|].
  destruct (_ =? 5); [reflexivity|]. destruct (_ =? 7); reflexivity.
Qed.

(** X18. The security details are printed only for a drive that supports
    the security feature set. For such a drive the erase time is twice word
    89; the level is printed only when security is enabled, [maximum] when
    bit 8 of the lock word is set and [high] otherwise; the enhanced erase
    time, expire, frozen and locked follow bits 5, 4, 3 and 2 of the lock
    word. *)
Theorem security_details (id : hd_driveid) (identify : list Z) :
  let out := output true id identify in
  let supported := Z.testbit (command_set_1 id) 1 in
  let flag := fun n => if supported && Z.testbit (dlf id) n
                       then [ Num 1 ] else [] in
  values_of "ID_ATA_FEATURE_SET_SECURITY_ERASE_UNIT_MIN" out
  = (if supported then [ Num (trseuc id * 2) ] else [])
  /\ values_of "ID_ATA_FEATURE_SET_SECURITY_LEVEL" out
     = (if supported && Z.testbit (cfs_enable_1 id) 1
        then [ Text (if Z.testbit (dlf id) 8 then "maximum" else "high") ]
        else [])
  /\ values_of "ID_ATA_FEATURE_SET_SECURITY_ENHANCED_ERASE_UNIT_MIN" out
     = (if supported && Z.testbit (dlf id) 5
        then [ Num (trsEuc id * 2) ] else [])
  /\ values_of "ID_ATA_FEATURE_SET_SECURITY_EXPIRE" out = flag 4
  /\ values_of "ID_ATA_FEATURE_SET_SECURITY_FROZEN" out = flag 3
  /\ values_of "ID_ATA_FEATURE_SET_SECURITY_LOCKED" out = flag 2.
Proof.
  intros out supported flag. subst out supported flag. cbv beta.
  repeat split; unfold_output; values_of_norm;
    rewrite ?bit_set_testbit by lia; rewrite ?app_nil_r;
    destruct (Z.testbit (command_set_1 id) 1); try reflexivity;
    cbn [andb];
    try (destruct (Z.testbit (cfs_enable_1 id) 1); try reflexivity);
    destruct (Z.testbit (dlf id) _); reflexivity.
Qed.

(** X19. For a drive that supports acoustic management the recommended
    and the current level are the high and the low byte of word 94; the
    current power-management level, the low byte of word 91, is printed only
    when power management is both supported and enabled. *)
Theorem acoustic_and_power_levels (id : hd_driveid) (identify : list Z) :
  let out := output true id identify in
  values_of "ID_ATA_FEATURE_SET_AAM_VENDOR_RECOMMENDED_VALUE" out
  = (if Z.testbit (command_set_2 id) 9
     then [ Num (acoustic id / 256) ] else [])
  /\ values_of "ID_ATA_FEATURE_SET_AAM_CURRENT_VALUE" out
     = (if Z.testbit (command_set_2 id) 9
        then [ Num (acoustic id mod 256) ] else [])
  /\ values_of "ID_ATA_FEATURE_SET_APM_CURRENT_VALUE" out
     = (if Z.testbit (command_set_2 id) 3 && Z.testbit (cfs_enable_2 id) 3
        then [ Num (CurAPMvalues id mod 256) ] else []).
Proof.
  intros out. subst out.
  repeat split; unfold_output; values_of_norm;
    rewrite ?bit_set_testbit by lia; rewrite ?app_nil_r;
    rewrite ?Z.shiftr_div_pow2 by lia;
    change 255 with (Z.ones 8); rewrite ?Z.land_ones by lia;
    change (2 ^ 8) with 256.
  - reflexivity.
  - reflexivity.
  - destruct (Z.testbit (command_set_2 id) 3); [|reflexivity].
    destruct (Z.testbit (cfs_enable_2 id) 3); reflexivity.
Qed.

(** X20. [ID_ATA_CFA=1] is printed exactly when word 0 is 0x848a or
    0x844a, or word 83 has bits 2 and 14 set and bit 15 clear. *)
Theorem cfa_key (id : hd_driveid) (identify : list Z) :
  let w0 := wyde identify 0 in
  let w83 := wyde identify 83 in
  values_of "ID_ATA_CFA" (output true id identify)
  = (if (w0 =? 0x848a) || (w0 =? 0x844a)
        || (Z.testbit w83 2 && Z.testbit w83 14 && negb (Z.testbit w83 15))
     then [ Num 1 ] else []).
Proof.
  intros w0 w83. subst w0 w83. unfold_output. values_of_norm.
  rewrite land_c004. reflexivity.
Qed.

(** X21. The single line of plain mode is the text that export mode prints
    as [ID_SERIAL]: model and serial number joined by an underscore, or the
    model alone when the serial number is empty. *)
Theorem plain_line_is_id_serial (id : hd_driveid) (identify : list Z) :
  exists text,
    output false id identify = [ Bare text ]
    /\ values_of "ID_SERIAL" (output true id identify) = [ Text text ].
Proof.
  unfold_output.
  destruct (negb (String.eqb _ "")) eqn:Hs.
  - eexists. split; [reflexivity|]. values_of_norm. reflexivity.
  - eexists. split; [reflexivity|]. values_of_norm. reflexivity.
Qed.

(** X22. A feature whose support bit is clear is not reported at all:
    neither its key nor its [_ENABLED] key is printed. *)
Theorem unsupported_feature_is_silent (f : feature) (id : hd_driveid)
    (identify : list Z) :
  Z.testbit (support_word f id) (feature_bit f) = false ->
  values_of (feature_key f) (output true id identify) = []
  /\ values_of (enabled_key f) (output true id identify) = [].
Proof.
  intros Hs. unfold enabled_key.
  destruct f; unfold support_word, feature_bit in Hs;
    unfold feature_key; simpl String.append;
    split; unfold_output; values_of_norm;
    rewrite ?bit_set_testbit by lia; rewrite ?Hs; reflexivity.
Qed.

End Keys.
End OutputMore.

(** ** The further properties on the test devices *)

Module ScenariosMore.
Import Mach Mem GetString Sys Transport Probe Decode Main Report Bench.
Import Observe BenchMore.
Import TransportMore GetStringMore WordsMore DecodeMore MainMore OutputMore.

Lemma inquiry_cdb_allocation_length_witness :
  nth 3 (inquiry_cdb 36) 0 * 256 + nth 4 (inquiry_cdb 36) 0 = 36.
Proof.
  destruct (inquiry_cdb_allocation_length 36) as (_ & _ & Hlen & _);
    [lia|exact Hlen].
Defined.

Lemma disk_identify_success_witness :
  fst (fst (disk_scsi_inquiry_command (repeat 0 36) 36 sata_disk)) = 0
  /\ exists n, (n < 512)%nat
       /\ nth n (ir_identify
                   (fst (disk_identify (repeat 0 512) (repeat 0 36) sata_disk)))
              0 <> 0.
Proof.
  destruct (disk_identify_success (repeat 0 512) (repeat 0 36) sata_disk)
    as (Hinq & _ & _ & _ & Hbyte).
  - vm_compute. reflexivity.
  - split; [exact Hinq|exact Hbyte].
Defined.

Lemma pass_through_12_is_gated_witness :
  let inq := disk_scsi_inquiry_command (repeat 0x05 36) 36 sata_disk in
  fst (fst inq) = 0
  /\ Z.land (nth 0 (snd (fst inq)) 0) 0x1f = 0x00
  /\ nth 0 (snd (fst inq)) 0 = 0x00
  /\ inquiry_data_first (repeat 0x05 36) (sys_world sata_disk) = Some 0x00.
Proof.
  destruct (pass_through_12_is_gated (repeat 0 512) (repeat 0x05 36) sata_disk
              (v4_request identify_cdb (repeat 0 512) 512))
    as (Hret & Htype & Hbyte & _).
  - vm_compute. right. left. reflexivity.
  - reflexivity.
  - split; [exact Hret|]. split; [|split; [exact (Hbyte eq_refl)|reflexivity]].
    destruct Htype as [E|E]; [exact E|]. vm_compute in E. discriminate E.
Defined.

(** A device that reports success for INQUIRY without transferring any data:
    the byte the response array held on entry picks the command. *)
Example stale_inquiry_byte_picks_the_command :
  let dev := boot [ empty_reply; ok_reply sample_block ] in
  let cdbs := fun stale =>
    map (fun e => match e with
                  | EvSgIo rq => rq_cdb rq
                  | EvHdioGetIdentity => []
                  end)
        (sys_log (snd (disk_identify (repeat 0 512) (stale :: repeat 0 35)
                         dev))) in
  inquiry_data_first (0x05 :: repeat 0 35) (sys_world dev) = None
  /\ cdbs 0x05 = [ inquiry_cdb 36; identify_packet_cdb ]
  /\ cdbs 0x14 = [ inquiry_cdb 36; identify_cdb ]
  /\ cdbs 0x00 = [ inquiry_cdb 36; identify_cdb ]
  /\ cdbs 0x11 = [ inquiry_cdb 36 ].
Proof. vm_compute. repeat split. Qed.

Lemma get_string_copies_witness :
  exists m',
    disk_identify_get_string 4 [ 1; 2; 3; 4; 5; 6; 0; 0; 0; 0; 0; 0 ] 0 0 6 6
    = Returned m'.
Proof.
  destruct (get_string_copies 4 [ 1; 2; 3; 4; 5; 6; 0; 0; 0; 0; 0; 0 ] 0 0 6 6)
    as (m' & Hrun & _).
  - lia.
  - lia.
  - lia.
  - vm_compute. split; [discriminate|reflexivity].
  - reflexivity.
  - vm_compute. discriminate.
  - vm_compute. discriminate.
  - vm_compute. discriminate.
  - right. vm_compute. discriminate.
  - vm_compute. lia.
  - exists m'. exact Hrun.
Defined.

Lemma string_fixups_swap_the_three_fields_witness :
  exists b',
    fixup_strings 21 string_fixups sample_block = Returned b'
    /\ length b' = length sample_block.
Proof.
  destruct (string_fixups_swap_the_three_fields 21 sample_block)
    as (b' & Hrun & Hlen & _).
  - vm_compute. lia.
  - lia.
  - exists b'. split; [exact Hrun|exact Hlen].
Defined.

Lemma decoded_words_are_little_endian_witness :
  exists b1,
    fixup_strings 21 string_fixups sample_block = Returned b1
    /\ wyde (fixup_words b1) 217 = little_endian_word sample_block 217.
Proof.
  destruct (decoded_words_are_little_endian 21 sample_block)
    as (b1 & Hrun & _ & Hwords).
  - vm_compute. lia.
  - vm_compute. reflexivity.
  - lia.
  - exists b1. split; [exact Hrun|]. apply Hwords. vm_compute. tauto.
Defined.

Lemma fixup_uint16_by_host_witness :
  disk_identify_fixup_uint16 sample_block 108 = sample_block.
Proof.
  destruct (fixup_uint16_by_host sample_block 108) as [Hle _].
  - vm_compute. lia.
  - vm_compute. reflexivity.
  - apply Hle. reflexivity.
Defined.

Lemma main_exit_status_witness :
  exists status out,
    fst (main 21 true (repeat 0 512) (repeat 0 36) deaf_device)
    = Returned (status, out)
    /\ (status = 0 \/ (status = 2 /\ out = [])).
Proof.
  destruct (main_exit_status 21 true (repeat 0 512) (repeat 0 36) deaf_device)
    as (status & out & Hrun & Hstatus & _).
  - reflexivity.
  - lia.
  - exists status, out. split; [exact Hrun|exact Hstatus].
Defined.

Lemma legacy_output_has_no_block_keys_witness :
  Forall (fun k => values_of k (output true blank_id (repeat 0 512)) = [])
    [ "ID_ATA_SATA"; "ID_ATA_SATA_SIGNAL_RATE_GEN1";
      "ID_ATA_SATA_SIGNAL_RATE_GEN2"; "ID_ATA_ROTATION_RATE_RPM";
      "ID_WWN"; "ID_WWN_WITH_EXTENSION"; "ID_ATA_CFA" ].
Proof.
  apply (legacy_output_has_no_block_keys 21 (repeat 0 512) (repeat 0 36)
           deaf_device) with (status := 0).
  - left. vm_compute. discriminate.
  - vm_compute. reflexivity.
Defined.

Lemma unsupported_feature_is_silent_witness :
  values_of (feature_key SMART) (output true blank_id sample_block) = []
  /\ values_of (enabled_key SMART) (output true blank_id sample_block) = [].
Proof.
  apply (unsupported_feature_is_silent SMART blank_id sample_block).
  reflexivity.
Defined.

End ScenariosMore.
